(** * Résumé classification pipeline (HW_06_Classification)

    A shallow embedding of the two data-preparation pipelines of the
    repository: the staged variant ([src/transformations], classes
    [...Stage] run by [ProcessingPipeline]) and the chained handler variant
    ([src/handlers], classes [...Handler]).

    Python text is a list of Unicode code points, a table cell is a text, an
    integer or a binary64 float (NaN is pandas' missing value), a raised
    exception is the [Raise] branch of [result]. *)

From Stdlib Require Import ZArith NArith List Bool Ascii String Lia.
From Stdlib Require Import Floats Permutation.
Import ListNotations.

Set Warnings "-inexact-float".
Local Open Scope Z_scope.

(** ** Exceptions *)

Inductive exn : Set :=
| AttributeError
| IndexError
| KeyError
| TypeError
| ValueError.

Inductive result (A : Type) : Type :=
| Ok (a : A)
| Raise (e : exn).

Arguments Ok {A} a.
Arguments Raise {A} e.

Definition bind {A B : Type} (m : result A) (k : A -> result B) : result B :=
  match m with
  | Ok a => k a
  | Raise e => Raise e
  end.

Notation "x <- m ;; k" := (bind m (fun x => k))
  (at level 61, m at next level, right associativity).

(** [try: body except handled: fallback]. *)
Definition try_except {A : Type} (body : result A) (handled : exn -> bool)
    (fallback : result A) : result A :=
  match body with
  | Ok a => Ok a
  | Raise e => if handled e then fallback else Raise e
  end.

Fixpoint mapM {A B : Type} (f : A -> result B) (l : list A) : result (list B) :=
  match l with
  | [] => Ok []
  | a :: t => b <- f a ;; bs <- mapM f t ;; Ok (b :: bs)
  end.

Fixpoint foldM {A B : Type} (f : B -> A -> result B) (l : list A) (b : B) : result B :=
  match l with
  | [] => Ok b
  | a :: t => b' <- f b a ;; foldM f t b'
  end.

Definition raises {A : Type} (m : result A) : bool :=
  match m with Ok _ => false | Raise _ => true end.

(** ** Text *)

Module Text.

Definition codepoint := N.
Definition str := list N.

(** Source literals are written as UTF-8 byte strings and decoded here. *)
Fixpoint utf8 (s : string) (acc : N) (more : nat) : str :=
  match s with
  | EmptyString => []
  | String a rest =>
      let b := N_of_ascii a in
      match more with
      | O =>
          if (b <? 128)%N then b :: utf8 rest 0%N O
          else if (b <? 224)%N then utf8 rest (N.land b 31) 1%nat
          else if (b <? 240)%N then utf8 rest (N.land b 15) 2%nat
          else utf8 rest (N.land b 7) 3%nat
      | S O => (acc * 64 + N.land b 63)%N :: utf8 rest 0%N O
      | S m => utf8 rest (acc * 64 + N.land b 63)%N m
      end
  end.

Definition u (s : string) : str := utf8 s 0%N O.

Definition eqb (a b : str) : bool :=
  if list_eq_dec N.eq_dec a b then true else false.

Lemma eqb_eq (a b : str) : eqb a b = true <-> a = b.
Proof.
  unfold eqb. destruct (list_eq_dec N.eq_dec a b); split; congruence.
Qed.

(** [s in l] for a list of texts. *)
Definition mem (s : str) (l : list str) : bool := existsb (eqb s) l.

(** [str.isspace] on one code point; the class [\s] of [re] on text
    patterns is the same set. *)
Definition is_space (c : N) : bool :=
  ((9 <=? c) && (c <=? 13) || (28 <=? c) && (c <=? 32)
   || (c =? 133) || (c =? 160) || (c =? 5760)
   || (8192 <=? c) && (c <=? 8202)
   || (c =? 8232) || (c =? 8233) || (c =? 8239) || (c =? 8287)
   || (c =? 12288))%N.

Fixpoint lstrip (s : str) : str :=
  match s with
  | c :: t => if is_space c then lstrip t else s
  | [] => []
  end.

Definition rstrip (s : str) : str := rev (lstrip (rev s)).

(** [s.strip()] *)
Definition strip (s : str) : str := rstrip (lstrip s).

Fixpoint split_from (sep : N) (s cur : str) : list str :=
  match s with
  | [] => [rev cur]
  | c :: t =>
      if (c =? sep)%N then rev cur :: split_from sep t []
      else split_from sep t (c :: cur)
  end.

(** [s.split(sep)] for a one-character separator. *)
Definition split (sep : N) (s : str) : list str := split_from sep s [].

(** [s.replace(a, b)] for one-character [a] and [b]. *)
Definition replace (a b : N) (s : str) : str :=
  map (fun c => if (c =? a)%N then b else c) s.

Fixpoint starts_with (p s : str) : bool :=
  match p, s with
  | [], _ => true
  | _ :: _, [] => false
  | a :: p', b :: s' => (a =? b)%N && starts_with p' s'
  end.

(** [needle in hay] *)
Fixpoint contains (needle hay : str) : bool :=
  starts_with needle hay
  || match hay with
     | [] => false
     | _ :: t => contains needle t
     end.

(** [sep.join(parts)] *)
Fixpoint join (sep : str) (parts : list str) : str :=
  match parts with
  | [] => []
  | [p] => p
  | p :: rest => p ++ sep ++ join sep rest
  end.

Definition comma : N := 44.
Definition space : N := 32.
Definition dot : N := 46.
Definition underscore : N := 95.
Definition nbsp : N := 160.

(** The decimal digits of a non-negative integer, most significant first. *)
Fixpoint digits_of_pos (fuel : nat) (n : N) (acc : str) : str :=
  match fuel with
  | O => acc
  | S fuel' =>
      let acc' := (48 + n mod 10)%N :: acc in
      if (n <? 10)%N then acc' else digits_of_pos fuel' (n / 10)%N acc'
  end.

(** [str(n)] for an [int]. *)
Definition of_Z (n : Z) : str :=
  let m := Z.to_N (Z.abs n) in
  let ds := digits_of_pos (S (N.to_nat (N.log2 m))) m [] in
  if n <? 0 then 45%N :: ds else ds.

End Text.

Import Text.
Arguments u s%_string.

(** ** Cell values and floats *)

(** binary64 floats as the Standard Library specifies them; [S754_nan] is
    the value pandas uses for a missing cell. *)
Definition float64 := spec_float.

Definition Z2F (n : Z) : float64 := binary_normalize prec emax n 0 false.
Definition fmul (x y : float64) : float64 := SF64mul x y.

Inductive value : Type :=
| VStr (s : str)
| VInt (n : Z)
| VFloat (f : float64).

Definition NaN : value := VFloat S754_nan.

(** [isinstance(v, str)] *)
Definition is_str (v : value) : bool :=
  match v with VStr _ => true | _ => false end.

(** [pd.isna(v)] on a scalar cell. *)
Definition is_missing (v : value) : bool :=
  match v with VFloat S754_nan => true | _ => false end.

(** [v > n] and [v <= n] for an integer literal [n]. *)
Definition py_gt (v : value) (n : Z) : result bool :=
  match v with
  | VInt m => Ok (n <? m)
  | VFloat f => Ok (SFltb (Z2F n) f)
  | VStr _ => Raise TypeError
  end.

Definition py_le (v : value) (n : Z) : result bool :=
  match v with
  | VInt m => Ok (m <=? n)
  | VFloat f => Ok (SFleb f (Z2F n))
  | VStr _ => Raise TypeError
  end.

(** [v == s] for a text literal [s]. *)
Definition py_eq_str (v : value) (s : str) : bool :=
  match v with VStr t => Text.eqb t s | _ => false end.

(** ** Builtins that consult the Unicode character database

    [str.lower], the decimal value of a digit character (what [int], [float]
    and the class [\d] accept), the per-character test of [str.isdigit] and
    the text of a float are CPython's; the embedding takes them as an
    interface, with the three facts about decimal digits that the
    experience parsers rely on: no decimal digit is a blank, the Cyrillic
    block holds none, and those of ASCII are [0] to [9]. *)

Class Unicode : Type := {
  str_lower : str -> str;
  decimal_value : N -> option Z;
  is_digit_char : N -> bool;
  float_repr : float64 -> str;
  decimal_not_space :
    forall c d, decimal_value c = Some d -> is_space c = false;
  cyrillic_not_decimal :
    forall c, (1024 <= c <= 1279)%N -> decimal_value c = None;
  ascii_decimal :
    forall c, (c < 128)%N ->
      decimal_value c = if ((48 <=? c) && (c <=? 57))%N then Some (Z.of_N c - 48) else None
}.

Section Builtins.
Context {U : Unicode}.

Definition is_decimal (c : N) : bool :=
  match decimal_value c with Some _ => true | None => false end.

(** [s.isdigit()] *)
Definition isdigit (s : str) : bool :=
  match s with
  | [] => false
  | _ :: _ => forallb is_digit_char s
  end.

Fixpoint decimal_digits (s : str) (acc : Z) : option Z :=
  match s with
  | [] => Some acc
  | c :: t =>
      match decimal_value c with
      | Some d => decimal_digits t (10 * acc + d)
      | None => None
      end
  end.

Definition is_empty (s : str) : bool :=
  match s with [] => true | _ :: _ => false end.

(** [int(s)]: surrounding whitespace, an optional sign, decimal digits with
    single underscores between them.  (CPython's configurable limit on the
    number of digits is not modelled.) *)
Definition split_sign (t : str) : bool * str :=
  match t with
  | c :: r =>
      if (c =? 45)%N then (true, r)
      else if (c =? 43)%N then (false, r)
      else (false, t)
  | [] => (false, t)
  end.

Definition py_int (s : str) : result Z :=
  let t := strip s in
  let '(neg, body) := split_sign t in
  let groups := split underscore body in
  if existsb is_empty groups then Raise ValueError
  else
    match decimal_digits (List.concat groups) 0 with
    | Some n => Ok (if neg then - n else n)
    | None => Raise ValueError
    end.

(** [float(s)] on a text built from [isdigit] tokens: such a text has no
    sign, point, exponent, underscore or blank, so it converts exactly when
    it is non-empty and all of its characters are decimal digits. *)
Definition py_float (s : str) : result float64 :=
  match s with
  | [] => Raise ValueError
  | _ :: _ =>
      match decimal_digits s 0 with
      | Some n => Ok (Z2F n)
      | None => Raise ValueError
      end
  end.

(** [str(v)] *)
Definition py_str (v : value) : str :=
  match v with
  | VStr s => s
  | VInt n => Text.of_Z n
  | VFloat f => float_repr f
  end.

End Builtins.

(** [l[i]] with Python's negative indices. *)
Definition py_index {A : Type} (l : list A) (i : Z) : result A :=
  let n := Z.of_nat (List.length l) in
  let j := if i <? 0 then n + i else i in
  if (j <? 0) || (n <=? j) then Raise IndexError
  else
    match nth_error l (Z.to_nat j) with
    | Some a => Ok a
    | None => Raise IndexError
    end.

(** [d.get(k, default)] and [d[k]] on a dict with text keys, kept in
    insertion order. *)
Fixpoint dict_find {A : Type} (d : list (str * A)) (k : str) : option A :=
  match d with
  | [] => None
  | (k', a) :: rest => if Text.eqb k' k then Some a else dict_find rest k
  end.

Definition dict_get {A : Type} (d : list (str * A)) (k : str) (default : A) : A :=
  match dict_find d k with Some a => a | None => default end.

Definition dict_item {A : Type} (d : list (str * A)) (k : str) : result A :=
  match dict_find d k with Some a => Ok a | None => Raise KeyError end.

(** ** Tables

    A pandas [DataFrame]: the row labels in order, and the columns in order,
    each with its dtype and one cell per row.  Booleans are the integers 1
    and 0 under the dtype [DBool]. *)

Inductive dtype : Set := DObject | DInt64 | DFloat64 | DBool.

Record column : Type := {
  cname : str;
  cdtype : dtype;
  cells : list value
}.

Record DataFrame : Type := {
  index : list Z;
  columns : list column
}.

Definition dtype_eqb (a b : dtype) : bool :=
  match a, b with
  | DObject, DObject | DInt64, DInt64 | DFloat64, DFloat64 | DBool, DBool => true
  | _, _ => false
  end.

(** Every column has one cell per row label. *)
Definition well_formed (df : DataFrame) : Prop :=
  Forall (fun c => List.length (cells c) = List.length (index df)) (columns df).

(** [df.columns.tolist()] *)
Definition column_names (df : DataFrame) : list str := map cname (columns df).

(** [name in df.columns] *)
Definition has_column (df : DataFrame) (name : str) : bool :=
  Text.mem name (column_names df).

Fixpoint find_column (cs : list column) (name : str) : option column :=
  match cs with
  | [] => None
  | c :: rest => if Text.eqb (cname c) name then Some c else find_column rest name
  end.

(** [df[name]] *)
Definition get_column (df : DataFrame) (name : str) : result column :=
  match find_column (columns df) name with
  | Some c => Ok c
  | None => Raise KeyError
  end.

Fixpoint replace_column (cs : list column) (c : column) : list column :=
  match cs with
  | [] => []
  | c' :: rest =>
      if Text.eqb (cname c') (cname c) then c :: rest
      else c' :: replace_column rest c
  end.

(** [df[name] = series]: overwrite in place, or append a new last column. *)
Definition set_column (df : DataFrame) (c : column) : DataFrame :=
  {| index := index df;
     columns := if has_column df (cname c) then replace_column (columns df) c
                else columns df ++ [c] |}.

(** [df.drop(columns=names)]: [KeyError] when a name is not a column. *)
Definition drop (df : DataFrame) (names : list str) : result DataFrame :=
  if forallb (has_column df) names
  then Ok {| index := index df;
             columns := filter (fun c => negb (Text.mem (cname c) names)) (columns df) |}
  else Raise KeyError.

(** The dtype pandas infers for the cells a function returned. *)
Definition infer_dtype (vs : list value) : dtype :=
  if forallb (fun v => match v with VInt _ => true | _ => false end) vs then
    match vs with [] => DObject | _ :: _ => DInt64 end
  else if forallb (fun v => negb (is_str v)) vs then DFloat64
  else DObject.

(** [series.apply(f)] *)
Definition apply (f : value -> result value) (c : column) : result (list value) :=
  mapM f (cells c).

Definition new_column (name : str) (vs : list value) : column :=
  {| cname := name; cdtype := infer_dtype vs; cells := vs |}.

(** [series.fillna('')] *)
Definition fillna_empty (c : column) : column :=
  {| cname := cname c;
     cdtype := if existsb is_missing (cells c) then DObject else cdtype c;
     cells := map (fun v => if is_missing v then VStr [] else v) (cells c) |}.

(** The rows of a table as [df.apply(f, axis=1)] hands them to [f]: a
    mapping from column name to the cell of that row.  (The tables these
    stages build always hold a text column, so pandas keeps every cell's
    own type in the row.) *)
Definition row := list (str * value).

Definition row_at (df : DataFrame) (i : nat) : row :=
  map (fun c => (cname c, nth i (cells c) NaN)) (columns df).

Definition rows (df : DataFrame) : list row :=
  map (row_at df) (seq 0 (List.length (index df))).

(** [df.apply(f, axis=1)] *)
Definition apply_rows (f : row -> result value) (df : DataFrame) : result (list value) :=
  mapM f (rows df).

(** The state the staged pipeline threads through its stages ([core.py]);
    the [metadata] dict, which no stage below reads or writes, is left
    out. *)
Record DataContainer : Type := {
  raw_data : option DataFrame;
  processed_data : option DataFrame;
  feature_matrix : option (list (list value));
  target_vector : option (list value);
  feature_labels : list str
}.

Definition set_processed_data (container : DataContainer) (t : DataFrame) : DataContainer :=
  {| raw_data := raw_data container;
     processed_data := Some t;
     feature_matrix := feature_matrix container;
     target_vector := target_vector container;
     feature_labels := feature_labels container |}.

(** Modelled from the spec: [PipelineContext], the shared state container
    of the handler chain, which [src/handlers] imports from [src.core] and
    no file under [src/] declares.  Its fields are the attributes the
    handlers read and write. *)
Record PipelineContext : Type := {
  df : option DataFrame;
  features : option (list (list value));
  target : option (list value);
  feature_names : list str
}.

(** [container.processed_data.copy()] / [ctx.df.copy()]: [None] has no
    method [copy]. *)
Definition copy (d : option DataFrame) : result DataFrame :=
  match d with Some t => Ok t | None => Raise AttributeError end.

(** [df.values]: one list of cells per row. *)
Definition values (t : DataFrame) : list (list value) :=
  map (fun r => map snd r) (rows t).

(** What a stage hands to [logging]: the level and the message (the values
    an f-string interpolates into a progress message are left out). *)
Inductive loglevel : Set := INFO | ERROR.
Definition log_record : Type := loglevel * str.

(** [series.astype(str)] *)
Section Astype.
Context {U : Unicode}.

Definition astype_str (c : column) : column :=
  {| cname := cname c;
     cdtype := DObject;
     cells := map (fun v => VStr (py_str v)) (cells c) |}.

(** [series.str.lower()]: the accessor exists for an object column whose
    cells are all missing or include a text ([AttributeError] otherwise);
    a cell that is not a text becomes NaN. *)
Definition str_lower_accessor (c : column) : result column :=
  if dtype_eqb (cdtype c) DObject
     && (forallb is_missing (cells c) || existsb is_str (cells c))
  then Ok {| cname := cname c;
             cdtype := DObject;
             cells := map (fun v => match v with
                                    | VStr s => VStr (str_lower s)
                                    | _ => NaN
                                    end) (cells c) |}
  else Raise AttributeError.

End Astype.

(** [df[name] = scalar] *)
Definition scalar_column (t : DataFrame) (name : str) (v : value) : column :=
  {| cname := name;
     cdtype := infer_dtype [v];
     cells := repeat v (List.length (index t)) |}.

Definition rename (c : column) (name : str) : column :=
  {| cname := name; cdtype := cdtype c; cells := cells c |}.

(** ** Regular expressions

    The fragment of [re] the experience parsers use: literals, the greedy
    repetitions [\d+] and [\s*], sequence, alternation and capturing
    groups, matched by backtracking as [re] does. *)

Module Re.

Inductive charclass : Set := Digit | Space.

Inductive regex : Type :=
| Lit (w : str)
| Star (c : charclass)
| Plus (c : charclass)
| Seq (a b : regex)
| Alt (a b : regex)
| Group (a : regex).

Section Matcher.
Context {U : Unicode}.

Definition in_class (c : charclass) (x : N) : bool :=
  match c with
  | Digit => is_decimal x
  | Space => is_space x
  end.

(** Greedy repetition of a character class: the longest run first, then
    shorter ones when the rest of the pattern fails. *)
Fixpoint star {A : Type} (p : N -> bool) (s : str) (k : str -> option A) : option A :=
  match s with
  | x :: t =>
      if p x then
        match star p t k with
        | Some r => Some r
        | None => k s
        end
      else k s
  | [] => k s
  end.

Fixpoint run (r : regex) (caps : list str) (s : str)
    (k : list str -> str -> option (list str)) : option (list str) :=
  match r with
  | Lit w => if starts_with w s then k caps (skipn (List.length w) s) else None
  | Star c => star (in_class c) s (k caps)
  | Plus c =>
      match s with
      | x :: t => if in_class c x then star (in_class c) t (k caps) else None
      | [] => None
      end
  | Seq a b => run a caps s (fun caps' s' => run b caps' s' k)
  | Alt a b =>
      match run a caps s k with
      | Some m => Some m
      | None => run b caps s k
      end
  | Group a =>
      run a caps s
        (fun caps' s' => k (caps' ++ [firstn (List.length s - List.length s') s]) s')
  end.

(** A match anchored at the start of [s]: the captured groups. *)
Definition match_at (r : regex) (s : str) : option (list str) :=
  run r [] s (fun caps _ => Some caps).

(** [re.search(r, s)]: the leftmost match. *)
Fixpoint search (r : regex) (s : str) : option (list str) :=
  match match_at r s with
  | Some m => Some m
  | None =>
      match s with
      | [] => None
      | _ :: t => search r t
      end
  end.

End Matcher.

(** [m.group(n)] for [n >= 1] *)
Definition group (m : list str) (n : nat) : str := nth (n - 1) m [].

End Re.

(** ** The staged variant: feature extractors
    ([src/transformations/feature_extractors.py]) *)

Definition is_ValueError (e : exn) : bool :=
  match e with ValueError => true | _ => false end.

Definition is_IndexError_or_ValueError (e : exn) : bool :=
  match e with IndexError | ValueError => true | _ => false end.

(** A cell function that returns an [int] (a [float]), as [apply] uses it
    to build the cells of a new column. *)
Definition int_cell (f : value -> result Z) (v : value) : result value :=
  n <- f v ;; Ok (VInt n).

Definition float_cell (f : value -> result float64) (v : value) : result value :=
  x <- f v ;; Ok (VFloat x).

Module PersonalInfoExtractorStage.
Section Stage.
Context {U : Unicode}.

Definition _parse_gender (v : value) : result Z :=
  match v with
  | VStr s =>
      first <- py_index (split comma s) 0 ;;
      let gender_part := strip first in
      Ok (if Text.mem gender_part [u "Мужчина"; u "Male"] then 0 else 1)
  | _ => Ok 0
  end.

Definition _parse_age (v : value) : result Z :=
  match v with
  | VStr s =>
      let parts := split comma s in
      if (List.length parts <? 2)%nat then Ok (-1)
      else
        second <- py_index parts 1 ;;
        age_str <- py_index (split space (replace nbsp space (strip second))) 0 ;;
        try_except (py_int age_str) is_ValueError (Ok (-1))
  | _ => Ok (-1)
  end.

Definition month_map : list (str * Z) :=
  [ (u "January", 0); (u "января", 0); (u "February", 1); (u "февраля", 1);
    (u "March", 2); (u "марта", 2); (u "April", 3); (u "апреля", 3);
    (u "May", 4); (u "мая", 4); (u "June", 5); (u "июня", 5);
    (u "July", 6); (u "июля", 6); (u "August", 7); (u "августа", 7);
    (u "September", 8); (u "сентября", 8); (u "October", 9); (u "октября", 9);
    (u "November", 10); (u "ноября", 10); (u "December", 11); (u "декабря", 11) ].

Definition _parse_birth_month (v : value) : result Z :=
  match v with
  | VStr s =>
      let parts := split comma s in
      if (List.length parts <? 3)%nat then Ok (-1)
      else
        third <- py_index parts 2 ;;
        month_str <- py_index (split space (replace nbsp space (strip third))) (-2) ;;
        Ok (dict_get month_map month_str (-1))
  | _ => Ok (-1)
  end.

Definition col : str := u "Пол, возраст".

Definition execute (container : DataContainer) : result DataContainer :=
  t <- copy (processed_data container) ;;
  source <- get_column t col ;;
  gender <- apply (int_cell _parse_gender) source ;;
  let t := set_column t (new_column (u "gender") gender) in
  source <- get_column t col ;;
  age <- apply (int_cell _parse_age) source ;;
  let t := set_column t (new_column (u "age") age) in
  source <- get_column t col ;;
  birth_month <- apply (int_cell _parse_birth_month) source ;;
  let t := set_column t (new_column (u "birth_month") birth_month) in
  t <- drop t [col] ;;
  Ok (set_processed_data container t).

End Stage.
End PersonalInfoExtractorStage.

Definition float_zero : float64 := S754_zero false.
Definition float_one : float64 := Eval vm_compute in Prim2SF 1.0%float.

Module SalaryExtractorStage.
Section Stage.
Context {U : Unicode}.

Definition CURRENCY_RATES : list (str * float64) :=
  Eval vm_compute in
  [ (u "руб.", Prim2SF 1.0%float); (u "USD", Prim2SF 73.35%float);
    (u "RUB", Prim2SF 1.0%float); (u "KZT", Prim2SF 0.18%float);
    (u "бел. руб.", Prim2SF 2.28%float); (u "EUR", Prim2SF 85.86%float);
    (u "грн.", Prim2SF 2.72%float); (u "сум", Prim2SF 0.005%float);
    (u "KGS", Prim2SF 0.98%float); (u "UAH", Prim2SF 2.5%float);
    (u "BYN", Prim2SF 2.5%float); (u "AZN", Prim2SF 41.1%float);
    (u "som", Prim2SF 0.005%float) ].

(** The [for idx, token in enumerate(cleaned)] loop: digit tokens are
    appended to [digits]; the first other token ends the loop and the
    tokens from there on, joined by spaces, are the currency. *)
Fixpoint scan_tokens (tokens : list str) (digits : str) : str * str :=
  match tokens with
  | [] => (digits, [])
  | token :: rest =>
      if isdigit token then scan_tokens rest (digits ++ token)
      else (digits, join [space] tokens)
  end.

Definition _normalize_salary (v : value) : result float64 :=
  match v with
  | VStr salary_str =>
      let cleaned := split space (strip (replace nbsp space salary_str)) in
      let '(digits, currency) := scan_tokens cleaned [] in
      if is_empty digits then Ok float_zero
      else
        try_except
          (amount <- py_float digits ;;
           let rate := dict_get CURRENCY_RATES (strip currency) float_one in
           Ok (fmul amount rate))
          is_ValueError
          (Ok float_zero)
  | _ => Ok float_zero
  end.

Definition execute (container : DataContainer) : result DataContainer :=
  t <- copy (processed_data container) ;;
  source <- get_column t (u "ЗП") ;;
  salary_rub <- apply (float_cell _normalize_salary) source ;;
  let t := set_column t (new_column (u "salary_rub") salary_rub) in
  t <- drop t [u "ЗП"] ;;
  Ok (set_processed_data container t).

End Stage.
End SalaryExtractorStage.

(** The two patterns of the experience parsers:
    [(\d+)\s*(?:год|года|лет)] and [(\d+)\s*(?:месяц|месяца|месяцев)]. *)
Definition years_pattern : Re.regex :=
  Re.Seq (Re.Group (Re.Plus Re.Digit))
    (Re.Seq (Re.Star Re.Space)
       (Re.Alt (Re.Lit (u "год")) (Re.Alt (Re.Lit (u "года")) (Re.Lit (u "лет"))))).

Definition months_pattern : Re.regex :=
  Re.Seq (Re.Group (Re.Plus Re.Digit))
    (Re.Seq (Re.Star Re.Space)
       (Re.Alt (Re.Lit (u "месяц")) (Re.Alt (Re.Lit (u "месяца")) (Re.Lit (u "месяцев"))))).

Module ExperienceExtractorStage.
Section Stage.
Context {U : Unicode}.

Definition _extract_months (v : value) : result Z :=
  match v with
  | VStr exp_str =>
      let years_match := Re.search years_pattern exp_str in
      let months_match := Re.search months_pattern exp_str in
      let total := 0 in
      total <- match years_match with
               | Some m => y <- py_int (Re.group m 1) ;; Ok (total + y * 12)
               | None => Ok total
               end ;;
      total <- match months_match with
               | Some m => n <- py_int (Re.group m 1) ;; Ok (total + n)
               | None => Ok total
               end ;;
      Ok total
  | _ => Ok 0
  end.

Definition exp_col : str := u "Опыт (двойное нажатие для полной версии)".

Definition execute (container : DataContainer) : result DataContainer :=
  t <- copy (processed_data container) ;;
  source <- get_column t exp_col ;;
  experience_months <- apply (int_cell _extract_months) source ;;
  let t := set_column t (new_column (u "experience_months") experience_months) in
  t <- drop t [exp_col] ;;
  Ok (set_processed_data container t).

End Stage.
End ExperienceExtractorStage.

Module LocationExtractorStage.

Definition REGION_MAPPING : list (str * list str) :=
  [ (u "Moscow & Oblast",
     [ u "Москва"; u "Moscow"; u "Зеленоград"; u "Подольск"; u "Балашиха"; u "Химки"; u "Мытищи";
       u "Королев"; u "Люберцы"; u "Красногорск"; u "Одинцово"; u "Домодедово"; u "Щелково";
       u "Серпухов"; u "Раменское"; u "Долгопрудный"; u "Реутов"; u "Пушкино"; u "Лобня" ]);
    (u "Saint Petersburg & Oblast",
     [ u "Санкт-Петербург"; u "Saint Petersburg"; u "Гатчина"; u "Выборг"; u "Всеволожск";
       u "Сосновый Бор"; u "Кириши"; u "Тихвин"; u "Сертолово" ]);
    (u "Central Federal District",
     [ u "Воронеж"; u "Ярославль"; u "Рязань"; u "Тверь"; u "Тула"; u "Липецк"; u "Курск";
       u "Брянск"; u "Иваново"; u "Белгород"; u "Владимир"; u "Калуга"; u "Орел"; u "Смоленск";
       u "Тамбов"; u "Кострома"; u "Старый Оскол" ]);
    (u "Volga Federal District",
     [ u "Казань"; u "Kazan"; u "Нижний Новгород"; u "Самара"; u "Уфа"; u "Пермь"; u "Саратов";
       u "Тольятти"; u "Ижевск"; u "Ульяновск"; u "Оренбург"; u "Пенза"; u "Набережные Челны";
       u "Чебоксары"; u "Киров"; u "Саранск"; u "Стерлитамак"; u "Йошкар-Ола" ]);
    (u "South and North Caucasus Federal District",
     [ u "Краснодар"; u "Ростов-на-Дону"; u "Волгоград"; u "Сочи"; u "Ставрополь"; u "Астрахань";
       u "Севастополь"; u "Симферополь"; u "Новороссийск"; u "Таганрог"; u "Махачкала";
       u "Владикавказ"; u "Грозный"; u "Майкоп"; u "Пятигорск" ]);
    (u "Ural Federal District",
     [ u "Екатеринбург"; u "Yekaterinburg"; u "Челябинск"; u "Тюмень"; u "Магнитогорск";
       u "Сургут"; u "Нижневартовск"; u "Курган"; u "Новый Уренгой"; u "Ноябрьск"; u "Ханты-Мансийск" ]);
    (u "Siberian Federal District",
     [ u "Новосибирск"; u "Novosibirsk"; u "Красноярск"; u "Омск"; u "Томск"; u "Барнаул";
       u "Иркутск"; u "Кемерово"; u "Новокузнецк"; u "Абакан"; u "Братск"; u "Ангарск" ]);
    (u "Far Eastern Federal District",
     [ u "Владивосток"; u "Хабаровск"; u "Улан-Удэ"; u "Чита"; u "Благовещенск"; u "Якутск";
       u "Петропавловск-Камчатский"; u "Южно-Сахалинск"; u "Находка" ]);
    (u "Kazakhstan",
     [ u "Алматы"; u "Almaty"; u "Нур-Султан"; u "Астана"; u "Astana"; u "Шымкент"; u "Актобе";
       u "Караганда"; u "Атырау"; u "Актау"; u "Павлодар"; u "Уральск" ]);
    (u "Belarus",
     [ u "Минск"; u "Minsk"; u "Гомель"; u "Витебск"; u "Могилев"; u "Гродно"; u "Брест" ]);
    (u "Other countries / CIS",
     [ u "Киев"; u "Kyiv"; u "Ташкент"; u "Бишкек"; u "Тбилиси"; u "Баку"; u "Ереван"; u "Рига"; u "Вильнюс" ]) ].

(** The [for region, cities in REGION_MAPPING.items()] loop. *)
Fixpoint region_of (mapping : list (str * list str)) (city_name : str) : str :=
  match mapping with
  | [] => u "Other"
  | (region, cities) :: rest =>
      if Text.mem city_name cities then region else region_of rest city_name
  end.

Definition _categorize_city (v : value) : result str :=
  match v with
  | VStr city_str =>
      first <- py_index (split comma city_str) 0 ;;
      let city_name := strip first in
      Ok (region_of REGION_MAPPING city_name)
  | _ => Ok (u "Other")
  end.

Definition str_cell (f : value -> result str) (v : value) : result value :=
  s <- f v ;; Ok (VStr s).

Definition execute (container : DataContainer) : result DataContainer :=
  t <- copy (processed_data container) ;;
  source <- get_column t (u "Город") ;;
  region <- apply (str_cell _categorize_city) source ;;
  let t := set_column t (new_column (u "region") region) in
  t <- drop t [u "Город"] ;;
  Ok (set_processed_data container t).

End LocationExtractorStage.

Section KeywordFlags.
Context {U : Unicode}.

(** [lambda x: 1 if any(kw in str(x).lower() for kw in keywords) else 0] *)
Definition keyword_flag (keywords : list str) (x : value) : result value :=
  Ok (VInt (if existsb (fun kw => contains kw (str_lower (py_str x))) keywords then 1 else 0)).

End KeywordFlags.

Module EmploymentExtractorStage.
Section Stage.
Context {U : Unicode}.

Definition EMPLOYMENT_TYPES : list (str * list str) :=
  [ (u "full_time", [u "полная занятость"; u "full time"]);
    (u "part_time", [u "частичная занятость"; u "part time"]);
    (u "project", [u "проектная работа"; u "project work"]);
    (u "internship", [u "стажировка"; u "work placement"]);
    (u "volunteering", [u "волонтерство"; u "volunteering"]) ].

Definition emp_col : str := u "Занятость".

Definition execute (container : DataContainer) : result DataContainer :=
  t <- copy (processed_data container) ;;
  t <- foldM (fun t '(emp_type, keywords) =>
                source <- get_column t emp_col ;;
                flags <- apply (keyword_flag keywords) source ;;
                Ok (set_column t (new_column (u "employment_" ++ emp_type) flags)))
             EMPLOYMENT_TYPES t ;;
  t <- drop t [emp_col] ;;
  Ok (set_processed_data container t).

End Stage.
End EmploymentExtractorStage.

Module ScheduleExtractorStage.
Section Stage.
Context {U : Unicode}.

Definition SCHEDULE_TYPES : list (str * list str) :=
  [ (u "full_day", [u "полный день"; u "full day"]);
    (u "flexible", [u "гибкий график"; u "flexible schedule"]);
    (u "shift", [u "сменный график"; u "shift schedule"]);
    (u "remote", [u "удаленная работа"; u "remote working"]);
    (u "rotation", [u "вахтовый метод"; u "rotation based work"]) ].

Definition schedule_col : str := u "График".

Definition execute (container : DataContainer) : result DataContainer :=
  t <- copy (processed_data container) ;;
  t <- foldM (fun t '(sched_type, keywords) =>
                source <- get_column t schedule_col ;;
                flags <- apply (keyword_flag keywords) source ;;
                Ok (set_column t (new_column (u "schedule_" ++ sched_type) flags)))
             SCHEDULE_TYPES t ;;
  t <- drop t [schedule_col] ;;
  Ok (set_processed_data container t).

End Stage.
End ScheduleExtractorStage.

Module EducationExtractorStage.
Section Stage.
Context {U : Unicode}.

Definition EDUCATION_LEVELS : list (str * list str) :=
  [ (u "incomplete_higher", [u "неоконченное высшее"; u "incomplete higher"]);
    (u "higher", [u "высшее образование"; u "higher education"]);
    (u "secondary_special", [u "среднее специальное"; u "secondary special"]);
    (u "secondary", [u "среднее образование"; u "secondary education"]) ].

Definition edu_col : str := u "Образование и ВУЗ".

Definition execute (container : DataContainer) : result DataContainer :=
  t <- copy (processed_data container) ;;
  t <- foldM (fun t '(edu_level, keywords) =>
                source <- get_column t edu_col ;;
                flags <- apply (keyword_flag keywords) source ;;
                Ok (set_column t (new_column (u "education_" ++ edu_level) flags)))
             EDUCATION_LEVELS t ;;
  t <- drop t [edu_col] ;;
  Ok (set_processed_data container t).

End Stage.
End EducationExtractorStage.

Module MiscExtractorStage.
Section Stage.
Context {U : Unicode}.

Definition _is_old_resume (v : value) : result Z :=
  match v with
  | VStr date_str =>
      try_except
        (field <- py_index (split dot date_str) 2 ;;
         token <- py_index (split space field) 0 ;;
         year <- py_int token ;;
         Ok (if year <=? 2018 then 1 else 0))
        is_IndexError_or_ValueError
        (Ok 0)
  | _ => Ok 0
  end.

Definition resume_col : str := u "Обновление резюме".
Definition car_col : str := u "Авто".
Definition last_place_col : str := u "Последенее/нынешнее место работы".
Definition last_position_col : str := u "Последеняя/нынешняя должность".

(** [lambda x: 1 if x == 'Имеется собственный автомобиль' else 0] *)
Definition owns_car (x : value) : result value :=
  Ok (VInt (if py_eq_str x (u "Имеется собственный автомобиль") then 1 else 0)).

Definition execute (container : DataContainer) : result DataContainer :=
  t <- copy (processed_data container) ;;
  t <- (if has_column t resume_col then
          source <- get_column t resume_col ;;
          resume_old <- apply (int_cell _is_old_resume) source ;;
          drop (set_column t (new_column (u "resume_old") resume_old)) [resume_col]
        else Ok t) ;;
  t <- (if has_column t car_col then
          source <- get_column t car_col ;;
          has_car <- apply owns_car source ;;
          drop (set_column t (new_column (u "has_car") has_car)) [car_col]
        else Ok t) ;;
  t <- (if has_column t last_place_col then drop t [last_place_col] else Ok t) ;;
  t <- (if has_column t last_position_col then drop t [last_position_col] else Ok t) ;;
  Ok (set_processed_data container t).

End Stage.
End MiscExtractorStage.

(** ** The staged variant: labeling ([src/transformations/labeling.py]) *)

Definition Junior : str := u "Junior".
Definition Middle : str := u "Middle".
Definition Senior : str := u "Senior".

(** [any(indicator in title for indicator in indicators)] *)
Definition any_in (indicators : list str) (title : str) : bool :=
  existsb (fun indicator => contains indicator title) indicators.

Module DeveloperLevelLabelerStage.
Section Stage.
Context {U : Unicode}.

Definition JUNIOR_INDICATORS : list str :=
  [ u "junior"; u "jun "; u "jr "; u "trainee"; u "стажер"; u "стажёр";
    u "intern"; u "младший"; u "начинающий" ].

Definition SENIOR_INDICATORS : list str :=
  [ u "senior"; u "sr "; u "lead"; u "principal"; u "staff"; u "ведущий";
    u "главный"; u "руководитель"; u "team lead"; u "architect";
    u "head of"; u "expert" ].

Definition MIDDLE_INDICATORS : list str :=
  [ u "middle"; u "mid "; u "мидл"; u "мидлл" ].

Definition _determine_level (r : row) : result str :=
  let job_title := str_lower (py_str (dict_get r (u "_job_title") (VStr []))) in
  let experience_months := dict_get r (u "experience_months") (VInt 0) in
  let has_junior := any_in JUNIOR_INDICATORS job_title in
  let has_senior := any_in SENIOR_INDICATORS job_title in
  let has_middle := any_in MIDDLE_INDICATORS job_title in
  if has_senior && has_junior then
    b <- py_gt experience_months 36 ;; Ok (if b then Senior else Junior)
  else if has_senior then Ok Senior
  else if has_junior then
    b <- py_gt experience_months 60 ;; Ok (if b then Middle else Junior)
  else if has_middle then
    b <- py_gt experience_months 96 ;; Ok (if b then Senior else Middle)
  else
    b <- py_le experience_months 18 ;;
    if b then Ok Junior
    else b' <- py_le experience_months 60 ;; Ok (if b' then Middle else Senior).

Definition job_title_col : str := u "Ищет работу на должность:".

Definition execute (container : DataContainer) : result DataContainer :=
  t <- copy (processed_data container) ;;
  t <- (if has_column t job_title_col then
          titles <- get_column t job_title_col ;;
          Ok (set_column t (rename (astype_str (fillna_empty titles)) (u "_job_title")))
        else Ok (set_column t (scalar_column t (u "_job_title") (VStr [])))) ;;
  labels <- apply_rows (fun r => l <- _determine_level r ;; Ok (VStr l)) t ;;
  let t := set_column t (new_column (u "developer_level") labels) in
  let columns_to_remove :=
    [u "_job_title"]
    ++ (if has_column t job_title_col then [job_title_col] else [])
    ++ (if has_column t (u "experience_months") then [u "experience_months"] else []) in
  t <- drop t columns_to_remove ;;
  level <- get_column t (u "developer_level") ;;
  Ok {| raw_data := raw_data container;
        processed_data := Some t;
        feature_matrix := feature_matrix container;
        target_vector := Some (cells level);
        feature_labels := feature_labels container |}.

End Stage.
End DeveloperLevelLabelerStage.

(** ** The handler variant: labeling ([src/handlers/labeling.py]) *)

Module LabelGradeHandler.
Section Handler.
Context {U : Unicode}.

Definition _JUNIOR_KW : list str :=
  [ u "junior"; u "jun "; u "jr "; u "trainee"; u "стажер"; u "стажёр";
    u "intern"; u "младший"; u "начинающий" ].

Definition _SENIOR_KW : list str :=
  [ u "senior"; u "sr "; u "lead"; u "principal"; u "staff"; u "ведущий";
    u "главный"; u "руководитель"; u "team lead"; u "architect";
    u "head of"; u "expert" ].

Definition _MIDDLE_KW : list str :=
  [ u "middle"; u "mid "; u "мидл"; u "мидлл" ].

(** [kw in title] needs an iterable [title]: a cell that [.str.lower()]
    turned into NaN makes the first test raise [TypeError]. *)
Definition _label (r : row) : result str :=
  title <- dict_item r (u "_title") ;;
  let exp := dict_get r (u "experience_months") (VInt 0) in
  title <- match title with VStr s => Ok s | _ => Raise TypeError end ;;
  let is_junior := any_in _JUNIOR_KW title in
  let is_senior := any_in _SENIOR_KW title in
  let is_middle := any_in _MIDDLE_KW title in
  if is_senior && is_junior then
    b <- py_gt exp 36 ;; Ok (if b then Senior else Junior)
  else if is_senior then Ok Senior
  else if is_junior then
    b <- py_gt exp 60 ;; Ok (if b then Middle else Junior)
  else if is_middle then
    b <- py_gt exp 96 ;; Ok (if b then Senior else Middle)
  else
    b <- py_le exp 18 ;;
    if b then Ok Junior
    else b' <- py_le exp 60 ;; Ok (if b' then Middle else Senior).

Definition raw_title_col : str := u "Ищет работу на должность:".
Definition last_position_col : str := u "Последеняя/нынешняя должность".

Definition _process (ctx : PipelineContext) : result PipelineContext :=
  t <- copy (df ctx) ;;
  t <- (if has_column t raw_title_col then
          titles <- get_column t raw_title_col ;;
          lowered <- str_lower_accessor (fillna_empty titles) ;;
          Ok (set_column t (rename lowered (u "_title")))
        else if has_column t (u "job") then
          titles <- get_column t (u "job") ;;
          lowered <- str_lower_accessor (fillna_empty titles) ;;
          Ok (set_column t (rename lowered (u "_title")))
        else Ok (set_column t (scalar_column t (u "_title") (VStr [])))) ;;
  labels <- apply_rows (fun r => l <- _label r ;; Ok (VStr l)) t ;;
  let t := set_column t (new_column (u "grade") labels) in
  let cols_to_drop :=
    [u "_title"]
    ++ (if has_column t raw_title_col then [raw_title_col] else [])
    ++ (if has_column t (u "experience_months") then [u "experience_months"] else [])
    ++ (if has_column t last_position_col then [last_position_col] else []) in
  t <- drop t cols_to_drop ;;
  grade <- get_column t (u "grade") ;;
  Ok {| df := Some t;
        features := features ctx;
        target := Some (cells grade);
        feature_names := feature_names ctx |}.

End Handler.
End LabelGradeHandler.

(** ** One-hot encoding as [pd.get_dummies] documents it *)

Definition float64_eq_dec (x y : float64) : {x = y} + {x <> y}.
Proof.
  decide equality; try apply Bool.bool_dec; try apply Pos.eq_dec; apply Z.eq_dec.
Defined.

Definition value_eq_dec (x y : value) : {x = y} + {x <> y}.
Proof.
  decide equality;
    [ apply (list_eq_dec N.eq_dec) | apply Z.eq_dec | apply float64_eq_dec ].
Defined.

Definition value_eqb (x y : value) : bool :=
  if value_eq_dec x y then true else false.

(** The cells that hold a value. *)
Definition observed (c : column) : list value :=
  filter (fun v => negb (is_missing v)) (cells c).

(** The distinct values of a list, in order of first appearance. *)
Fixpoint dedup (l : list value) : list value :=
  match l with
  | [] => []
  | x :: t => x :: filter (fun y => negb (value_eqb y x)) (dedup t)
  end.

Fixpoint str_ltb (a b : str) : bool :=
  match a, b with
  | _, [] => false
  | [], _ :: _ => true
  | x :: a', y :: b' => (x <? y)%N || (x =? y)%N && str_ltb a' b'
  end.

Definition value_leb (a b : value) : bool :=
  match a, b with
  | VStr x, VStr y => negb (str_ltb y x)
  | VInt x, VInt y => x <=? y
  | _, _ => true
  end.

Fixpoint insert_sorted (x : value) (l : list value) : list value :=
  match l with
  | [] => [x]
  | y :: t => if value_leb x y then x :: l else y :: insert_sorted x t
  end.

Definition sort_values (l : list value) : list value :=
  fold_right insert_sorted [] l.

Definition is_int (v : value) : bool :=
  match v with VInt _ => true | _ => false end.

(** The categories of a column: its distinct observed values, sorted when
    they are comparable (all texts, or all integers), otherwise in order
    of appearance. *)
Definition levels (c : column) : list value :=
  let d := dedup (observed c) in
  if forallb is_str d || forallb is_int d then sort_values d else d.

Section GetDummies.
Context {U : Unicode}.

(** The indicator columns of one source column with [drop_first=True]:
    one per category but the first, named [prefix + prefix_sep + value]. *)
Definition dummies (prefix_sep : str) (c : column) : list column :=
  map (fun l =>
         {| cname := cname c ++ prefix_sep ++ py_str l;
            cdtype := DBool;
            cells := map (fun v => VInt (if value_eqb v l then 1 else 0)) (cells c) |})
      (tl (levels c)).

(** [pd.get_dummies(t, columns=cols, drop_first=True, prefix_sep=sep)]:
    the columns not named in [cols], followed by the indicator columns of
    each named column, in the order of [cols]. *)
Definition get_dummies (t : DataFrame) (cols : list str) (prefix_sep : str) : result DataFrame :=
  encoded <- mapM (get_column t) cols ;;
  Ok {| index := index t;
        columns := filter (fun c => negb (Text.mem (cname c) cols)) (columns t)
                   ++ flat_map (dummies prefix_sep) encoded |}.

End GetDummies.

(** [df.select_dtypes(include=['object']).columns.tolist()] and its
    complement. *)
Definition object_columns (t : DataFrame) : list str :=
  map cname (filter (fun c => dtype_eqb (cdtype c) DObject) (columns t)).

Definition non_object_columns (t : DataFrame) : list str :=
  map cname (filter (fun c => negb (dtype_eqb (cdtype c) DObject)) (columns t)).

(** [l.remove(x)] guarded by [if x in l]. *)
Fixpoint remove_first (x : str) (l : list str) : list str :=
  match l with
  | [] => []
  | y :: t => if Text.eqb y x then t else y :: remove_first x t
  end.

(** ** The staged variant: preprocessing
    ([src/transformations/preprocessing.py]) *)

Module CategoricalEncoderStage.
Section Stage.
Context {U : Unicode}.

Definition target_col : str := u "developer_level".

Definition encode (t : DataFrame) : result DataFrame :=
  let categorical_cols := object_columns t in
  let categorical_cols :=
    if Text.mem target_col categorical_cols
    then remove_first target_col categorical_cols else categorical_cols in
  match categorical_cols with
  | [] => Ok t
  | _ :: _ =>
      df_encoded <- get_dummies t categorical_cols (u "_") ;;
      let numeric_cols := non_object_columns t in
      let numeric_cols :=
        if Text.mem target_col numeric_cols
        then remove_first target_col numeric_cols else numeric_cols in
      df_encoded <- foldM (fun enc name =>
                             if has_column enc name then Ok enc
                             else c <- get_column t name ;; Ok (set_column enc c))
                          numeric_cols df_encoded ;;
      if has_column t target_col then
        c <- get_column t target_col ;; Ok (set_column df_encoded c)
      else Ok df_encoded
  end.

Definition execute (container : DataContainer) : result DataContainer :=
  t <- copy (processed_data container) ;;
  t <- encode t ;;
  Ok (set_processed_data container t).

End Stage.
End CategoricalEncoderStage.

Module FeatureTargetSplitterStage.

Definition target_col : str := u "developer_level".

Definition execute (container : DataContainer) : result (DataContainer * list log_record) :=
  t <- copy (processed_data container) ;;
  if negb (has_column t target_col) then
    Ok (container, [(ERROR, u "Target variable 'developer_level' not found!")])
  else
    level <- get_column t target_col ;;
    feature_df <- drop t [target_col] ;;
    Ok ({| raw_data := raw_data container;
           processed_data := None;
           feature_matrix := Some (values feature_df);
           target_vector := Some (cells level);
           feature_labels := column_names feature_df |},
        [(INFO, u "Split complete.")]).

End FeatureTargetSplitterStage.

(** ** The handler variant: preprocessing ([src/handlers/preprocessing.py]) *)

Module EncodeCategoricalFeaturesHandler.
Section Handler.
Context {U : Unicode}.

Definition target_col : str := u "grade".

Definition _process (ctx : PipelineContext) : result PipelineContext :=
  t <- copy (df ctx) ;;
  let cat_cols := object_columns t in
  let cat_cols :=
    if Text.mem target_col cat_cols then remove_first target_col cat_cols else cat_cols in
  t <- get_dummies t cat_cols (u "_") ;;
  Ok {| df := Some t;
        features := features ctx;
        target := target ctx;
        feature_names := feature_names ctx |}.

End Handler.
End EncodeCategoricalFeaturesHandler.

Module SplitClassificationDataHandler.

Definition target_col : str := u "grade".

Definition _process (ctx : PipelineContext) : result (PipelineContext * list log_record) :=
  let started := (INFO, u "SplitClassificationDataHandler: Splitting X/y") in
  t <- copy (df ctx) ;;
  if negb (has_column t target_col) then
    Ok (ctx, [started; (ERROR, u "Grade column not found!")])
  else
    grade <- get_column t target_col ;;
    feature_df <- drop t [target_col] ;;
    feature_df' <- drop t [target_col] ;;
    Ok ({| df := None;
           features := Some (values feature_df);
           target := Some (cells grade);
           feature_names := column_names feature_df' |},
        [started; (INFO, u "SplitClassificationDataHandler: Done")]).

End SplitClassificationDataHandler.

(** ** The handler variant: parsing ([src/handlers/parsing.py]) *)

(** A [str] method called on a cell: a float or an int has none. *)
Definition str_method (v : value) : result str :=
  match v with
  | VStr s => Ok s
  | _ => Raise AttributeError
  end.

Module ParseGenderAgeBirthdayHandler.

Definition male_values : list str := [u "Мужчина"; u "Male"].

Definition extract_gender (v : value) : result Z :=
  s <- str_method v ;;
  first <- py_index (split comma s) 0 ;;
  let raw_gender := strip first in
  if Text.mem raw_gender male_values then Ok 0 else Ok 1.

End ParseGenderAgeBirthdayHandler.

Module ParseSalaryHandler.
Section Handler.
Context {U : Unicode}.

Definition currency_rates : list (str * float64) :=
  Eval vm_compute in
  [ (u "руб.", Prim2SF 1.0%float); (u "USD", Prim2SF 73.35%float);
    (u "RUB", Prim2SF 1.0%float); (u "KZT", Prim2SF 0.18%float);
    (u "бел. руб.", Prim2SF 2.28%float); (u "EUR", Prim2SF 85.86%float);
    (u "грн.", Prim2SF 2.72%float); (u "сум", Prim2SF 0.005%float);
    (u "KGS", Prim2SF 0.98%float); (u "UAH", Prim2SF 2.5%float);
    (u "BYN", Prim2SF 2.5%float); (u "AZN", Prim2SF 41.1%float);
    (u "som", Prim2SF 0.005%float) ].

Fixpoint scan_tokens (tokens : list str) (number : str) : str * str :=
  match tokens with
  | [] => (number, [])
  | cur :: rest =>
      if isdigit cur then scan_tokens rest (number ++ cur)
      else (number, join [space] tokens)
  end.

Definition extract_salary (v : value) : result float64 :=
  s <- str_method v ;;
  let tokens := split space (strip (replace nbsp space s)) in
  let '(number, currency) := scan_tokens tokens [] in
  rate <- dict_item currency_rates (strip currency) ;;
  amount <- py_float number ;;
  Ok (fmul rate amount).

End Handler.
End ParseSalaryHandler.

Module ParseExperienceHandler.
Section Handler.
Context {U : Unicode}.


End Handler.
End ParseExperienceHandler.

Module ParseResumeHandler.
Section Handler.
Context {U : Unicode}.

(** The bare [except:] catches every exception, the [AttributeError] of a
    cell without [split] included. *)
Definition is_old (v : value) : result Z :=
  try_except
    (date_string <- str_method v ;;
     field <- py_index (split dot date_string) 2 ;;
     token <- py_index (split space field) 0 ;;
     year <- py_int token ;;
     Ok (if 2018 <? year then 0 else 1))
    (fun _ => true)
    (Ok 0).

End Handler.
End ParseResumeHandler.

(** ** A concrete character database

    [BasicUnicode] agrees with CPython on Basic Latin, the Latin-1
    Supplement and Cyrillic: it lowers the capital letters of these blocks,
    knows the ASCII decimal digits and, for [str.isdigit], the superscript
    digits of Latin-1.  Its float text is CPython's for NaN, infinities,
    zeros and integral values below 10^16; for any other float it is the
    exact decimal expansion, not the shortest one that CPython prints.  The
    evaluations below use characters and floats inside this range only. *)

Module Basic.

Definition lower_char (c : N) : N :=
  if ((65 <=? c) && (c <=? 90))%N then (c + 32)%N
  else if ((192 <=? c) && (c <=? 222) && negb (c =? 215))%N then (c + 32)%N
  else if ((1040 <=? c) && (c <=? 1071))%N then (c + 32)%N
  else if ((1024 <=? c) && (c <=? 1039))%N then (c + 80)%N
  else c.

Definition lower (s : str) : str := map lower_char s.

Definition decimal (c : N) : option Z :=
  if ((48 <=? c) && (c <=? 57))%N then Some (Z.of_N c - 48) else None.

Definition digit_char (c : N) : bool :=
  ((48 <=? c) && (c <=? 57) || (c =? 178) || (c =? 179) || (c =? 185))%N.

Fixpoint strip_zeros (rev_digits : str) : str :=
  match rev_digits with
  | 48%N :: t => strip_zeros t
  | _ => rev_digits
  end.

(** The decimal expansion of [m * 2^e]. *)
Definition expansion (m : positive) (e : Z) : str :=
  if 0 <=? e then Text.of_Z (Z.pos m * 2 ^ e) ++ u ".0"
  else
    let places := Z.to_nat (- e) in
    let scaled := Text.of_Z (Z.pos m * 5 ^ (- e)) in
    let padded := repeat 48%N (S places - List.length scaled) ++ scaled in
    let whole := firstn (List.length padded - places) padded in
    let frac := rev (strip_zeros (rev (skipn (List.length padded - places) padded))) in
    whole ++ [dot] ++ match frac with [] => [48%N] | _ :: _ => frac end.

Definition repr (f : float64) : str :=
  match f with
  | S754_nan => u "nan"
  | S754_infinity false => u "inf"
  | S754_infinity true => u "-inf"
  | S754_zero false => u "0.0"
  | S754_zero true => u "-0.0"
  | S754_finite false m e => expansion m e
  | S754_finite true m e => 45%N :: expansion m e
  end.

Lemma decimal_not_space (c : N) (d : Z) : decimal c = Some d -> is_space c = false.
Proof.
  unfold decimal. destruct ((48 <=? c) && (c <=? 57))%N eqn:E; [intros _|discriminate].
  apply andb_true_iff in E. destruct E as [E1 E2].
  apply N.leb_le in E1. apply N.leb_le in E2.
  apply Bool.not_true_is_false. unfold is_space. intro H.
  repeat (apply orb_true_iff in H; destruct H as [H|H]);
    try (apply N.eqb_eq in H; lia);
    apply andb_true_iff in H; destruct H as [H1 H2];
    apply N.leb_le in H1; apply N.leb_le in H2; lia.
Qed.

Lemma cyrillic_not_decimal (c : N) : (1024 <= c <= 1279)%N -> decimal c = None.
Proof.
  intros [H1 H2]. unfold decimal.
  destruct ((48 <=? c) && (c <=? 57))%N eqn:E; [|reflexivity].
  apply andb_true_iff in E. destruct E as [_ E]. apply N.leb_le in E. lia.
Qed.

End Basic.

Definition BasicUnicode : Unicode :=
  {| str_lower := Basic.lower;
     decimal_value := Basic.decimal;
     is_digit_char := Basic.digit_char;
     float_repr := Basic.repr;
     decimal_not_space := Basic.decimal_not_space;
     cyrillic_not_decimal := Basic.cyrillic_not_decimal;
     ascii_decimal := fun c _ => eq_refl |}.

(** ** The staged variant: filtering ([src/transformations/filters.py]) *)

(** [df[mask]] for a boolean mask with one entry per row: the rows whose
    mask entry is true, in order.  (The mask of a table without rows is
    an empty Series that carries no boolean dtype; the properties of the
    filter below are stated for tables with at least one row.) *)
Fixpoint keep {A : Type} (mask : list bool) (l : list A) : list A :=
  match mask, l with
  | b :: mask', a :: l' => if b then a :: keep mask' l' else keep mask' l'
  | _, _ => []
  end.

Definition select_rows (mask : list bool) (t : DataFrame) : DataFrame :=
  {| index := keep mask (index t);
     columns := map (fun c => {| cname := cname c;
                                 cdtype := cdtype c;
                                 cells := keep mask (cells c) |}) (columns t) |}.

Module ITDeveloperFilterStage.
Section Stage.
Context {U : Unicode}.

Definition PRIMARY_KEYWORDS : list str :=
  [ u "разработчик"; u "developer"; u "программист"; u "programmer";
    u "devops"; u "sre"; u "backend"; u "frontend"; u "fullstack"; u "full-stack";
    u "full stack"; u "data scientist"; u "data analyst"; u "data engineer";
    u "machine learning"; u "ml engineer"; u "deep learning";
    u "qa"; u "тестировщик"; u "tester"; u "test engineer";
    u "системный администратор"; u "system administrator"; u "sysadmin";
    u "сетевой инженер"; u "network engineer";
    u "веб-разработчик"; u "web developer";
    u "ios"; u "android"; u "мобильный разработчик"; u "mobile developer";
    u "1с"; u "1c";
    u "dba"; u "database administrator"; u "администратор баз данных";
    u "информационная безопасность"; u "information security";
    u "аналитик данных"; u "бизнес-аналитик";
    u "scrum"; u "agile"; u "product owner"; u "project manager";
    u "ui/ux"; u "ux"; u "ui designer";
    u "верстальщик"; u "html";
    u "техническая поддержка"; u "technical support"; u "helpdesk" ].

Definition TECH_STACK_KEYWORDS : list str :=
  [ u "python"; u "java"; u "javascript"; u "typescript"; u "c++"; u "c#";
    u "golang"; u "go "; u "rust"; u "ruby"; u "php"; u "swift"; u "kotlin";
    u "react"; u "angular"; u "vue"; u "django"; u "flask"; u "spring";
    u "docker"; u "kubernetes"; u "k8s"; u "terraform"; u "ansible";
    u "aws"; u "azure"; u "gcp"; u "sql"; u "nosql"; u "mongodb"; u "postgresql";
    u "linux"; u "unix";
    u "api"; u "microservice"; u "микросервис" ].

Definition AMBIGUOUS_KEYWORDS : list str :=
  [ u "инженер"; u "engineer"; u "администратор"; u "admin";
    u "аналитик"; u "analyst"; u "архитектор"; u "architect";
    u "консультант"; u "consultant"; u "менеджер проект"; u "project manager" ].

Definition IT_CONTEXT_INDICATORS : list str :=
  [ u "по"; u "программ"; u "софт"; u "soft"; u "it"; u "ит";
    u "информац"; u "автоматиз"; u "асу"; u "erp"; u "crm"; u "sap";
    u "devops"; u "cloud"; u "облач"; u "сет"; u "network"; u "систем";
    u "данн"; u "data"; u "баз"; u "database"; u "cyber"; u "кибер";
    u "техн"; u "tech"; u "цифр"; u "digital" ].

Definition _is_it_position (v : value) : bool :=
  match v with
  | VStr job_title =>
      let title_lower := str_lower job_title in
      if any_in PRIMARY_KEYWORDS title_lower then true
      else if any_in TECH_STACK_KEYWORDS title_lower then true
      else if any_in AMBIGUOUS_KEYWORDS title_lower
           then any_in IT_CONTEXT_INDICATORS title_lower
           else false
  | _ => false
  end.

Definition job_title_column : str := u "Ищет работу на должность:".

(** [len(df)] of [None] is a [TypeError]; the mask is the predicate applied
    to each title cell.  (The retention rate goes to the log only.) *)
Definition execute (container : DataContainer) : result DataContainer :=
  match processed_data container with
  | None => Raise TypeError
  | Some t =>
      titles <- get_column t job_title_column ;;
      let mask := map _is_it_position (cells titles) in
      Ok (set_processed_data container (select_rows mask t))
  end.

End Stage.
End ITDeveloperFilterStage.

(** ** The handler variant: more of the parsers ([src/handlers/parsing.py]) *)

(** The age and birthday-month functions of [ParseGenderAgeBirthdayHandler]. *)
Module ParseGenderAgeBirthday.
Section Handler.
Context {U : Unicode}.

Definition extract_age (v : value) : result Z :=
  s <- str_method v ;;
  let data := split comma s in
  if (List.length data <? 2)%nat then Ok (-1)
  else
    second <- py_index data 1 ;;
    let raw_age := replace nbsp space (strip second) in
    raw_age <- py_index (split space raw_age) 0 ;;
    py_int raw_age.

(** The [match] statement on the month word. *)
Definition month_number (word : str) : Z :=
  if Text.mem word [u "January"; u "января"] then 0
  else if Text.mem word [u "February"; u "февраля"] then 1
  else if Text.mem word [u "March"; u "марта"] then 2
  else if Text.mem word [u "April"; u "апреля"] then 3
  else if Text.mem word [u "May"; u "мая"] then 4
  else if Text.mem word [u "June"; u "июня"] then 5
  else if Text.mem word [u "July"; u "июля"] then 6
  else if Text.mem word [u "August"; u "августа"] then 7
  else if Text.mem word [u "September"; u "сентября"] then 8
  else if Text.mem word [u "October"; u "октября"] then 9
  else if Text.mem word [u "November"; u "ноября"] then 10
  else if Text.mem word [u "December"; u "декабря"] then 11
  else -1.

Definition extract_birthday_month (v : value) : result Z :=
  s <- str_method v ;;
  let data := split comma s in
  if (List.length data <? 3)%nat then Ok (-1)
  else
    third <- py_index data 2 ;;
    let raw_birthday_month := replace nbsp space (strip third) in
    raw_birthday_month <- py_index (split space raw_birthday_month) (-2) ;;
    Ok (month_number raw_birthday_month).

End Handler.
End ParseGenderAgeBirthday.

Module ParseCityHandler.

Definition regions_map : list (str * list str) := LocationExtractorStage.REGION_MAPPING.

Definition extract_city (v : value) : result str :=
  s <- str_method v ;;
  first <- py_index (split comma s) 0 ;;
  let city_name := strip first in
  Ok (LocationExtractorStage.region_of regions_map city_name).

End ParseCityHandler.

Module ParseAutoHandler.

Definition _process (ctx : PipelineContext) : result PipelineContext :=
  t <- copy (df ctx) ;;
  source <- get_column t (u "Авто") ;;
  auto <- apply MiscExtractorStage.owns_car source ;;
  let t := set_column t (new_column (u "auto") auto) in
  t <- drop t [u "Авто"] ;;
  Ok {| df := Some t;
        features := features ctx;
        target := target ctx;
        feature_names := feature_names ctx |}.

End ParseAutoHandler.

Module ParseLastPlaceHandler.

(** [ctx.df.drop(...)]: [None] has no method [drop]. *)
Definition _process (ctx : PipelineContext) : result PipelineContext :=
  t <- match df ctx with Some t => Ok t | None => Raise AttributeError end ;;
  t <- drop t [u "Последенее/нынешнее место работы"] ;;
  Ok {| df := Some t;
        features := features ctx;
        target := target ctx;
        feature_names := feature_names ctx |}.

End ParseLastPlaceHandler.

(** [ParseResumeHandler._process], around the cell function [is_old]. *)
Module ParseResume.
Section Handler.
Context {U : Unicode}.

Definition _process (ctx : PipelineContext) : result PipelineContext :=
  t <- copy (df ctx) ;;
  source <- get_column t (u "Обновление резюме") ;;
  old_resume <- apply (int_cell ParseResumeHandler.is_old) source ;;
  let t := set_column t (new_column (u "old_resume") old_resume) in
  t <- drop t [u "Обновление резюме"] ;;
  Ok {| df := Some t;
        features := features ctx;
        target := target ctx;
        feature_names := feature_names ctx |}.

End Handler.
End ParseResume.

(** ** The handler variant: filtering ([src/handlers/filtering.py]) *)

Module FilterITRolesHandler.
Section Handler.
Context {U : Unicode}.

Definition _STRONG_KEYWORDS : list str :=
  [ u "разработчик"; u "developer"; u "программист"; u "programmer";
    u "devops"; u "sre"; u "backend"; u "frontend"; u "fullstack"; u "full-stack";
    u "full stack"; u "data scientist"; u "data analyst"; u "data engineer";
    u "machine learning"; u "ml engineer"; u "deep learning";
    u "qa"; u "тестировщик"; u "tester"; u "test engineer";
    u "системный администратор"; u "system administrator"; u "sysadmin";
    u "сетевой инженер"; u "network engineer";
    u "веб-разработчик"; u "web developer";
    u "ios"; u "android"; u "мобильный разработчик"; u "mobile developer";
    u "1с"; u "1c";
    u "dba"; u "database administrator"; u "администратор баз данных";
    u "информационная безопасность"; u "information security";
    u "аналитик данных"; u "бизнес-аналитик";
    u "scrum"; u "agile"; u "product owner"; u "project manager";
    u "ui/ux"; u "ux"; u "ui designer";
    u "верстальщик"; u "html";
    u "техническая поддержка"; u "technical support"; u "helpdesk" ].

Definition _TECH_KEYWORDS : list str :=
  [ u "python"; u "java"; u "javascript"; u "typescript"; u "c++"; u "c#";
    u "golang"; u "go "; u "rust"; u "ruby"; u "php"; u "swift"; u "kotlin";
    u "react"; u "angular"; u "vue"; u "django"; u "flask"; u "spring";
    u "docker"; u "kubernetes"; u "k8s"; u "terraform"; u "ansible";
    u "aws"; u "azure"; u "gcp"; u "sql"; u "nosql"; u "mongodb"; u "postgresql";
    u "linux"; u "unix";
    u "api"; u "microservice"; u "микросервис" ].

Definition _WEAK_KEYWORDS : list str :=
  [ u "инженер"; u "engineer"; u "администратор"; u "admin";
    u "аналитик"; u "analyst"; u "архитектор"; u "architect";
    u "консультант"; u "consultant"; u "менеджер проект"; u "project manager" ].

Definition _IT_CONTEXT : list str :=
  [ u "по"; u "программ"; u "софт"; u "soft"; u "it"; u "ит";
    u "информац"; u "автоматиз"; u "асу"; u "erp"; u "crm"; u "sap";
    u "devops"; u "cloud"; u "облач"; u "сет"; u "network"; u "систем";
    u "данн"; u "data"; u "баз"; u "database"; u "cyber"; u "кибер";
    u "техн"; u "tech"; u "цифр"; u "digital" ].

Definition is_it_role (v : value) : bool :=
  match v with
  | VStr value =>
      let val := str_lower value in
      if any_in _STRONG_KEYWORDS val then true
      else if any_in _TECH_KEYWORDS val then true
      else if any_in _WEAK_KEYWORDS val then any_in _IT_CONTEXT val
      else false
  | _ => false
  end.

End Handler.
End FilterITRolesHandler.

(** ** The handler variant: keyword flags ([src/handlers/parsing.py]) *)

Section HandlerFlags.
Context {U : Unicode}.

(** [check_employment], [check_schedule] and the education [lambda]:
    [value.lower()], then [1 if any(keyword in ... for keyword in keywords)
    else 0]. *)
Definition check_keywords (keywords : list str) (v : value) : result value :=
  s <- str_method v ;;
  let value_lower := str_lower s in
  Ok (VInt (if existsb (fun keyword => contains keyword value_lower) keywords then 1 else 0)).

End HandlerFlags.

Module ParseEmploymentHandler.
Section Handler.
Context {U : Unicode}.

Definition employment_map : list (str * list str) :=
  [ (u "full_time", [u "полная занятость"; u "full time"]);
    (u "part_time", [u "частичная занятость"; u "part time"]);
    (u "project", [u "проектная работа"; u "project work"]);
    (u "internship", [u "стажировка"; u "work placement"]);
    (u "volunteering", [u "волонтерство"; u "volunteering"]) ].

Definition check_employment : list str -> value -> result value := check_keywords.

Definition _process (ctx : PipelineContext) : result PipelineContext :=
  t <- copy (df ctx) ;;
  t <- foldM (fun t '(column_name, keywords) =>
                source <- get_column t (u "Занятость") ;;
                flags <- apply (check_employment keywords) source ;;
                Ok (set_column t (new_column (u "emp_" ++ column_name) flags)))
             employment_map t ;;
  t <- drop t [u "Занятость"] ;;
  Ok {| df := Some t;
        features := features ctx;
        target := target ctx;
        feature_names := feature_names ctx |}.

End Handler.
End ParseEmploymentHandler.

Module ParseWorkScheduleHandler.
Section Handler.
Context {U : Unicode}.

Definition schedule_map : list (str * list str) :=
  [ (u "full_day", [u "полный день"; u "full day"]);
    (u "flexible", [u "гибкий график"; u "flexible schedule"]);
    (u "shift", [u "сменный график"; u "shift schedule"]);
    (u "remote", [u "удаленная работа"; u "remote working"]);
    (u "rotation", [u "вахтовый метод"; u "rotation based work"]) ].

Definition check_schedule : list str -> value -> result value := check_keywords.

Definition _process (ctx : PipelineContext) : result PipelineContext :=
  t <- copy (df ctx) ;;
  t <- foldM (fun t '(column_name, keywords) =>
                source <- get_column t (u "График") ;;
                flags <- apply (check_schedule keywords) source ;;
                Ok (set_column t (new_column (u "sch_" ++ column_name) flags)))
             schedule_map t ;;
  t <- drop t [u "График"] ;;
  Ok {| df := Some t;
        features := features ctx;
        target := target ctx;
        feature_names := feature_names ctx |}.

End Handler.
End ParseWorkScheduleHandler.

Module ParseEducationHandler.
Section Handler.
Context {U : Unicode}.

Definition mapping : list (str * list str) :=
  [ (u "incomplete_higher", [u "неоконченное высшее"; u "incomplete higher"]);
    (u "higher", [u "высшее образование"; u "higher education"]);
    (u "secondary_special", [u "среднее специальное"; u "secondary special"]);
    (u "secondary", [u "среднее образование"; u "secondary education"]) ].

Definition _process (ctx : PipelineContext) : result PipelineContext :=
  t <- copy (df ctx) ;;
  t <- foldM (fun t '(column_suffix, keywords) =>
                source <- get_column t (u "Образование и ВУЗ") ;;
                flags <- apply (check_keywords keywords) source ;;
                Ok (set_column t (new_column (u "edu_" ++ column_suffix) flags)))
             mapping t ;;
  t <- drop t [u "Образование и ВУЗ"] ;;
  Ok {| df := Some t;
        features := features ctx;
        target := target ctx;
        feature_names := feature_names ctx |}.

End Handler.
End ParseEducationHandler.

(** * What the claims speak of

    The notions the properties below are stated with: the token, rule and
    count each parser is compared against, the tables the stages are said
    to leave, and the small tables the stages are run on. *)

Section Notions.
Context {U : Unicode}.

(** The part of [s] before the first [sep]. *)
Fixpoint before (sep : N) (s : str) : str :=
  match s with
  | [] => []
  | c :: t => if (c =? sep)%N then [] else c :: before sep t
  end.

Definition MALE_LITERALS : list str := [u "Мужчина"; u "Male"].

(** The first comma-separated token of a cell text, stripped. *)
Definition gender_token (s : str) : str := strip (before comma s).

(** The year token of a date text: the third [.]-separated field, up to
    its first space. *)
Definition year_token (s : str) : option str :=
  match nth_error (split dot s) 2 with
  | Some field => Some (before space field)
  | None => None
  end.

(** The cell is a text whose year token parses as an integer that is at
    most 2018. *)
Definition resume_is_old (v : value) : Prop :=
  exists s tok year,
    v = VStr s /\ year_token s = Some tok /\ py_int tok = Ok year /\ year <= 2018.

(** The digits and the currency descriptor both loops read off a text. *)
Definition salary_parts (s : str) : str * str :=
  SalaryExtractorStage.scan_tokens (split space (strip (replace nbsp space s))) [].

Definition salary_digits (s : str) : str := fst (salary_parts s).

Definition salary_currency (s : str) : str := strip (snd (salary_parts s)).

(** [kw] occurs in [t] as a contiguous run of characters. *)
Definition is_substring (kw t : str) : Prop :=
  exists pre post, t = pre ++ kw ++ post.

(** The title contains one of the indicators of a keyword list. *)
Definition has_indicator (indicators : list str) (title : str) : Prop :=
  exists kw, In kw indicators /\ is_substring kw title.

Definition JUNIOR : list str := DeveloperLevelLabelerStage.JUNIOR_INDICATORS.

Definition SENIOR : list str := DeveloperLevelLabelerStage.SENIOR_INDICATORS.

Definition MIDDLE : list str := DeveloperLevelLabelerStage.MIDDLE_INDICATORS.

(** The ordered labeling rules, on a lowercased title and the experience
    in months. *)
Inductive label_rule (title : str) (months : Z) : str -> Prop :=
| conflict_long :
    has_indicator SENIOR title -> has_indicator JUNIOR title -> months > 36 ->
    label_rule title months Senior
| conflict_short :
    has_indicator SENIOR title -> has_indicator JUNIOR title -> months <= 36 ->
    label_rule title months Junior
| senior_title :
    has_indicator SENIOR title -> ~ has_indicator JUNIOR title ->
    label_rule title months Senior
| junior_title_long :
    ~ has_indicator SENIOR title -> has_indicator JUNIOR title -> months > 60 ->
    label_rule title months Middle
| junior_title :
    ~ has_indicator SENIOR title -> has_indicator JUNIOR title -> months <= 60 ->
    label_rule title months Junior
| middle_title_long :
    ~ has_indicator SENIOR title -> ~ has_indicator JUNIOR title ->
    has_indicator MIDDLE title -> months > 96 ->
    label_rule title months Senior
| middle_title :
    ~ has_indicator SENIOR title -> ~ has_indicator JUNIOR title ->
    has_indicator MIDDLE title -> months <= 96 ->
    label_rule title months Middle
| experience_junior :
    ~ has_indicator SENIOR title -> ~ has_indicator JUNIOR title ->
    ~ has_indicator MIDDLE title -> months <= 18 ->
    label_rule title months Junior
| experience_middle :
    ~ has_indicator SENIOR title -> ~ has_indicator JUNIOR title ->
    ~ has_indicator MIDDLE title -> 18 < months <= 60 ->
    label_rule title months Middle
| experience_senior :
    ~ has_indicator SENIOR title -> ~ has_indicator JUNIOR title ->
    ~ has_indicator MIDDLE title -> months > 60 ->
    label_rule title months Senior.

(** The label both row functions compute once the title text and an
    integer experience are in hand. *)
Definition label_of (title : str) (months : Z) : str :=
  if any_in SENIOR title && any_in JUNIOR title then
    if 36 <? months then Senior else Junior
  else if any_in SENIOR title then Senior
  else if any_in JUNIOR title then
    if 60 <? months then Middle else Junior
  else if any_in MIDDLE title then
    if 96 <? months then Senior else Middle
  else if months <=? 18 then Junior
  else if months <=? 60 then Middle
  else Senior.

(** The lowercased title the staged row function reads. *)
Definition staged_title (r : row) : str :=
  str_lower (py_str (dict_get r (u "_job_title") (VStr []))).



(** The helper column the staged stage adds before labeling: the titles
    with missing cells filled and every cell turned into text, or empty
    texts when the table has no title column. *)
Definition staged_helper (t : DataFrame) : column :=
  match find_column (columns t) DeveloperLevelLabelerStage.job_title_col with
  | Some titles => rename (astype_str (fillna_empty titles)) (u "_job_title")
  | None => scalar_column t (u "_job_title") (VStr [])
  end.









(** [ProcessingPipeline.run]: the stages in order, each on the container
    the one before returned. *)
Definition run (stages : list (DataContainer -> result DataContainer))
    (container : DataContainer) : result DataContainer :=
  foldM (fun current stage => stage current) stages container.


(** The columns the encoding stage replaces: the object columns other
    than the target. *)
Definition is_encoded (target : str) (c : column) : bool :=
  dtype_eqb (cdtype c) DObject && negb (Text.eqb (cname c) target).

Definition encoded_columns (target : str) (t : DataFrame) : list column :=
  filter (is_encoded target) (columns t).

Definition kept_columns (target : str) (t : DataFrame) : list column :=
  filter (fun c => negb (is_encoded target c)) (columns t).

(** The table one-hot encoding leaves: the columns that are kept, in
    order, then the indicator columns of each encoded column. *)
Definition encoded_table (target : str) (t : DataFrame) : DataFrame :=
  {| index := index t;
     columns := kept_columns target t
                ++ flat_map (dummies (u "_")) (encoded_columns target t) |}.














Fixpoint distinct (names : list str) : bool :=
  match names with
  | [] => true
  | n :: rest => negb (Text.mem n rest) && distinct rest
  end.

End Notions.

(** ** Tables and rows for the evaluations *)

Definition conflict_row (months : Z) : row :=
  [ (u "_job_title", VStr (u "Junior Team Lead"));
    (u "_title", VStr (u "junior team lead"));
    (u "experience_months", VInt months) ].

Definition plain_row (title : string) (months : Z) : row :=
  [ (u "_job_title", VStr (u title));
    (u "_title", VStr (Basic.lower (u title)));
    (u "experience_months", VInt months) ].

Definition table_without_target : DataFrame :=
  {| index := [0; 1];
     columns := [ {| cname := u "age"; cdtype := DInt64; cells := [VInt 30; VInt 41] |} ] |}.

Definition container_without_target : DataContainer :=
  {| raw_data := None;
     processed_data := Some table_without_target;
     feature_matrix := None;
     target_vector := None;
     feature_labels := [] |}.

Definition context_without_target : PipelineContext :=
  {| df := Some table_without_target;
     features := None;
     target := None;
     feature_names := [] |}.

Definition titles_without_experience : DataFrame :=
  {| index := [0; 1; 2];
     columns :=
       [ {| cname := u "Ищет работу на должность:";
            cdtype := DObject;
            cells := [ VStr (u "Junior Team Lead");
                       VStr (u "Lead Middle Developer");
                       NaN ] |};
         {| cname := u "age"; cdtype := DInt64; cells := [VInt 23; VInt 35; VInt 41] |} ] |}.

Definition container_without_experience : DataContainer :=
  {| raw_data := None;
     processed_data := Some titles_without_experience;
     feature_matrix := None;
     target_vector := None;
     feature_labels := [] |}.

Definition context_without_experience : PipelineContext :=
  {| df := Some titles_without_experience;
     features := None;
     target := None;
     feature_names := [] |}.

Definition text_col (name : str) (values : list str) : column :=
  {| cname := name; cdtype := DObject; cells := map VStr values |}.

Definition sample_table : DataFrame :=
  {| index := [4; 7; 9];
     columns :=
       [ text_col (u "Пол, возраст")
           [ u "Мужчина , 39 лет , родился 27 ноября 1979";
             u "Женщина , 25 лет , родилась 3 мая 1994";
             u "Male , 31 years , born on 14 July 1988" ];
         text_col (u "ЗП") [u "60000 руб."; u "1 000 USD"; u "250000 KZT"];
         text_col (u "Ищет работу на должность:")
           [u "Senior Python developer"; u "Младший разработчик"; u "QA engineer"];
         text_col (u "Город") [u "Москва , готов к переезду"; u "Казань"; u "Atlantis"];
         text_col (u "Занятость")
           [u "полная занятость"; u "частичная занятость, проектная работа"; u "full time"];
         text_col (u "График") [u "полный день"; u "удаленная работа, гибкий график"; u "full day"];
         text_col (u "Опыт (двойное нажатие для полной версии)")
           [u "Опыт работы 12 лет 10 месяцев"; u "Опыт работы 8 месяцев"; u "Не указано"];
         text_col (u "Образование и ВУЗ")
           [u "Высшее образование 2002"; u "Неоконченное высшее образование"; u "Higher education"];
         text_col (u "Обновление резюме") [u "16.04.2019 15:59"; u "12.04.2018 09:11"; u "вчера"];
         text_col (u "Авто") [u "Имеется собственный автомобиль"; u "Не указано"; u "Не указано"] ] |}.

Definition sample_container : DataContainer :=
  {| raw_data := Some sample_table;
     processed_data := Some sample_table;
     feature_matrix := None;
     target_vector := None;
     feature_labels := [] |}.

Definition extraction_stages : list (DataContainer -> result DataContainer) :=
  [ @PersonalInfoExtractorStage.execute BasicUnicode;
    @SalaryExtractorStage.execute BasicUnicode;
    @ExperienceExtractorStage.execute BasicUnicode;
    LocationExtractorStage.execute;
    @EmploymentExtractorStage.execute BasicUnicode;
    @ScheduleExtractorStage.execute BasicUnicode;
    @EducationExtractorStage.execute BasicUnicode;
    @MiscExtractorStage.execute BasicUnicode ].


Definition labelled_table : DataFrame :=
  {| index := [4; 7; 9; 12];
     columns :=
       [ {| cname := u "age"; cdtype := DInt64;
            cells := [VInt 39; VInt 25; VInt 31; VInt 44] |};
         text_col (u "region")
           [u "Volga Federal District"; u "Moscow & Oblast"; u "Other"; u "Moscow & Oblast"];
         {| cname := u "note"; cdtype := DObject; cells := [NaN; NaN; NaN; NaN] |};
         text_col (u "developer_level") [Senior; Junior; Junior; Middle];
         text_col (u "grade") [Senior; Junior; Junior; Middle] ] |}.

(** The sample container as the labeling stage finds it in the staged
    pipeline, after the personal-info, salary and experience stages, and
    as it leaves it. *)
Definition before_labeling : DataContainer :=
  Eval vm_compute in
  match run [ @PersonalInfoExtractorStage.execute BasicUnicode;
              @SalaryExtractorStage.execute BasicUnicode;
              @ExperienceExtractorStage.execute BasicUnicode ] sample_container with
  | Ok out => out
  | Raise _ => sample_container
  end.

Definition after_labeling : DataContainer :=
  Eval vm_compute in
  match @DeveloperLevelLabelerStage.execute BasicUnicode before_labeling with
  | Ok out => out
  | Raise _ => before_labeling
  end.

(** ** Rows, ranks and stage lists *)

(** The table without its first row. *)
Definition behead (t : DataFrame) : DataFrame :=
  {| index := tl (index t);
     columns := map (fun c => {| cname := cname c;
                                 cdtype := cdtype c;
                                 cells := tl (cells c) |}) (columns t) |}.

(** [ProcessingPipeline.add_stage]: the stage goes last. *)
Definition add_stage {A : Type} (stages : list A) (stage : A) : list A :=
  stages ++ [stage].

(** Junior below Middle below Senior. *)
Definition level_rank (l : str) : nat :=
  if Text.eqb l Junior then 0 else if Text.eqb l Middle then 1 else 2.

(** ** More tables for the evaluations *)

Definition sample_titles : column :=
  {| cname := u "Ищет работу на должность:";
     cdtype := DObject;
     cells := [ VStr (u "Junior Team Lead");
                VStr (u "Lead Middle Developer");
                NaN ] |}.

Definition filtered_container : DataContainer :=
  Eval vm_compute in
  match @ITDeveloperFilterStage.execute BasicUnicode container_without_experience with
  | Ok out => out
  | Raise _ => container_without_experience
  end.

Definition context_after_labeling : PipelineContext :=
  Eval vm_compute in
  match @LabelGradeHandler._process BasicUnicode context_without_experience with
  | Ok out => out
  | Raise _ => context_without_experience
  end.




Definition employment_with_missing_cell : DataFrame :=
  {| index := [0; 1];
     columns :=
       [ {| cname := u "Занятость";
            cdtype := DObject;
            cells := [VStr (u "полная занятость"); NaN] |} ] |}.

Definition employment_column : column :=
  {| cname := u "Занятость";
     cdtype := DObject;
     cells := [VStr (u "полная занятость"); NaN] |}.

Definition context_with_missing_cell : PipelineContext :=
  {| df := Some employment_with_missing_cell;
     features := None;
     target := None;
     feature_names := [] |}.

(** * Properties *)

(** ** Text and list facts *)

Lemma split_from_head (sep : N) (s cur : str) :
  exists rest, split_from sep s cur = (rev cur ++ before sep s) :: rest.
Proof.
  revert cur. induction s as [|c t IH]; intros cur; simpl.
  - exists []. now rewrite app_nil_r.
  - destruct (c =? sep)%N.
    + eexists. now rewrite app_nil_r.
    + destruct (IH (c :: cur)) as [rest Hrest]. exists rest.
      rewrite Hrest. simpl. now rewrite <- app_assoc.
Qed.

Lemma split_head (sep : N) (s : str) :
  exists rest, split sep s = before sep s :: rest.
Proof. apply (split_from_head sep s []). Qed.

Lemma py_index_0 {A : Type} (a : A) (l : list A) : py_index (a :: l) 0 = Ok a.
Proof.
  unfold py_index. cbn [List.length Z.ltb Z.compare].
  replace (Z.of_nat (S (List.length l)) <=? 0) with false by (symmetry; apply Z.leb_gt; lia).
  reflexivity.
Qed.

(** [s.split(sep)[0]] never fails. *)
Lemma first_token (sep : N) (s : str) : py_index (split sep s) 0 = Ok (before sep s).
Proof. destruct (split_head sep s) as [rest ->]. apply py_index_0. Qed.

Lemma mem_in (s : str) (l : list str) : Text.mem s l = true <-> In s l.
Proof.
  unfold Text.mem. rewrite existsb_exists. split.
  - intros [x [Hin Heq]]. apply Text.eqb_eq in Heq. now subst.
  - intros Hin. exists s. split; [assumption|]. now apply Text.eqb_eq.
Qed.

Lemma mem_not_in (s : str) (l : list str) : Text.mem s l = false <-> ~ In s l.
Proof.
  rewrite <- mem_in. destruct (Text.mem s l); split; congruence.
Qed.

(** ** Gender (personal-info extraction) *)

(** C5, as amended: for every text cell both variants return 0 exactly when
    the stripped first comma-separated token is one of the male literals
    and 1 for every other text; a cell that is not a text (a missing value
    included) is classified 0 by the staged variant and makes the handler
    variant raise [AttributeError]. *)
Theorem gender_from_first_token (v : value) :
  match v with
  | VStr s =>
      exists g : Z,
        PersonalInfoExtractorStage._parse_gender v = Ok g
        /\ ParseGenderAgeBirthdayHandler.extract_gender v = Ok g
        /\ (g = 0 <-> In (gender_token s) MALE_LITERALS)
        /\ (g = 1 <-> ~ In (gender_token s) MALE_LITERALS)
  | _ =>
      PersonalInfoExtractorStage._parse_gender v = Ok 0
      /\ ParseGenderAgeBirthdayHandler.extract_gender v = Raise AttributeError
  end.
Proof.
  destruct v as [s|n|f]; [|split; reflexivity|split; reflexivity].
  unfold PersonalInfoExtractorStage._parse_gender,
    ParseGenderAgeBirthdayHandler.extract_gender,
    ParseGenderAgeBirthdayHandler.male_values.
  cbn [str_method bind]. rewrite first_token. cbn [bind].
  fold (gender_token s). fold MALE_LITERALS.
  destruct (Text.mem (gender_token s) MALE_LITERALS) eqn:E.
  - exists 0. apply mem_in in E. repeat split; auto; try discriminate.
    intros H; contradiction.
  - exists 1. apply mem_not_in in E. repeat split; auto; try discriminate.
    intros H; contradiction.
Qed.

(** C5 as stated fails on a missing cell: the claim classifies it female
    (1), the staged parser returns 0 and the handler parser raises. *)
Lemma gender_missing_cell_is_not_female :
  PersonalInfoExtractorStage._parse_gender NaN = Ok 0
  /\ PersonalInfoExtractorStage._parse_gender NaN <> Ok 1
  /\ ParseGenderAgeBirthdayHandler.extract_gender NaN = Raise AttributeError.
Proof. repeat split; try reflexivity. discriminate. Qed.

(** ** Resume freshness (misc extraction) *)

Lemma py_index_nonneg {A : Type} (l : list A) (i : Z) :
  0 <= i ->
  py_index l i = match nth_error l (Z.to_nat i) with
                 | Some a => Ok a
                 | None => Raise IndexError
                 end.
Proof.
  intros Hi. unfold py_index.
  assert (Hlt : (i <? 0) = false) by (apply Z.ltb_ge; exact Hi).
  cbv zeta. rewrite Hlt. cbv iota. rewrite Hlt.
  cbn [orb]. destruct (Z.of_nat (List.length l) <=? i) eqn:E.
  - apply Z.leb_le in E.
    assert (H : nth_error l (Z.to_nat i) = None) by (apply nth_error_None; lia).
    now rewrite H.
  - destruct (nth_error l (Z.to_nat i)); reflexivity.
Qed.

Section Freshness.
Context {U : Unicode}.

(** C9: both freshness parsers return on every cell, never raise, and
    return 1 exactly when the cell is a text whose year token parses as an
    integer at most 2018, and 0 in every other case. *)
Theorem resume_freshness_total (v : value) :
  exists flag : Z,
    MiscExtractorStage._is_old_resume v = Ok flag
    /\ ParseResumeHandler.is_old v = Ok flag
    /\ (flag = 1 <-> resume_is_old v)
    /\ (flag = 0 <-> ~ resume_is_old v).
Proof.
  assert (not_old_0 : ~ resume_is_old v ->
            (0 = 1 <-> resume_is_old v) /\ (0 = 0 <-> ~ resume_is_old v)).
  { intros Hn. split; split; auto; try discriminate. intros H; contradiction. }
  destruct v as [s|n|f].
  2,3: exists 0; split; [reflexivity|split; [reflexivity|]];
       apply not_old_0; intros [s [tok [y [Hv _]]]]; discriminate.
  unfold MiscExtractorStage._is_old_resume, ParseResumeHandler.is_old.
  cbn [str_method bind]. rewrite (py_index_nonneg (split dot s) 2) by lia.
  change (Z.to_nat 2) with 2%nat.
  destruct (nth_error (split dot s) 2) as [field|] eqn:Hfield; cbn [bind try_except].
  - rewrite first_token. cbn [bind].
    destruct (py_int (before space field)) as [year|e] eqn:Hint; cbn [bind try_except].
    + rewrite (Z.ltb_antisym year 2018).
      destruct (year <=? 2018) eqn:Hle; cbn [negb].
      * exists 1. apply Z.leb_le in Hle.
        assert (Hold : resume_is_old (VStr s)).
        { exists s, (before space field), year. unfold year_token. rewrite Hfield. auto. }
        repeat split; auto; try discriminate. intros H; contradiction.
      * exists 0. apply Z.leb_gt in Hle. split; [reflexivity|split; [reflexivity|]].
        apply not_old_0. intros [s' [tok [y [Hv [Htok [Hy Hle']]]]]].
        injection Hv as <-. unfold year_token in Htok. rewrite Hfield in Htok.
        injection Htok as <-. rewrite Hint in Hy. injection Hy as <-. lia.
    + exists 0. split; [|split; [reflexivity|]].
      * unfold py_int in Hint.
        destruct (split_sign (strip (before space field))) as [neg body].
        destruct (existsb is_empty (split underscore body)).
        -- injection Hint as <-. reflexivity.
        -- destruct (decimal_digits (List.concat (split underscore body)) 0);
             [discriminate|]. injection Hint as <-. reflexivity.
      * apply not_old_0. intros [s' [tok [y [Hv [Htok [Hy _]]]]]].
        injection Hv as <-. unfold year_token in Htok. rewrite Hfield in Htok.
        injection Htok as <-. rewrite Hint in Hy. discriminate.
  - exists 0. split; [reflexivity|split; [reflexivity|]].
    apply not_old_0. intros [s' [tok [y [Hv [Htok _]]]]].
    injection Hv as <-. unfold year_token in Htok. rewrite Hfield in Htok. discriminate.
Qed.

End Freshness.

(** ** Salary normalisation *)

Lemma fmul_comm (x y : float64) : fmul x y = fmul y x.
Proof.
  unfold fmul, SF64mul, SFmul.
  destruct x as [sx|sx| |sx mx ex], y as [sy|sy| |sy my ey];
    try reflexivity; try (now rewrite xorb_comm).
  now rewrite (xorb_comm sx sy), (Pos.mul_comm mx my), (Z.add_comm ex ey).
Qed.

Section Salary.
Context {U : Unicode}.

Lemma handler_parts (s : str) :
  ParseSalaryHandler.scan_tokens (split space (strip (replace nbsp space s))) []
  = (salary_digits s, snd (salary_parts s)).
Proof.
  unfold salary_digits, salary_parts.
  change (@ParseSalaryHandler.scan_tokens U) with (@SalaryExtractorStage.scan_tokens U).
  now destruct (SalaryExtractorStage.scan_tokens _ _).
Qed.

Lemma staged_parts (s : str) :
  SalaryExtractorStage.scan_tokens (split space (strip (replace nbsp space s))) []
  = (salary_digits s, snd (salary_parts s)).
Proof.
  unfold salary_digits, salary_parts.
  now destruct (SalaryExtractorStage.scan_tokens _ _).
Qed.

Lemma py_float_raises (s : str) (e : exn) : py_float s = Raise e -> e = ValueError.
Proof.
  unfold py_float. destruct s; [congruence|].
  destruct (decimal_digits _ _); congruence.
Qed.

Lemma py_float_nonempty (s : str) (x : float64) : py_float s = Ok x -> is_empty s = false.
Proof. destruct s; [discriminate|reflexivity]. Qed.

(** What the staged normalizer returns, case by case. *)
Lemma normalize_salary_cases (v : value) :
  SalaryExtractorStage._normalize_salary v =
  match v with
  | VStr s =>
      if is_empty (salary_digits s) then Ok float_zero
      else
        match py_float (salary_digits s) with
        | Ok amount =>
            Ok (fmul amount
                  (dict_get SalaryExtractorStage.CURRENCY_RATES (salary_currency s) float_one))
        | Raise _ => Ok float_zero
        end
  | _ => Ok float_zero
  end.
Proof.
  destruct v as [s|n|f]; try reflexivity.
  unfold SalaryExtractorStage._normalize_salary. rewrite staged_parts.
  destruct (is_empty (salary_digits s)); [reflexivity|].
  destruct (py_float (salary_digits s)) as [amount|e] eqn:E; [reflexivity|].
  apply py_float_raises in E. now subst.
Qed.

(** What the handler normalizer returns, case by case. *)
Lemma extract_salary_cases (v : value) :
  ParseSalaryHandler.extract_salary v =
  match v with
  | VStr s =>
      match dict_find ParseSalaryHandler.currency_rates (salary_currency s) with
      | Some rate =>
          match py_float (salary_digits s) with
          | Ok amount => Ok (fmul rate amount)
          | Raise _ => Raise ValueError
          end
      | None => Raise KeyError
      end
  | _ => Raise AttributeError
  end.
Proof.
  destruct v as [s|n|f]; try reflexivity.
  unfold ParseSalaryHandler.extract_salary. cbn [str_method bind].
  rewrite handler_parts. unfold dict_item. fold (salary_currency s).
  destruct (dict_find ParseSalaryHandler.currency_rates (salary_currency s)); [|reflexivity].
  cbn [bind]. destruct (py_float (salary_digits s)) as [amount|e] eqn:E; [reflexivity|].
  apply py_float_raises in E. now subst.
Qed.

(** C4, as amended: the staged normalizer returns a number on every cell;
    whenever the handler normalizer returns a number the staged one returns
    the same number; the handler raises [AttributeError] on a cell that is
    not a text, [KeyError] on a currency descriptor outside the rate table
    and [ValueError] on digits that [float] rejects, where the staged
    normalizer returns 0.0, the amount at rate 1.0 (0.0 without a parsed
    amount) and 0.0. *)
Theorem salary_normalizers_agree_where_handler_returns (v : value) :
  (exists x, SalaryExtractorStage._normalize_salary v = Ok x)
  /\ match ParseSalaryHandler.extract_salary v with
     | Ok y => SalaryExtractorStage._normalize_salary v = Ok y
     | Raise AttributeError =>
         is_str v = false /\ SalaryExtractorStage._normalize_salary v = Ok float_zero
     | Raise KeyError =>
         exists s, v = VStr s
           /\ dict_find ParseSalaryHandler.currency_rates (salary_currency s) = None
           /\ SalaryExtractorStage._normalize_salary v =
              match py_float (salary_digits s) with
              | Ok amount => Ok (fmul amount float_one)
              | Raise _ => Ok float_zero
              end
     | Raise ValueError =>
         exists s, v = VStr s
           /\ py_float (salary_digits s) = Raise ValueError
           /\ SalaryExtractorStage._normalize_salary v = Ok float_zero
     | Raise _ => False
     end.
Proof.
  split.
  - rewrite normalize_salary_cases. destruct v as [s|n|f]; eauto.
    destruct (is_empty (salary_digits s)); eauto.
    destruct (py_float (salary_digits s)); eauto.
  - rewrite extract_salary_cases, normalize_salary_cases.
    destruct v as [s|n|f]; [|split; reflexivity|split; reflexivity].
    change ParseSalaryHandler.currency_rates with SalaryExtractorStage.CURRENCY_RATES.
    unfold dict_get.
    destruct (dict_find SalaryExtractorStage.CURRENCY_RATES (salary_currency s)) as [rate|] eqn:Hrate.
    + destruct (py_float (salary_digits s)) as [amount|e] eqn:Hamount.
      * rewrite (py_float_nonempty _ _ Hamount). now rewrite fmul_comm.
      * exists s. pose proof (py_float_raises _ _ Hamount) as ->.
        split; [reflexivity|split; [exact Hamount|]].
        destruct (is_empty (salary_digits s)); reflexivity.
    + exists s. split; [reflexivity|split; [exact Hrate|]].
      destruct (py_float (salary_digits s)) as [amount|e] eqn:Hamount.
      * now rewrite (py_float_nonempty _ _ Hamount).
      * destruct (is_empty (salary_digits s)); reflexivity.
Qed.

End Salary.

(** C4 as stated fails on an unknown currency descriptor: the staged
    normalizer returns 1000.0 for ["1000 GBP"], the handler one raises
    [KeyError]. *)
Lemma salary_unknown_currency_diverges :
  @SalaryExtractorStage._normalize_salary BasicUnicode (VStr (u "1000 GBP")) = Ok (Z2F 1000)
  /\ @ParseSalaryHandler.extract_salary BasicUnicode (VStr (u "1000 GBP")) = Raise KeyError.
Proof. split; vm_compute; reflexivity. Qed.

(** The two also part on a missing cell and on an amount without a
    currency descriptor. *)
Lemma salary_other_divergences :
  @SalaryExtractorStage._normalize_salary BasicUnicode NaN = Ok float_zero
  /\ @ParseSalaryHandler.extract_salary BasicUnicode NaN = Raise AttributeError
  /\ @SalaryExtractorStage._normalize_salary BasicUnicode (VStr (u "1000")) = Ok (Z2F 1000)
  /\ @ParseSalaryHandler.extract_salary BasicUnicode (VStr (u "1000")) = Raise KeyError
  /\ @SalaryExtractorStage._normalize_salary BasicUnicode (VStr (u "руб.")) = Ok float_zero
  /\ @ParseSalaryHandler.extract_salary BasicUnicode (VStr (u "руб.")) = Raise ValueError.
Proof. repeat split; vm_compute; reflexivity. Qed.

(** On a well-formed cell both return the same amount in rubles. *)
Lemma salary_in_rubles :
  @SalaryExtractorStage._normalize_salary BasicUnicode (VStr (u "1000 руб.")) = Ok (Z2F 1000)
  /\ @ParseSalaryHandler.extract_salary BasicUnicode (VStr (u "1000 руб.")) = Ok (Z2F 1000).
Proof. split; vm_compute; reflexivity. Qed.

(** ** Seniority labels *)

Lemma starts_with_prefix (p s : str) :
  starts_with p s = true <-> exists post, s = p ++ post.
Proof.
  revert s. induction p as [|a p IH]; intros s; simpl.
  - split; [intros _; now exists s|reflexivity].
  - destruct s as [|b s].
    + split; [discriminate|intros [post H]; discriminate].
    + rewrite andb_true_iff, N.eqb_eq, IH. split.
      * intros [-> [post ->]]. now exists post.
      * intros [post H]. injection H as -> ->. split; [reflexivity|now exists post].
Qed.

Lemma contains_substring (kw t : str) : contains kw t = true <-> is_substring kw t.
Proof.
  unfold is_substring. induction t as [|c t IH]; simpl.
  - rewrite orb_false_r, starts_with_prefix. split.
    + intros [post H]. now exists [], post.
    + intros [pre [post H]]. destruct pre; [now exists post|discriminate].
  - rewrite orb_true_iff, starts_with_prefix, IH. split.
    + intros [[post H]|[pre [post H]]].
      * now exists [], post.
      * exists (c :: pre), post. now rewrite H.
    + intros [pre [post H]]. destruct pre as [|c' pre].
      * left. now exists post.
      * right. injection H as -> ->. now exists pre, post.
Qed.

Lemma any_in_indicator (indicators : list str) (title : str) :
  any_in indicators title = true <-> has_indicator indicators title.
Proof.
  unfold any_in, has_indicator. rewrite existsb_exists.
  split; intros [kw [Hin H]]; exists kw; split; auto; now apply contains_substring.
Qed.

Lemma any_in_no_indicator (indicators : list str) (title : str) :
  any_in indicators title = false <-> ~ has_indicator indicators title.
Proof.
  rewrite <- any_in_indicator. destruct (any_in indicators title); split; congruence.
Qed.

Lemma label_of_rule (title : str) (months : Z) :
  label_rule title months (label_of title months).
Proof.
  unfold label_of.
  destruct (any_in SENIOR title) eqn:Hs, (any_in JUNIOR title) eqn:Hj,
    (any_in MIDDLE title) eqn:Hm; cbn [andb];
    repeat match goal with
           | X : any_in _ _ = true |- _ => apply any_in_indicator in X
           | X : any_in _ _ = false |- _ => apply any_in_no_indicator in X
           end;
    repeat match goal with
           | |- context [?a <? ?b] => destruct (Z.ltb_spec a b)
           | |- context [?a <=? ?b] => destruct (Z.leb_spec a b)
           end;
    solve [ constructor; (assumption || lia) ].
Qed.

Lemma label_rule_functional (title : str) (months : Z) (l : str) :
  label_rule title months l -> l = label_of title months.
Proof.
  intros H. unfold label_of. inversion H; subst;
    repeat match goal with
           | X : has_indicator _ _ |- _ => apply any_in_indicator in X; rewrite X
           | X : ~ has_indicator _ _ |- _ => apply any_in_no_indicator in X; rewrite X
           end; cbn [andb];
    repeat match goal with
           | |- context [?a <? ?b] => destruct (Z.ltb_spec a b)
           | |- context [?a <=? ?b] => destruct (Z.leb_spec a b)
           end; (reflexivity || lia).
Qed.

Lemma label_rule_iff (title : str) (months : Z) (l : str) :
  label_rule title months l <-> l = label_of title months.
Proof.
  split; [apply label_rule_functional|intros ->; apply label_of_rule].
Qed.

Section Labeling.
Context {U : Unicode}.

Lemma determine_level_label (r : row) (months : Z) :
  dict_get r (u "experience_months") (VInt 0) = VInt months ->
  DeveloperLevelLabelerStage._determine_level r = Ok (label_of (staged_title r) months).
Proof.
  intros He. unfold DeveloperLevelLabelerStage._determine_level, label_of.
  fold (staged_title r). rewrite He. cbn [py_gt py_le bind].
  fold SENIOR JUNIOR MIDDLE.
  destruct (any_in SENIOR (staged_title r)), (any_in JUNIOR (staged_title r)),
    (any_in MIDDLE (staged_title r)); cbn [andb]; try reflexivity;
    destruct (months <=? 18); reflexivity.
Qed.

Lemma label_row_label (r : row) (title : str) (months : Z) :
  dict_find r (u "_title") = Some (VStr title) ->
  dict_get r (u "experience_months") (VInt 0) = VInt months ->
  LabelGradeHandler._label r = Ok (label_of title months).
Proof.
  intros Ht He. unfold LabelGradeHandler._label, label_of, dict_item.
  rewrite Ht, He. cbn [py_gt py_le bind].
  change LabelGradeHandler._SENIOR_KW with SENIOR.
  change LabelGradeHandler._JUNIOR_KW with JUNIOR.
  change LabelGradeHandler._MIDDLE_KW with MIDDLE.
  destruct (any_in SENIOR title), (any_in JUNIOR title), (any_in MIDDLE title);
    cbn [andb]; try reflexivity; destruct (months <=? 18); reflexivity.
Qed.

(** C1: on a row whose experience is the integer [months] (0 when the row
    has no such entry), the staged row function returns the one label the
    ordered rules give for the lowercased title and [months], and so does
    the handler row function for the lowercased title its stage stored. *)
Theorem seniority_label_follows_rules (r : row) (months : Z) :
  dict_get r (u "experience_months") (VInt 0) = VInt months ->
  (exists l,
      DeveloperLevelLabelerStage._determine_level r = Ok l
      /\ forall l', label_rule (staged_title r) months l' <-> l' = l)
  /\ (forall title,
        dict_find r (u "_title") = Some (VStr title) ->
        exists l,
          LabelGradeHandler._label r = Ok l
          /\ forall l', label_rule title months l' <-> l' = l).
Proof.
  intros He. split.
  - exists (label_of (staged_title r) months). split.
    + now apply determine_level_label.
    + intros l'. apply label_rule_iff.
  - intros title Ht. exists (label_of title months). split.
    + now apply label_row_label.
    + intros l'. apply label_rule_iff.
Qed.

End Labeling.

(** ** Column bookkeeping *)

Lemma bind_ok {A B : Type} (m : result A) (k : A -> result B) (b : B) :
  bind m k = Ok b -> exists a, m = Ok a /\ k a = Ok b.
Proof. destruct m as [a|e]; [intros H; now exists a|discriminate]. Qed.

Ltac bind_inv H :=
  let a := fresh "x" in
  let Ha := fresh "Hx" in
  apply bind_ok in H; destruct H as [a [Ha H]].

Lemma has_column_in (t : DataFrame) (name : str) :
  has_column t name = true <-> In name (column_names t).
Proof. apply mem_in. Qed.

Lemma has_column_not_in (t : DataFrame) (name : str) :
  has_column t name = false <-> ~ In name (column_names t).
Proof. apply mem_not_in. Qed.

Lemma replace_column_names (cs : list column) (c : column) :
  map cname (replace_column cs c) = map cname cs.
Proof.
  induction cs as [|c' cs IH]; [reflexivity|]. simpl.
  destruct (Text.eqb (cname c') (cname c)) eqn:E; simpl.
  - apply Text.eqb_eq in E. now rewrite E.
  - now rewrite IH.
Qed.


Lemma set_column_index (t : DataFrame) (c : column) : index (set_column t c) = index t.
Proof. reflexivity. Qed.

Lemma drop_ok (t t' : DataFrame) (names : list str) :
  drop t names = Ok t' ->
  index t' = index t
  /\ columns t' = filter (fun c => negb (Text.mem (cname c) names)) (columns t).
Proof.
  unfold drop. destruct (forallb (has_column t) names); [|discriminate].
  intros H. injection H as <-. split; reflexivity.
Qed.



Lemma get_column_succeeds (t : DataFrame) (name : str) :
  In name (column_names t) -> exists c, get_column t name = Ok c /\ cname c = name.
Proof.
  unfold get_column, column_names. induction (columns t) as [|c cs IH]; [intros []|].
  cbn [map In find_column]. destruct (Text.eqb (cname c) name) eqn:E.
  - intros _. exists c. split; [reflexivity|]. now apply Text.eqb_eq.
  - intros [H|H].
    + apply Text.eqb_eq in H. congruence.
    + apply (IH H).
Qed.

Lemma get_column_ok (t : DataFrame) (name : str) (c : column) :
  get_column t name = Ok c -> In c (columns t) /\ cname c = name.
Proof.
  unfold get_column. induction (columns t) as [|c' cs IH]; [discriminate|].
  cbn [find_column]. destruct (Text.eqb (cname c') name) eqn:E.
  - intros H. injection H as <-. split; [now left|]. now apply Text.eqb_eq.
  - intros H. destruct (IH H) as [Hin Hn]. split; [now right|assumption].
Qed.

(** ** Leakage: the labeling stage deletes what it derived the label from *)


Section Leakage.
Context {U : Unicode}.




End Leakage.

(** On the sample table the stage labels the three rows and leaves neither
    the title nor the experience column. *)
Example labeling_run :
  option_map column_names (processed_data before_labeling)
  = Some [ u "Ищет работу на должность:"; u "Город"; u "Занятость"; u "График";
           u "Образование и ВУЗ"; u "Обновление резюме"; u "Авто";
           u "gender"; u "age"; u "birth_month"; u "salary_rub"; u "experience_months" ]
  /\ option_map column_names (processed_data after_labeling)
     = Some [ u "Город"; u "Занятость"; u "График";
              u "Образование и ВУЗ"; u "Обновление резюме"; u "Авто";
              u "gender"; u "age"; u "birth_month"; u "salary_rub"; u "developer_level" ]
  /\ target_vector after_labeling = Some [VStr Senior; VStr Junior; VStr Junior].
Proof. vm_compute. repeat split. Qed.


(** ** Rows *)

Lemma find_column_absent (cs : list column) (name : str) :
  ~ In name (map cname cs) -> find_column cs name = None.
Proof.
  induction cs as [|c cs IH]; [reflexivity|]. cbn [map In find_column]. intros H.
  destruct (Text.eqb (cname c) name) eqn:E.
  - apply Text.eqb_eq in E. exfalso. apply H. now left.
  - apply IH. intros Hin. apply H. now right.
Qed.

Lemma find_replace_column (cs : list column) (c : column) :
  In (cname c) (map cname cs) -> find_column (replace_column cs c) (cname c) = Some c.
Proof.
  induction cs as [|c' cs IH]; [intros []|]. cbn [map In replace_column].
  destruct (Text.eqb (cname c') (cname c)) eqn:E; intros H.
  - cbn [find_column]. assert (E' : Text.eqb (cname c) (cname c) = true) by now apply Text.eqb_eq.
    now rewrite E'.
  - cbn [find_column]. rewrite E. apply IH. destruct H as [H|H]; [|assumption].
    apply Text.eqb_eq in H. congruence.
Qed.

Lemma find_column_app (cs cs' : list column) (name : str) :
  find_column (cs ++ cs') name =
  match find_column cs name with
  | Some c => Some c
  | None => find_column cs' name
  end.
Proof.
  induction cs as [|c cs IH]; [reflexivity|]. cbn [app find_column].
  destruct (Text.eqb (cname c) name); [reflexivity|apply IH].
Qed.

Lemma find_set_column (t : DataFrame) (c : column) :
  find_column (columns (set_column t c)) (cname c) = Some c.
Proof.
  unfold set_column. cbn [columns]. destruct (has_column t (cname c)) eqn:E.
  - apply find_replace_column. now apply has_column_in.
  - rewrite find_column_app, find_column_absent by now apply has_column_not_in.
    cbn [find_column]. assert (E' : Text.eqb (cname c) (cname c) = true) by now apply Text.eqb_eq.
    now rewrite E'.
Qed.

Lemma find_replace_column_other (cs : list column) (c : column) (name : str) :
  name <> cname c -> find_column (replace_column cs c) name = find_column cs name.
Proof.
  intros Hne. induction cs as [|c' cs IH]; [reflexivity|]. cbn [replace_column].
  destruct (Text.eqb (cname c') (cname c)) eqn:E; cbn [find_column].
  - apply Text.eqb_eq in E. rewrite E.
    destruct (Text.eqb (cname c) name) eqn:E'; [|reflexivity].
    apply Text.eqb_eq in E'. congruence.
  - destruct (Text.eqb (cname c') name); [reflexivity|apply IH].
Qed.

Lemma find_set_column_other (t : DataFrame) (c : column) (name : str) :
  name <> cname c ->
  find_column (columns (set_column t c)) name = find_column (columns t) name.
Proof.
  intros Hne. unfold set_column. cbn [columns]. destruct (has_column t (cname c)).
  - now apply find_replace_column_other.
  - rewrite find_column_app. destruct (find_column (columns t) name); [reflexivity|].
    cbn [find_column]. destruct (Text.eqb (cname c) name) eqn:E; [|reflexivity].
    apply Text.eqb_eq in E. congruence.
Qed.

Lemma find_column_filter (keep : str -> bool) (cs : list column) (name : str) :
  find_column (filter (fun c => keep (cname c)) cs) name =
  if keep name then find_column cs name else None.
Proof.
  induction cs as [|c cs IH]; [now destruct (keep name)|]. cbn [filter].
  destruct (keep (cname c)) eqn:K; cbn [find_column];
    destruct (Text.eqb (cname c) name) eqn:E.
  - apply Text.eqb_eq in E. rewrite <- E, K. reflexivity.
  - apply IH.
  - apply Text.eqb_eq in E. rewrite IH, <- E, K. reflexivity.
  - apply IH.
Qed.

(** A row maps a column name to the cell of the first column so named. *)
Lemma row_lookup (t : DataFrame) (i : nat) (name : str) :
  dict_find (row_at t i) name =
  option_map (fun c => nth i (cells c) NaN) (find_column (columns t) name).
Proof.
  unfold row_at. induction (columns t) as [|c cs IH]; [reflexivity|].
  cbn [map dict_find find_column].
  destruct (Text.eqb (cname c) name); [reflexivity|apply IH].
Qed.


Lemma mapM_length {A B : Type} (f : A -> result B) (l : list A) (bs : list B) :
  mapM f l = Ok bs -> List.length bs = List.length l.
Proof.
  revert bs. induction l as [|a l IH]; intros bs; cbn [mapM].
  - intros H. now injection H as <-.
  - intros H. bind_inv H. bind_inv H. injection H as <-.
    cbn [List.length]. f_equal. now apply IH.
Qed.

(** ** Labeling at concrete rows *)

(** The tie-break and threshold examples of the specification. *)
Example labeling_examples :
  @DeveloperLevelLabelerStage._determine_level BasicUnicode (conflict_row 40) = Ok Senior
  /\ @DeveloperLevelLabelerStage._determine_level BasicUnicode (conflict_row 10) = Ok Junior
  /\ LabelGradeHandler._label (conflict_row 40) = Ok Senior
  /\ LabelGradeHandler._label (conflict_row 10) = Ok Junior
  /\ @DeveloperLevelLabelerStage._determine_level BasicUnicode (plain_row "Python developer" 18) = Ok Junior
  /\ @DeveloperLevelLabelerStage._determine_level BasicUnicode (plain_row "Python developer" 19) = Ok Middle
  /\ @DeveloperLevelLabelerStage._determine_level BasicUnicode (plain_row "Middle Python developer" 96) = Ok Middle
  /\ @DeveloperLevelLabelerStage._determine_level BasicUnicode (plain_row "Middle Python developer" 97) = Ok Senior
  /\ @DeveloperLevelLabelerStage._determine_level BasicUnicode (plain_row "Младший разработчик" 61) = Ok Middle
  /\ LabelGradeHandler._label (plain_row "Ведущий программист" 0) = Ok Senior.
Proof. repeat split; vm_compute; reflexivity. Qed.

Lemma seniority_label_follows_rules_witness :
  dict_get (conflict_row 40) (u "experience_months") (VInt 0) = VInt 40
  /\ (exists l,
        @DeveloperLevelLabelerStage._determine_level BasicUnicode (conflict_row 40) = Ok l
        /\ forall l', label_rule (@staged_title BasicUnicode (conflict_row 40)) 40 l' <-> l' = l)
  /\ (forall title,
        dict_find (conflict_row 40) (u "_title") = Some (VStr title) ->
        exists l,
          LabelGradeHandler._label (conflict_row 40) = Ok l
          /\ forall l', label_rule title 40 l' <-> l' = l).
Proof.
  split; [reflexivity|].
  apply (@seniority_label_follows_rules BasicUnicode (conflict_row 40) 40). reflexivity.
Defined.

(** ** The split stage without a target column *)

(** C3, as amended: when the table has no target column the split stage of
    either variant does not raise: it hands an error record to the logger
    and returns its container unchanged, so the feature matrix, the
    feature names and the target vector are whatever they were before. *)
Theorem split_without_target_logs_and_returns :
  (forall container t,
      processed_data container = Some t ->
      has_column t FeatureTargetSplitterStage.target_col = false ->
      FeatureTargetSplitterStage.execute container =
      Ok (container, [(ERROR, u "Target variable 'developer_level' not found!")]))
  /\ (forall ctx t,
        df ctx = Some t ->
        has_column t SplitClassificationDataHandler.target_col = false ->
        SplitClassificationDataHandler._process ctx =
        Ok (ctx, [ (INFO, u "SplitClassificationDataHandler: Splitting X/y");
                   (ERROR, u "Grade column not found!") ])).
Proof.
  split.
  - intros container t Ht Hc. unfold FeatureTargetSplitterStage.execute.
    rewrite Ht. cbn [copy bind]. now rewrite Hc.
  - intros ctx t Ht Hc. unfold SplitClassificationDataHandler._process.
    rewrite Ht. cbn [copy bind]. now rewrite Hc.
Qed.

(** C3 as stated fails: on a table without the target column the split
    stage returns normally, and the container it returns has no feature
    matrix and no target vector. *)
Lemma split_without_target_does_not_raise :
  raises (FeatureTargetSplitterStage.execute container_without_target) = false
  /\ FeatureTargetSplitterStage.execute container_without_target =
     Ok (container_without_target,
         [(ERROR, u "Target variable 'developer_level' not found!")])
  /\ feature_matrix container_without_target = None
  /\ target_vector container_without_target = None
  /\ raises (SplitClassificationDataHandler._process context_without_target) = false
  /\ features context_without_target = None.
Proof. repeat split; vm_compute; reflexivity. Qed.

Lemma split_without_target_witness :
  FeatureTargetSplitterStage.execute container_without_target =
  Ok (container_without_target, [(ERROR, u "Target variable 'developer_level' not found!")]).
Proof.
  apply (proj1 split_without_target_logs_and_returns container_without_target
           table_without_target); reflexivity.
Defined.

Lemma names_without (cs : list column) (name : str) :
  map cname (filter (fun c => negb (Text.mem (cname c) [name])) cs)
  = filter (fun n => negb (Text.eqb n name)) (map cname cs).
Proof.
  induction cs as [|c cs IH]; [reflexivity|]. cbn [filter map].
  unfold Text.mem at 1. cbn [existsb]. rewrite orb_false_r.
  destruct (Text.eqb (cname c) name); cbn [negb map]; now rewrite IH.
Qed.

(** With the target column present the split stage fills the three
    outputs, the feature names being the remaining columns in order. *)
Lemma split_with_target (container : DataContainer) (t : DataFrame) :
  processed_data container = Some t ->
  has_column t FeatureTargetSplitterStage.target_col = true ->
  exists out logs features labels,
    FeatureTargetSplitterStage.execute container = Ok (out, logs)
    /\ processed_data out = None
    /\ feature_matrix out = Some features
    /\ target_vector out = Some labels
    /\ feature_labels out =
       filter (fun n => negb (Text.eqb n FeatureTargetSplitterStage.target_col))
              (column_names t).
Proof.
  intros Ht Hc. unfold FeatureTargetSplitterStage.execute.
  rewrite Ht. cbn [copy bind]. rewrite Hc. cbn [negb].
  destruct (get_column_succeeds t FeatureTargetSplitterStage.target_col) as [c [Hg _]];
    [now apply has_column_in|].
  rewrite Hg. cbn [bind]. unfold drop. cbn [forallb]. rewrite Hc. cbn [andb bind].
  do 4 eexists. repeat split. cbn [feature_labels]. unfold column_names. cbn [columns].
  apply names_without.
Qed.

(** ** Labeling without the experience column *)





Lemma rows_length (t : DataFrame) : List.length (rows t) = List.length (index t).
Proof. unfold rows. now rewrite length_map, length_seq. Qed.




Section WithoutExperience.
Context {U : Unicode}.

Lemma staged_helper_step (t : DataFrame) :
  (if has_column t DeveloperLevelLabelerStage.job_title_col then
     titles <- get_column t DeveloperLevelLabelerStage.job_title_col ;;
     Ok (set_column t (rename (astype_str (fillna_empty titles)) (u "_job_title")))
   else Ok (set_column t (scalar_column t (u "_job_title") (VStr []))))
  = Ok (set_column t (staged_helper t)).
Proof.
  unfold staged_helper, get_column.
  destruct (has_column t DeveloperLevelLabelerStage.job_title_col) eqn:E.
  - apply has_column_in, get_column_succeeds in E. destruct E as [c [E _]].
    unfold get_column in E.
    destruct (find_column (columns t) DeveloperLevelLabelerStage.job_title_col);
      [reflexivity|discriminate].
  - rewrite find_column_absent; [reflexivity|]. now apply has_column_not_in.
Qed.


Lemma staged_drop_list (b1 b2 : bool) :
  Text.mem (u "developer_level")
    ([u "_job_title"]
     ++ (if b1 then [DeveloperLevelLabelerStage.job_title_col] else [])
     ++ (if b2 then [u "experience_months"] else [])) = false
  /\ Text.eqb (u "experience_months") (u "_job_title") = false
  /\ Text.eqb (u "_job_title") (u "developer_level") = false.
Proof. destruct b1, b2; vm_compute; repeat split. Qed.


End WithoutExperience.

Section HandlerWithoutExperience.
Context {U : Unicode}.





Lemma handler_drop_list (b1 b2 b3 : bool) :
  Text.mem (u "grade")
    ([u "_title"]
     ++ (if b1 then [LabelGradeHandler.raw_title_col] else [])
     ++ (if b2 then [u "experience_months"] else [])
     ++ (if b3 then [LabelGradeHandler.last_position_col] else [])) = false
  /\ Text.eqb (u "experience_months") (u "_title") = false.
Proof. destruct b1, b2, b3; vm_compute; repeat split. Qed.


End HandlerWithoutExperience.

Section LabelingWithoutExperience.
Context {U : Unicode}.


End LabelingWithoutExperience.



(** The handler stage reads the titles from the [job] column when the raw
    title column is gone, and leaves that column in the table. *)
Lemma handler_keeps_job_column :
  let t := {| index := [0];
              columns := [ {| cname := u "job"; cdtype := DObject;
                              cells := [VStr (u "Senior developer")] |};
                           {| cname := u "experience_months"; cdtype := DInt64;
                              cells := [VInt 3] |} ] |} in
  let ctx := {| df := Some t; features := None; target := None; feature_names := [] |} in
  match @LabelGradeHandler._process BasicUnicode ctx with
  | Ok out => option_map column_names (df out) = Some [u "job"; u "grade"]
              /\ target out = Some [VStr Senior]
  | Raise _ => False
  end.
Proof. vm_compute. split; reflexivity. Qed.

(** ** Row identity across the extraction stages *)















Section RowIdentity.
Context {U : Unicode}.













End RowIdentity.

(** ** When the extraction stages return *)



Section Returns.
Context {U : Unicode}.

Lemma py_int_raises (s : str) (e : exn) : py_int s = Raise e -> e = ValueError.
Proof.
  unfold py_int.
  destruct (split_sign (strip s)) as [neg body].
  destruct (existsb is_empty (split underscore body)); [congruence|].
  destruct (decimal_digits _ _); congruence.
Qed.







End Returns.

(** The personal-info stage is the one extractor that can raise on a cell:
    a third comma-separated part made of one word has no second-to-last
    token. *)
Lemma birth_month_can_raise :
  PersonalInfoExtractorStage._parse_birth_month (VStr (u "Мужчина , 39 лет , родился"))
  = Raise IndexError.
Proof. vm_compute. reflexivity. Qed.

(** ** A run of the eight extraction stages on a small table *)

(** The eight stages run in pipeline order return, keep the three row
    labels, and leave the expected columns. *)
Example extraction_run :
  match run extraction_stages sample_container with
  | Ok out =>
      option_map index (processed_data out) = Some [4; 7; 9]
      /\ option_map column_names (processed_data out) =
         Some [ u "Ищет работу на должность:"; u "gender"; u "age"; u "birth_month";
                u "salary_rub"; u "experience_months"; u "region";
                u "employment_full_time"; u "employment_part_time"; u "employment_project";
                u "employment_internship"; u "employment_volunteering";
                u "schedule_full_day"; u "schedule_flexible"; u "schedule_shift";
                u "schedule_remote"; u "schedule_rotation";
                u "education_incomplete_higher"; u "education_higher";
                u "education_secondary_special"; u "education_secondary";
                u "resume_old"; u "has_car" ]
      /\ option_map (fun t => map (fun c => List.length (cells c)) (columns t))
           (processed_data out) = Some (repeat 3%nat 23)
  | Raise _ => False
  end.
Proof. vm_compute. repeat split. Qed.


(** ** One-hot encoding *)








Section IndicatorCount.
Context {U : Unicode}.


End IndicatorCount.

Lemma names_nodup_filter (p : column -> bool) (cs : list column) :
  NoDup (map cname cs) -> NoDup (map cname (filter p cs)).
Proof.
  induction cs as [|c cs IH]; [constructor|]. cbn [map filter]. intros H.
  inversion H as [|n ns Hn Hns]; subst. destruct (p c); [|now apply IH].
  cbn [map]. constructor; [|now apply IH].
  intros Hin. apply Hn. apply in_map_iff in Hin. destruct Hin as [c' [Hc' Hin]].
  apply filter_In in Hin. apply in_map_iff. exists c'. now split.
Qed.

Lemma find_column_unique (cs : list column) (c : column) :
  NoDup (map cname cs) -> In c cs -> find_column cs (cname c) = Some c.
Proof.
  induction cs as [|c' cs IH]; [intros _ []|]. cbn [map In find_column]. intros H Hin.
  inversion H as [|n ns Hn Hns]; subst.
  destruct (Text.eqb (cname c') (cname c)) eqn:E.
  - destruct Hin as [->|Hin]; [reflexivity|]. apply Text.eqb_eq in E.
    exfalso. apply Hn. rewrite E. now apply in_map.
  - destruct Hin as [->|Hin]; [|now apply IH].
    assert (E' : Text.eqb (cname c) (cname c) = true) by now apply Text.eqb_eq. congruence.
Qed.

Lemma same_name_same_column (cs : list column) (c c' : column) :
  NoDup (map cname cs) -> In c cs -> In c' cs -> cname c = cname c' -> c = c'.
Proof.
  intros Hnd Hc Hc' Hn. pose proof (find_column_unique cs c Hnd Hc) as H1.
  pose proof (find_column_unique cs c' Hnd Hc') as H2. rewrite Hn in H1. congruence.
Qed.

Lemma remove_first_in (x y : str) (l : list str) : In y (remove_first x l) -> In y l.
Proof.
  induction l as [|z l IH]; [intros []|]. cbn [remove_first].
  destruct (Text.eqb z x); [now right|]. intros [H|H]; [now left|right; now apply IH].
Qed.

Lemma mem_cons (s x : str) (l : list str) :
  Text.mem s (x :: l) = Text.eqb s x || Text.mem s l.
Proof. reflexivity. Qed.

Lemma eqb_sym (a b : str) : Text.eqb a b = Text.eqb b a.
Proof.
  apply eq_true_iff_eq. rewrite !Text.eqb_eq. split; congruence.
Qed.

(** The names the stage hands to [get_dummies]: the object columns, the
    target taken out. *)
Lemma categorical_names (target : str) (cs : list column) :
  NoDup (map cname cs) ->
  (if Text.mem target (map cname (filter (fun c => dtype_eqb (cdtype c) DObject) cs))
   then remove_first target (map cname (filter (fun c => dtype_eqb (cdtype c) DObject) cs))
   else map cname (filter (fun c => dtype_eqb (cdtype c) DObject) cs))
  = map cname (filter (is_encoded target) cs).
Proof.
  induction cs as [|c cs IH]; [reflexivity|]. intros H.
  inversion H as [|n ns Hn Hns]; subst. specialize (IH Hns).
  cbn [filter]. unfold is_encoded at 1.
  destruct (dtype_eqb (cdtype c) DObject) eqn:Hobj; cbn [andb]; [|exact IH].
  cbn [map]. rewrite mem_cons, (eqb_sym target).
  destruct (Text.eqb (cname c) target) eqn:Ht; cbn [orb negb remove_first].
  - rewrite Ht. apply Text.eqb_eq in Ht. f_equal. apply filter_ext_in.
    intros c' Hc'. unfold is_encoded.
    destruct (Text.eqb (cname c') target) eqn:E; [|now rewrite andb_true_r].
    apply Text.eqb_eq in E. exfalso. apply Hn. rewrite Ht, <- E. now apply in_map.
  - cbn [map]. rewrite <- IH, Ht.
    now destruct (Text.mem target
                    (map cname (filter (fun c0 => dtype_eqb (cdtype c0) DObject) cs))).
Qed.

Lemma get_columns_unique (t : DataFrame) (cs : list column) :
  NoDup (column_names t) -> incl cs (columns t) ->
  mapM (get_column t) (map cname cs) = Ok cs.
Proof.
  intros Hnd. induction cs as [|c cs IH]; [reflexivity|]. intros Hincl.
  cbn [map mapM]. unfold get_column at 1.
  rewrite (find_column_unique (columns t) c Hnd) by (apply Hincl; now left).
  cbn [bind]. rewrite IH; [reflexivity|]. intros c' Hc'. apply Hincl. now right.
Qed.

Lemma mem_encoded_names (target : str) (t : DataFrame) (c : column) :
  NoDup (column_names t) -> In c (columns t) ->
  Text.mem (cname c) (map cname (encoded_columns target t)) = is_encoded target c.
Proof.
  intros Hnd Hin. apply eq_true_iff_eq. rewrite mem_in, in_map_iff. split.
  - intros [c' [Hn Hc']]. apply filter_In in Hc'. destruct Hc' as [Hc' He].
    now rewrite <- (same_name_same_column (columns t) c' c Hnd Hc' Hin Hn).
  - intros He. exists c. split; [reflexivity|]. apply filter_In. now split.
Qed.

(** Column names stay distinct under the two operations the stages change
    a table with, so a table loaded with distinct names keeps them. *)
Lemma set_column_distinct (t : DataFrame) (c : column) :
  NoDup (column_names t) -> NoDup (column_names (set_column t c)).
Proof.
  intros H. unfold set_column, column_names at 1. cbn [columns].
  destruct (has_column t (cname c)) eqn:E.
  - now rewrite replace_column_names.
  - rewrite map_app. cbn [map]. apply NoDup_app; [assumption|repeat constructor; intros []|].
    intros n Hn [<-|[]]. now apply has_column_not_in in E.
Qed.

Lemma drop_distinct (t t' : DataFrame) (names : list str) :
  drop t names = Ok t' -> NoDup (column_names t) -> NoDup (column_names t').
Proof.
  intros H Hnd. apply drop_ok in H. destruct H as [_ H]. unfold column_names.
  rewrite H. now apply names_nodup_filter.
Qed.

Section Encoding.
Context {U : Unicode}.

Lemma get_dummies_encoded (target : str) (t : DataFrame) :
  NoDup (column_names t) ->
  get_dummies t (map cname (encoded_columns target t)) (u "_") = Ok (encoded_table target t).
Proof.
  intros Hnd. unfold get_dummies.
  rewrite (get_columns_unique t _ Hnd) by (intros c Hc; now apply filter_In in Hc).
  cbn [bind]. unfold encoded_table, kept_columns. do 3 f_equal.
  apply filter_ext_in. intros c Hc. now rewrite mem_encoded_names.
Qed.

End Encoding.

Lemma filter_none_negb {A : Type} (p : A -> bool) (l : list A) :
  filter p l = [] -> filter (fun x => negb (p x)) l = l.
Proof.
  induction l as [|x l IH]; [reflexivity|]. cbn [filter].
  destruct (p x); [discriminate|]. intros H. cbn [negb]. now rewrite IH.
Qed.

Lemma replace_column_app (l1 l2 : list column) (c : column) :
  In (cname c) (map cname l1) ->
  replace_column (l1 ++ l2) c = replace_column l1 c ++ l2.
Proof.
  induction l1 as [|c' l1 IH]; [intros []|]. cbn [map In app replace_column].
  destruct (Text.eqb (cname c') (cname c)) eqn:E; [reflexivity|].
  intros [H|H]; [apply Text.eqb_eq in H; congruence|]. cbn [app]. now rewrite IH.
Qed.

Lemma replace_column_same (l : list column) (c : column) :
  NoDup (map cname l) -> In c l -> replace_column l c = l.
Proof.
  induction l as [|c' l IH]; [intros _ []|]. cbn [map In replace_column]. intros H Hin.
  inversion H as [|n ns Hn Hns]; subst.
  destruct (Text.eqb (cname c') (cname c)) eqn:E.
  - destruct Hin as [->|Hin]; [reflexivity|]. apply Text.eqb_eq in E.
    exfalso. apply Hn. rewrite E. now apply in_map.
  - destruct Hin as [->|Hin]; [|now rewrite IH].
    assert (E' : Text.eqb (cname c) (cname c) = true) by now apply Text.eqb_eq. congruence.
Qed.

Section EncodingStages.
Context {U : Unicode}.

Lemma encoded_none (target : str) (t : DataFrame) :
  encoded_columns target t = [] -> encoded_table target t = t.
Proof.
  intros H. unfold encoded_table, kept_columns. unfold encoded_columns in H.
  rewrite (filter_none_negb _ _ H). cbn [flat_map]. unfold encoded_columns. rewrite H.
  cbn [flat_map]. rewrite app_nil_r. now destruct t.
Qed.

Lemma kept_in_encoded_table (target : str) (t : DataFrame) (c : column) :
  In c (columns t) -> is_encoded target c = false ->
  In c (kept_columns target t) /\ has_column (encoded_table target t) (cname c) = true.
Proof.
  intros Hin He.
  assert (Hk : In c (kept_columns target t)).
  { apply filter_In. split; [assumption|]. now rewrite He. }
  split; [assumption|]. apply has_column_in. unfold column_names, encoded_table.
  cbn [columns]. rewrite map_app. apply in_or_app. left. now apply in_map.
Qed.

Lemma restore_numeric_noop (t enc : DataFrame) (names : list str) :
  (forall n, In n names -> has_column enc n = true) ->
  foldM (fun enc name =>
           if has_column enc name then Ok enc
           else c <- get_column t name ;; Ok (set_column enc c))
        names enc = Ok enc.
Proof.
  induction names as [|n names IH]; [reflexivity|]. intros H. cbn [foldM].
  rewrite (H n) by now left. cbn [bind]. apply IH. intros n' Hn'. apply H. now right.
Qed.

Lemma restore_target_noop (target : str) (t : DataFrame) (c : column) :
  NoDup (column_names t) -> In c (columns t) -> cname c = target ->
  set_column (encoded_table target t) c = encoded_table target t.
Proof.
  intros Hnd Hin Hn.
  assert (He : is_encoded target c = false).
  { unfold is_encoded. rewrite Hn.
    assert (E : Text.eqb target target = true) by now apply Text.eqb_eq.
    rewrite E. apply andb_false_r. }
  destruct (kept_in_encoded_table target t c Hin He) as [Hk Hc].
  unfold set_column. rewrite Hc. unfold encoded_table at 2. cbn [columns index].
  rewrite replace_column_app by now apply in_map.
  rewrite replace_column_same; [reflexivity| |assumption].
  apply names_nodup_filter. exact Hnd.
Qed.

Lemma staged_encode (t : DataFrame) :
  NoDup (column_names t) ->
  CategoricalEncoderStage.encode t
  = Ok (encoded_table CategoricalEncoderStage.target_col t).
Proof.
  intros Hnd. unfold CategoricalEncoderStage.encode, object_columns. cbv zeta.
  rewrite (categorical_names _ _ Hnd). fold (encoded_columns CategoricalEncoderStage.target_col t).
  destruct (map cname (encoded_columns CategoricalEncoderStage.target_col t)) as [|n ns] eqn:E.
  - apply map_eq_nil in E. now rewrite encoded_none.
  - rewrite <- E, get_dummies_encoded by exact Hnd. cbn [bind].
    rewrite restore_numeric_noop.
    + cbn [bind].
      destruct (has_column t CategoricalEncoderStage.target_col) eqn:Ht; [|reflexivity].
      apply has_column_in, get_column_succeeds in Ht. destruct Ht as [c [Hg Hn]].
      rewrite Hg. cbn [bind]. apply get_column_ok in Hg. destruct Hg as [Hin _].
      now rewrite restore_target_noop.
    + intros name Hin.
      assert (Hin' : In name (non_object_columns t)).
      { destruct (Text.mem CategoricalEncoderStage.target_col (non_object_columns t));
          [now apply remove_first_in in Hin|assumption]. }
      unfold non_object_columns in Hin'. apply in_map_iff in Hin'.
      destruct Hin' as [c [<- Hc]]. apply filter_In in Hc. destruct Hc as [Hc Hobj].
      apply kept_in_encoded_table; [assumption|]. unfold is_encoded.
      apply negb_true_iff in Hobj. now rewrite Hobj.
Qed.



End EncodingStages.

(** ** Experience parsing *)






Section Experience.
Context {U : Unicode}.







End Experience.



Section IntegerTexts.
Context {U : Unicode}.












End IntegerTexts.



(** ** Encoding at a concrete table *)

Lemma distinct_nodup (names : list str) : distinct names = true -> NoDup names.
Proof.
  induction names as [|n rest IH]; [constructor|]. cbn [distinct]. intros H.
  apply andb_true_iff in H. destruct H as [Hn Hr]. constructor; [|now apply IH].
  now apply mem_not_in, negb_true_iff.
Qed.

(** [region] has three distinct values and gives two indicator columns,
    the first category in sorted order being the reference; [note] has
    none and gives none; the target stays a text column. *)
Example encoding_run :
  match @CategoricalEncoderStage.encode BasicUnicode labelled_table with
  | Ok t =>
      column_names t = [ u "age"; u "developer_level";
                         u "region_Other"; u "region_Volga Federal District";
                         u "grade_Middle"; u "grade_Senior" ]
      /\ map cells (columns t)
         = [ [VInt 39; VInt 25; VInt 31; VInt 44];
             [VStr Senior; VStr Junior; VStr Junior; VStr Middle];
             [VInt 0; VInt 0; VInt 1; VInt 0];
             [VInt 1; VInt 0; VInt 0; VInt 0];
             [VInt 0; VInt 0; VInt 0; VInt 1];
             [VInt 1; VInt 0; VInt 0; VInt 0] ]
      /\ index t = [4; 7; 9; 12]
  | Raise _ => False
  end.
Proof. vm_compute. repeat split. Qed.


(** * Further properties *)

(** ** Row selection *)

Lemma keep_map {A B : Type} (f : A -> B) (mask : list bool) (l : list A) :
  keep mask (map f l) = map f (keep mask l).
Proof.
  revert l. induction mask as [|b mask IH]; intros [|a l]; cbn; try reflexivity.
  destruct b; cbn; now rewrite IH.
Qed.

Lemma keep_filter {A : Type} (p : A -> bool) (l : list A) :
  keep (map p l) l = filter p l.
Proof.
  induction l as [|a l IH]; [reflexivity|].
  cbn. destruct (p a); now rewrite IH.
Qed.

Lemma keep_all {A : Type} (mask : list bool) (l : list A) :
  forallb (fun b => b) mask = true ->
  List.length mask = List.length l ->
  keep mask l = l.
Proof.
  revert l. induction mask as [|b mask IH]; intros [|a l] Hall Hlen;
    cbn in *; try reflexivity; try discriminate.
  apply andb_true_iff in Hall as [-> Hall].
  f_equal. apply IH; [assumption|lia].
Qed.

Lemma keep_length {A B : Type} (mask : list bool) (l : list A) (l' : list B) :
  List.length l = List.length l' ->
  List.length (keep mask l) = List.length (keep mask l').
Proof.
  revert l l'. induction mask as [|b mask IH]; intros [|a l] [|a' l'] Hlen;
    cbn in *; try reflexivity; try discriminate.
  destruct b; cbn; [f_equal|]; apply IH; lia.
Qed.

Lemma keep_combine {A B : Type} (p : B -> bool) (l : list A) (l' : list B) :
  List.length l = List.length l' ->
  keep (map p l') l = map fst (filter (fun x => p (snd x)) (combine l l')).
Proof.
  revert l'. induction l as [|a l IH]; intros [|a' l'] Hlen;
    cbn in *; try reflexivity; try discriminate.
  destruct (p a'); cbn; [f_equal|]; apply IH; lia.
Qed.

Lemma keep_pointwise {A B : Type} (p : A -> bool) (q : B -> bool)
    (l : list A) (l' : list B) :
  Forall2 (fun a b => p a = q b) l l' ->
  keep (map p l) l' = filter q l'.
Proof.
  induction 1 as [|a b l l' Hab _ IH]; [reflexivity|].
  cbn. rewrite Hab, IH. reflexivity.
Qed.

Lemma select_rows_names (mask : list bool) (t : DataFrame) :
  column_names (select_rows mask t) = column_names t.
Proof.
  unfold column_names, select_rows. cbn [columns].
  rewrite map_map. reflexivity.
Qed.

Lemma select_rows_well_formed (mask : list bool) (t : DataFrame) :
  well_formed t -> well_formed (select_rows mask t).
Proof.
  unfold well_formed, select_rows. cbn [columns index].
  intros H. apply Forall_map. revert H. apply Forall_impl.
  intros c Hc. cbn [cells]. apply keep_length. exact Hc.
Qed.

Lemma find_column_select (mask : list bool) (cs : list column) (name : str) :
  find_column (map (fun c => {| cname := cname c;
                                cdtype := cdtype c;
                                cells := keep mask (cells c) |}) cs) name
  = option_map (fun c => {| cname := cname c;
                            cdtype := cdtype c;
                            cells := keep mask (cells c) |}) (find_column cs name).
Proof.
  induction cs as [|c cs IH]; [reflexivity|].
  cbn [map find_column cname]. destruct (Text.eqb (cname c) name); [reflexivity|apply IH].
Qed.

Lemma select_rows_all (mask : list bool) (t : DataFrame) :
  well_formed t ->
  forallb (fun b => b) mask = true ->
  List.length mask = List.length (index t) ->
  select_rows mask t = t.
Proof.
  intros Hwf Hall Hlen. destruct t as [idx cs]. unfold select_rows. cbn [index columns] in *.
  f_equal; [now apply keep_all|].
  unfold well_formed in Hwf. cbn [index columns] in Hwf.
  induction Hwf as [|c cs Hc _ IH]; [reflexivity|].
  cbn [map]. rewrite IH. f_equal.
  destruct c as [n d vs]. cbn [cname cdtype cells] in *. f_equal.
  apply keep_all; [assumption|lia].
Qed.

Lemma rows_cons (t : DataFrame) (i : Z) (idx : list Z) :
  index t = i :: idx -> rows t = row_at t 0 :: rows (behead t).
Proof.
  intros Hidx. unfold rows. rewrite Hidx. cbn [List.length seq map].
  f_equal. unfold behead at 2. cbn [index]. rewrite Hidx. cbn [tl].
  rewrite <- seq_shift, map_map. apply map_ext. intros n.
  unfold row_at, behead. cbn [columns]. rewrite map_map. apply map_ext. intros c.
  cbn [cname cells]. f_equal. destruct (cells c); [destruct n|]; reflexivity.
Qed.

Lemma behead_well_formed (t : DataFrame) : well_formed t -> well_formed (behead t).
Proof.
  unfold well_formed, behead. cbn [index columns]. intros H.
  apply Forall_map. revert H. apply Forall_impl. intros c Hc. cbn [cells].
  destruct (cells c), (index t); cbn in *; lia.
Qed.

Lemma select_rows_cons (b : bool) (mask : list bool) (t : DataFrame) (i : Z) (idx : list Z) :
  well_formed t -> index t = i :: idx ->
  rows (select_rows (b :: mask) t)
  = (if b then [row_at t 0] else []) ++ rows (select_rows mask (behead t)).
Proof.
  intros Hwf Hidx.
  assert (Hcells : Forall (fun c => exists v vs, cells c = v :: vs) (columns t)).
  { revert Hwf. apply Forall_impl. intros c Hc. rewrite Hidx in Hc.
    destruct (cells c) as [|v vs]; [discriminate|eauto]. }
  assert (Htail : select_rows mask (behead t)
                  = {| index := keep mask idx;
                       columns := map (fun c => {| cname := cname c;
                                                   cdtype := cdtype c;
                                                   cells := keep mask (tl (cells c)) |})
                                      (columns t) |}).
  { unfold select_rows, behead. cbn [index columns]. rewrite Hidx, map_map. reflexivity. }
  destruct b.
  - rewrite (rows_cons (select_rows (true :: mask) t) i (keep mask idx)).
    2:{ unfold select_rows. cbn [index]. rewrite Hidx. reflexivity. }
    cbn [app]. f_equal.
    + unfold row_at, select_rows. cbn [columns]. rewrite map_map.
      apply map_ext_in. intros c Hc. cbn [cname cells].
      rewrite Forall_forall in Hcells. destruct (Hcells c Hc) as [v [vs ->]]. reflexivity.
    + f_equal. rewrite Htail. unfold behead, select_rows. cbn [index columns].
      rewrite Hidx. cbn [keep tl]. f_equal. rewrite map_map.
      apply map_ext_in. intros c Hc. cbn [cname cdtype cells].
      rewrite Forall_forall in Hcells. destruct (Hcells c Hc) as [v [vs ->]]. reflexivity.
  - cbn [app]. f_equal. rewrite Htail. unfold select_rows. rewrite Hidx. cbn [keep].
    f_equal. apply map_ext_in. intros c Hc.
    rewrite Forall_forall in Hcells. destruct (Hcells c Hc) as [v [vs ->]]. reflexivity.
Qed.

Lemma rows_select (mask : list bool) (t : DataFrame) :
  well_formed t ->
  List.length mask = List.length (index t) ->
  rows (select_rows mask t) = keep mask (rows t).
Proof.
  revert t. induction mask as [|b mask IH]; intros t Hwf Hlen.
  - destruct (index t) eqn:Hidx; [|discriminate].
    unfold rows, select_rows. cbn [index keep]. reflexivity.
  - destruct (index t) as [|i idx] eqn:Hidx; [discriminate|].
    rewrite (select_rows_cons b mask t i idx Hwf Hidx).
    rewrite (rows_cons t i idx Hidx). cbn [keep].
    rewrite IH.
    + destruct b; reflexivity.
    + now apply behead_well_formed.
    + unfold behead. cbn [index]. rewrite Hidx. cbn in *. lia.
Qed.

Lemma nth_seq_map {A : Type} (l : list A) (d : A) :
  map (fun i => nth i l d) (seq 0 (List.length l)) = l.
Proof.
  induction l as [|a l IH]; [reflexivity|].
  cbn [List.length seq map nth]. f_equal.
  rewrite <- seq_shift, map_map. exact IH.
Qed.

Lemma filter_map_comm {A B : Type} (q : B -> bool) (f : A -> B) (l : list A) :
  filter q (map f l) = map f (filter (fun a => q (f a)) l).
Proof.
  induction l as [|a l IH]; [reflexivity|].
  cbn. destruct (q (f a)); cbn; now rewrite IH.
Qed.

Lemma keep_rows_by_cell (p : value -> bool) (t : DataFrame) (c : column) (name : str) :
  find_column (columns t) name = Some c ->
  List.length (cells c) = List.length (index t) ->
  keep (map p (cells c)) (rows t)
  = filter (fun r => p (dict_get r name NaN)) (rows t).
Proof.
  intros Hfind Hlen. unfold rows.
  rewrite <- (nth_seq_map (cells c) NaN) at 1. rewrite Hlen.
  rewrite map_map, keep_map, keep_filter, filter_map_comm.
  f_equal. apply filter_ext. intros i.
  unfold dict_get. rewrite row_lookup, Hfind. reflexivity.
Qed.

Lemma forallb_map_filter {A : Type} (p : A -> bool) (l : list A) :
  forallb (fun b => b) (map p (filter p l)) = true.
Proof.
  induction l as [|a l IH]; [reflexivity|].
  cbn. destruct (p a) eqn:Hp; [|exact IH]. cbn. now rewrite Hp.
Qed.

Lemma get_column_find (t : DataFrame) (name : str) (c : column) :
  get_column t name = Ok c <-> find_column (columns t) name = Some c.
Proof.
  unfold get_column. destruct (find_column (columns t) name); split; congruence.
Qed.

Lemma column_length (t : DataFrame) (name : str) (c : column) :
  well_formed t -> get_column t name = Ok c ->
  List.length (cells c) = List.length (index t).
Proof.
  intros Hwf Hget. apply get_column_ok in Hget as [Hin _].
  unfold well_formed in Hwf. rewrite Forall_forall in Hwf. now apply Hwf.
Qed.

(** ** Filtering to IT positions *)

Section Filtering.
Context {U : Unicode}.

Lemma filter_returns (container : DataContainer) (t : DataFrame) (titles : column) :
  processed_data container = Some t ->
  get_column t ITDeveloperFilterStage.job_title_column = Ok titles ->
  ITDeveloperFilterStage.execute container
  = Ok (set_processed_data container
          (select_rows (map ITDeveloperFilterStage._is_it_position (cells titles)) t)).
Proof.
  intros Ht Hget. unfold ITDeveloperFilterStage.execute. rewrite Ht, Hget. reflexivity.
Qed.

(** X1.  On a well-formed table with at least one row and a title column,
    the filter stage returns; its table has the columns of the input, and
    its rows are exactly the input rows whose title cell is an IT
    position, in their order and under their row labels. *)
Theorem filter_keeps_it_rows (container : DataContainer) (t : DataFrame) (titles : column) :
  processed_data container = Some t ->
  well_formed t ->
  index t <> [] ->
  get_column t ITDeveloperFilterStage.job_title_column = Ok titles ->
  exists t',
    ITDeveloperFilterStage.execute container = Ok (set_processed_data container t')
    /\ column_names t' = column_names t
    /\ rows t'
       = filter (fun r => ITDeveloperFilterStage._is_it_position
                            (dict_get r ITDeveloperFilterStage.job_title_column NaN))
                (rows t)
    /\ index t'
       = map fst (filter (fun x => ITDeveloperFilterStage._is_it_position (snd x))
                         (combine (index t) (cells titles)))
    /\ well_formed t'.
Proof.
  intros Ht Hwf _ Hget.
  pose proof (column_length t _ titles Hwf Hget) as Hlen.
  eexists. split; [exact (filter_returns container t titles Ht Hget)|].
  split; [apply select_rows_names|].
  split.
  - rewrite rows_select; [|assumption|now rewrite length_map].
    apply keep_rows_by_cell; [now apply get_column_find|assumption].
  - split; [|now apply select_rows_well_formed].
    unfold select_rows. cbn [index]. apply keep_combine. congruence.
Qed.

(** X2.  Filtering is idempotent: run on its own result (with at least one
    row kept), the filter stage returns that result unchanged. *)
Theorem filter_idempotent (container out : DataContainer) (t t' : DataFrame) :
  processed_data container = Some t ->
  well_formed t ->
  ITDeveloperFilterStage.execute container = Ok out ->
  processed_data out = Some t' ->
  index t' <> [] ->
  ITDeveloperFilterStage.execute out = Ok out.
Proof.
  intros Ht Hwf Hrun Hout _.
  unfold ITDeveloperFilterStage.execute in Hrun. rewrite Ht in Hrun.
  destruct (get_column t ITDeveloperFilterStage.job_title_column) as [titles|e] eqn:Hget;
    [|discriminate].
  cbn [bind] in Hrun. injection Hrun as <-.
  pose proof (column_length t _ titles Hwf Hget) as Hlen.
  set (mask := map ITDeveloperFilterStage._is_it_position (cells titles)) in *.
  erewrite filter_returns; [|reflexivity|].
  2:{ apply get_column_find. unfold select_rows. cbn [columns].
      rewrite find_column_select.
      apply get_column_find in Hget. rewrite Hget. reflexivity. }
  cbn [cells]. f_equal. unfold set_processed_data. cbn. f_equal. f_equal.
  apply select_rows_all.
  - now apply select_rows_well_formed.
  - unfold mask. rewrite keep_filter. apply forallb_map_filter.
  - rewrite length_map. unfold select_rows. cbn [index]. now apply keep_length.
Qed.

End Filtering.

(** ** Running a pipeline *)

Lemma foldM_app {A B : Type} (f : B -> A -> result B) (l l' : list A) (b : B) :
  foldM f (l ++ l') b = (b' <- foldM f l b ;; foldM f l' b').
Proof.
  revert b. induction l as [|a l IH]; intros b; [reflexivity|].
  cbn [app foldM]. destruct (f b a) as [b'|e]; [apply IH|reflexivity].
Qed.

(** X3.  The pipeline runs its stages in order, each on the container the
    stage before returned, and stops at the first stage that raises: a
    pipeline of two parts is the first part followed, when it returns, by
    the second on its result; a stage added with [add_stage] runs last;
    and the empty pipeline returns its container. *)
Theorem run_in_order (first second : list (DataContainer -> result DataContainer))
    (stage : DataContainer -> result DataContainer) (container : DataContainer) :
  run (first ++ second) container
  = match run first container with
    | Ok current => run second current
    | Raise e => Raise e
    end
  /\ run (add_stage first stage) container
     = match run first container with
       | Ok current => stage current
       | Raise e => Raise e
       end
  /\ run [] container = Ok container.
Proof.
  unfold run, add_stage. rewrite !foldM_app. split; [reflexivity|].
  split; [|reflexivity].
  cbn [foldM]. destruct (foldM _ first container) as [c|e]; [|reflexivity].
  cbn [bind]. now destruct (stage c).
Qed.

(** ** The labels the labeling stage hands out *)

Lemma mapM_forall {A B : Type} (f : A -> result B) (P : B -> Prop)
    (l : list A) (bs : list B) :
  (forall a b, f a = Ok b -> P b) -> mapM f l = Ok bs -> Forall P bs.
Proof.
  intros Hf. revert bs. induction l as [|a l IH]; intros bs H; cbn [mapM] in H.
  - injection H as <-. constructor.
  - bind_inv H. bind_inv H. injection H as <-. constructor; eauto.
Qed.

Lemma drop_get_set_column (t t' : DataFrame) (c : column) (cols : list str) :
  drop (set_column t c) cols = Ok t' ->
  Text.mem (cname c) cols = false ->
  get_column t' (cname c) = Ok c.
Proof.
  intros Hdrop Hmem. apply drop_ok in Hdrop as [_ Hcols].
  apply get_column_find. rewrite Hcols.
  rewrite (find_column_filter (fun n => negb (Text.mem n cols))), Hmem.
  apply find_set_column.
Qed.

Lemma level_rank_values :
  level_rank Junior = 0%nat /\ level_rank Middle = 1%nat /\ level_rank Senior = 2%nat.
Proof. vm_compute. repeat split. Qed.

Lemma levels_differ : Junior <> Middle /\ Junior <> Senior /\ Middle <> Senior.
Proof. repeat split; intros H; vm_compute in H; discriminate. Qed.

Section LabelValues.
Context {U : Unicode}.

Lemma determine_level_closed (r : row) (l : str) :
  DeveloperLevelLabelerStage._determine_level r = Ok l -> In l [Junior; Middle; Senior].
Proof.
  unfold DeveloperLevelLabelerStage._determine_level. cbv zeta.
  repeat match goal with |- context [any_in ?k ?t] => destruct (any_in k t) end;
    cbn [andb]; intros H;
    repeat match type of H with
           | bind ?m _ = Ok _ =>
               let b := fresh "b" in
               destruct m as [b|]; cbn [bind] in H; [destruct b|discriminate]
           end;
    injection H as <-; cbn [In]; auto.
Qed.

Lemma label_closed (r : row) (l : str) :
  LabelGradeHandler._label r = Ok l -> In l [Junior; Middle; Senior].
Proof.
  unfold LabelGradeHandler._label. intros H.
  bind_inv H. cbv zeta in H. bind_inv H. revert H.
  repeat match goal with |- context [any_in ?k ?t] => destruct (any_in k t) end;
    cbn [andb]; intros H;
    repeat match type of H with
           | bind ?m _ = Ok _ =>
               let b := fresh "b" in
               destruct m as [b|]; cbn [bind] in H; [destruct b|discriminate]
           end;
    injection H as <-; cbn [In]; auto.
Qed.

Lemma label_cells (f : row -> result str) (t : DataFrame) (labels : list value) :
  (forall r l, f r = Ok l -> In l [Junior; Middle; Senior]) ->
  apply_rows (fun r => l <- f r ;; Ok (VStr l)) t = Ok labels ->
  List.length labels = List.length (index t)
  /\ Forall (fun v => In v [VStr Junior; VStr Middle; VStr Senior]) labels.
Proof.
  intros Hf H. unfold apply_rows in H. split.
  - rewrite (mapM_length _ _ _ H). apply rows_length.
  - revert H. apply mapM_forall. intros r v Hv. bind_inv Hv. injection Hv as <-.
    apply Hf in Hx. cbn [In] in *. intuition (subst; auto).
Qed.

Lemma copy_some (d : option DataFrame) (t : DataFrame) : copy d = Ok t -> d = Some t.
Proof. destruct d; cbn; congruence. Qed.

(** X4.  Whenever the staged labeling stage returns, the target vector
    holds one label per row of the table it was given, every label is
    Junior, Middle or Senior, the row labels are unchanged, and the
    [developer_level] column of the table holds those same labels. *)
Theorem staged_labels_per_row (container out : DataContainer) :
  DeveloperLevelLabelerStage.execute container = Ok out ->
  exists t t' labels,
    processed_data container = Some t
    /\ processed_data out = Some t'
    /\ target_vector out = Some labels
    /\ index t' = index t
    /\ List.length labels = List.length (index t)
    /\ Forall (fun v => In v [VStr Junior; VStr Middle; VStr Senior]) labels
    /\ get_column t' (u "developer_level") = Ok (new_column (u "developer_level") labels).
Proof.
  unfold DeveloperLevelLabelerStage.execute. intros H.
  bind_inv H. apply copy_some in Hx.
  bind_inv H. rewrite staged_helper_step in Hx0. injection Hx0 as <-.
  bind_inv H. cbv zeta in H. bind_inv H.
  match goal with A : apply_rows _ _ = Ok _ |- _ =>
    apply (label_cells _ _ _ determine_level_closed) in A as [Hlen Hall] end.
  rewrite set_column_index in Hlen.
  match goal with D : drop (set_column ?t1 ?c) ?cols = Ok ?t3 |- _ =>
    pose proof (drop_get_set_column t1 t3 c cols D) as Hget;
    apply drop_ok in D as [Hidx _]
  end.
  rewrite !set_column_index in Hidx.
  cbn [new_column cname] in Hget.
  rewrite (proj1 (staged_drop_list _ _)) in Hget. specialize (Hget eq_refl).
  rewrite Hget in H. cbn [bind new_column cells] in H. injection H as <-.
  cbn [processed_data target_vector].
  do 3 eexists. repeat (split; [first [eassumption|reflexivity]|]). exact Hget.
Qed.

Lemma handler_helper_index (t t1 : DataFrame) :
  (if has_column t LabelGradeHandler.raw_title_col then
     titles <- get_column t LabelGradeHandler.raw_title_col ;;
     lowered <- str_lower_accessor (fillna_empty titles) ;;
     Ok (set_column t (rename lowered (u "_title")))
   else if has_column t (u "job") then
     titles <- get_column t (u "job") ;;
     lowered <- str_lower_accessor (fillna_empty titles) ;;
     Ok (set_column t (rename lowered (u "_title")))
   else Ok (set_column t (scalar_column t (u "_title") (VStr [])))) = Ok t1 ->
  index t1 = index t.
Proof.
  destruct (has_column t LabelGradeHandler.raw_title_col);
    [|destruct (has_column t (u "job"))]; intros H;
    try (bind_inv H; bind_inv H); injection H as <-; apply set_column_index.
Qed.

(** X5.  Whenever the handler labeling stage returns, the target holds one
    label per row of the table it was given, every label is Junior, Middle
    or Senior, the row labels are unchanged, and the [grade] column of the
    table holds those same labels. *)
Theorem handler_labels_per_row (ctx out : PipelineContext) :
  LabelGradeHandler._process ctx = Ok out ->
  exists t t' labels,
    df ctx = Some t
    /\ df out = Some t'
    /\ target out = Some labels
    /\ index t' = index t
    /\ List.length labels = List.length (index t)
    /\ Forall (fun v => In v [VStr Junior; VStr Middle; VStr Senior]) labels
    /\ get_column t' (u "grade") = Ok (new_column (u "grade") labels).
Proof.
  unfold LabelGradeHandler._process. intros H.
  bind_inv H. apply copy_some in Hx.
  bind_inv H. apply handler_helper_index in Hx0.
  bind_inv H. cbv zeta in H. bind_inv H.
  match goal with A : apply_rows _ _ = Ok _ |- _ =>
    apply (label_cells _ _ _ label_closed) in A as [Hlen Hall] end.
  rewrite Hx0 in Hlen.
  match goal with D : drop (set_column ?t1 ?c) ?cols = Ok ?t3 |- _ =>
    pose proof (drop_get_set_column t1 t3 c cols D) as Hget;
    apply drop_ok in D as [Hidx _]
  end.
  rewrite set_column_index, Hx0 in Hidx.
  cbn [new_column cname] in Hget.
  rewrite (proj1 (handler_drop_list _ _ _)) in Hget. specialize (Hget eq_refl).
  rewrite Hget in H. cbn [bind new_column cells] in H. injection H as <-.
  cbn [df target].
  do 3 eexists. repeat (split; [first [eassumption|reflexivity]|]). exact Hget.
Qed.

Lemma label_of_monotone (title : str) (m m' : Z) :
  m <= m' -> (level_rank (label_of title m) <= level_rank (label_of title m'))%nat.
Proof.
  intros Hle. destruct level_rank_values as [HJ [HM HS]]. unfold label_of.
  destruct (any_in SENIOR title), (any_in JUNIOR title), (any_in MIDDLE title);
    cbn [andb];
    repeat match goal with
           | |- context [?a <? ?b] => destruct (Z.ltb_spec a b)
           | |- context [?a <=? ?b] => destruct (Z.leb_spec a b)
           end;
    rewrite ?HJ, ?HM, ?HS; lia.
Qed.

(** X6.  The label never goes down with experience: of two rows with the
    same title and integer experience, the one with at least as many
    months gets a label at least as high (Junior below Middle below
    Senior), in the staged and in the handler row function. *)
Theorem label_monotone_in_experience :
  (forall (r r' : row) (m m' : Z),
      staged_title r = staged_title r' ->
      dict_get r (u "experience_months") (VInt 0) = VInt m ->
      dict_get r' (u "experience_months") (VInt 0) = VInt m' ->
      m <= m' ->
      exists l l',
        DeveloperLevelLabelerStage._determine_level r = Ok l
        /\ DeveloperLevelLabelerStage._determine_level r' = Ok l'
        /\ (level_rank l <= level_rank l')%nat)
  /\ (forall (r r' : row) (title : str) (m m' : Z),
        dict_find r (u "_title") = Some (VStr title) ->
        dict_find r' (u "_title") = Some (VStr title) ->
        dict_get r (u "experience_months") (VInt 0) = VInt m ->
        dict_get r' (u "experience_months") (VInt 0) = VInt m' ->
        m <= m' ->
        exists l l',
          LabelGradeHandler._label r = Ok l
          /\ LabelGradeHandler._label r' = Ok l'
          /\ (level_rank l <= level_rank l')%nat).
Proof.
  split.
  - intros r r' m m' Htitle Hm Hm' Hle.
    exists (label_of (staged_title r) m), (label_of (staged_title r') m').
    split; [now apply determine_level_label|].
    split; [now apply determine_level_label|].
    rewrite <- Htitle. now apply label_of_monotone.
  - intros r r' title m m' Ht Ht' Hm Hm' Hle.
    exists (label_of title m), (label_of title m').
    split; [now apply label_row_label|].
    split; [now apply label_row_label|].
    now apply label_of_monotone.
Qed.

(** X7.  What a title keyword rules out, whatever the experience cell
    holds: a title with a Senior indicator is never labelled Middle, and a
    title with a Junior indicator and no Senior indicator is never
    labelled Senior. *)
Theorem title_keywords_bound_label (r : row) (l : str) :
  DeveloperLevelLabelerStage._determine_level r = Ok l ->
  (has_indicator SENIOR (staged_title r) -> l <> Middle)
  /\ (has_indicator JUNIOR (staged_title r) -> ~ has_indicator SENIOR (staged_title r) ->
      l <> Senior).
Proof.
  destruct levels_differ as [HJM [HJS HMS]].
  intros H. split.
  - intros Hs. apply any_in_indicator in Hs. revert H.
    unfold DeveloperLevelLabelerStage._determine_level. cbv zeta.
    fold (staged_title r). unfold SENIOR in Hs. rewrite Hs.
    match goal with |- context [any_in DeveloperLevelLabelerStage.JUNIOR_INDICATORS ?t] =>
      destruct (any_in DeveloperLevelLabelerStage.JUNIOR_INDICATORS t) end;
      cbn [andb]; intros H.
    + bind_inv H. injection H as <-. destruct x; congruence.
    + injection H as <-. congruence.
  - intros Hj Hs. apply any_in_indicator in Hj. apply any_in_no_indicator in Hs. revert H.
    unfold DeveloperLevelLabelerStage._determine_level. cbv zeta.
    fold (staged_title r). unfold SENIOR in Hs. unfold JUNIOR in Hj. rewrite Hs, Hj.
    cbn [andb]. intros H. bind_inv H. injection H as <-. destruct x; congruence.
Qed.

End LabelValues.

(** ** The split stage with a target column *)





(** ** Age, birthday month and region *)

Lemma py_index_1 {A : Type} (l : list A) :
  (List.length l <? 2)%nat = false -> exists a, py_index l 1 = Ok a.
Proof.
  destruct l as [|a [|b l]]; cbn [List.length]; intros H; try discriminate.
  exists b. rewrite py_index_nonneg by lia. reflexivity.
Qed.

Lemma py_index_2 {A : Type} (l : list A) :
  (List.length l <? 3)%nat = false ->
  exists a, py_index l 2 = Ok a /\ nth_error l 2 = Some a.
Proof.
  destruct l as [|a [|b [|c l]]]; cbn [List.length]; intros H; try discriminate.
  exists c. rewrite py_index_nonneg by lia. split; reflexivity.
Qed.

Lemma split_nonempty (sep : N) (s : str) : exists a rest, split sep s = a :: rest.
Proof. destruct (split_head sep s) as [rest H]. eauto. Qed.

Lemma py_index_last_but_one {A : Type} (l : list A) :
  (exists a, py_index l (-2) = Ok a) \/
  (py_index l (-2) = Raise IndexError /\ (List.length l < 2)%nat).
Proof.
  destruct l as [|a [|b l]].
  - right. split; [reflexivity|cbn; lia].
  - right. split; [reflexivity|cbn; lia].
  - left. unfold py_index. cbv zeta.
    replace (-2 <? 0) with true by reflexivity.
    set (n := Z.of_nat (List.length (a :: b :: l))).
    assert (Hn : 2 <= n) by (unfold n; cbn [List.length]; lia).
    replace (n + -2 <? 0) with false by (symmetry; apply Z.ltb_ge; lia).
    replace (n <=? n + -2) with false by (symmetry; apply Z.leb_gt; lia).
    cbn [orb].
    destruct (nth_error (a :: b :: l) (Z.to_nat (n + -2))) eqn:Hnth; [eauto|].
    apply nth_error_None in Hnth. unfold n in Hnth. lia.
Qed.

Section PersonalInfo.
Context {U : Unicode}.

(** X10.  The staged age parser never raises: it answers -1 where the
    handler's parser raises (a cell that is no text, an age token that is
    no integer), and the handler's answer everywhere else. *)
Theorem age_parsers_agree_where_handler_returns (v : value) :
  (exists n, PersonalInfoExtractorStage._parse_age v = Ok n)
  /\ (forall n, ParseGenderAgeBirthday.extract_age v = Ok n ->
                PersonalInfoExtractorStage._parse_age v = Ok n)
  /\ (forall e, ParseGenderAgeBirthday.extract_age v = Raise e ->
                PersonalInfoExtractorStage._parse_age v = Ok (-1)
                /\ (e = AttributeError \/ e = ValueError)).
Proof.
  destruct v as [s|n|f]; cbn [PersonalInfoExtractorStage._parse_age
                              ParseGenderAgeBirthday.extract_age str_method bind];
    try (split; [eauto|split; [discriminate|intros e [= <-]; auto]]).
  cbv zeta.
  destruct (List.length (split comma s) <? 2)%nat eqn:Hlen.
  - split; [eauto|split; [auto|discriminate]].
  - destruct (py_index_1 _ Hlen) as [second ->]. cbn [bind].
    destruct (split_nonempty space (replace nbsp space (strip second))) as [tok [rest ->]].
    rewrite py_index_0. cbn [bind].
    destruct (py_int tok) as [n|e] eqn:Hint; cbn [try_except].
    + split; [eauto|split; [auto|discriminate]].
    + apply py_int_raises in Hint as ->. cbn [is_ValueError].
      split; [eauto|split; [discriminate|intros e [= <-]; auto]].
Qed.

Lemma month_number_map (word : str) :
  ParseGenderAgeBirthday.month_number word
  = dict_get PersonalInfoExtractorStage.month_map word (-1)
  /\ -1 <= dict_get PersonalInfoExtractorStage.month_map word (-1) <= 11.
Proof.
  unfold ParseGenderAgeBirthday.month_number, dict_get,
    PersonalInfoExtractorStage.month_map, Text.mem.
  cbn [existsb dict_find].
  repeat match goal with
         | |- context [Text.eqb ?k word] =>
             rewrite (eqb_sym k word);
             destruct (Text.eqb word k); cbn [orb]; [split; [reflexivity|lia]|]
         end.
  split; [reflexivity|lia].
Qed.

(** X11.  The birthday-month parsers: on a text the handler's [match] and
    the staged dictionary give the same answer; an answer is a month
    number from 0 to 11 or -1; and the staged parser raises, always
    [IndexError], exactly when the text has a third comma-separated part
    that holds a single space-separated token. *)
Theorem birth_month_parsers (v : value) :
  (forall s, v = VStr s ->
             ParseGenderAgeBirthday.extract_birthday_month v
             = PersonalInfoExtractorStage._parse_birth_month v)
  /\ (forall n, PersonalInfoExtractorStage._parse_birth_month v = Ok n -> -1 <= n <= 11)
  /\ (forall e, PersonalInfoExtractorStage._parse_birth_month v = Raise e ->
                e = IndexError)
  /\ (PersonalInfoExtractorStage._parse_birth_month v = Raise IndexError <->
      exists s third,
        v = VStr s
        /\ nth_error (split comma s) 2 = Some third
        /\ List.length (split space (replace nbsp space (strip third))) = 1%nat).
Proof.
  destruct v as [s|n|f]; cbn [PersonalInfoExtractorStage._parse_birth_month].
  2,3: split; [discriminate|split; [intros ? [= <-]; lia|split; [discriminate|]]];
       split; [discriminate|intros [s [third [Hv _]]]; discriminate].
  split.
  { intros s' [= <-]. cbn [ParseGenderAgeBirthday.extract_birthday_month str_method bind].
    cbv zeta. destruct (List.length (split comma s) <? 3)%nat; [reflexivity|].
    destruct (py_index (split comma s) 2); [|reflexivity]. cbn [bind].
    destruct (py_index _ (-2)); [|reflexivity]. cbn [bind].
    now rewrite (proj1 (month_number_map _)). }
  cbv zeta. destruct (List.length (split comma s) <? 3)%nat eqn:Hlen.
  { split; [intros ? [= <-]; lia|split; [discriminate|]].
    split; [discriminate|]. intros [s' [third [[= <-] [Hnth _]]]].
    apply Nat.ltb_lt in Hlen.
    assert (nth_error (split comma s) 2 <> None) by congruence.
    apply nth_error_Some in H. lia. }
  destruct (py_index_2 _ Hlen) as [third [-> Hnth]]. cbn [bind].
  destruct (split_nonempty space (replace nbsp space (strip third))) as [tok [rest Htokens]].
  destruct (py_index_last_but_one (split space (replace nbsp space (strip third))))
    as [[word Hword]|[Hraise Hshort]].
  - rewrite Hword. cbn [bind].
    split; [intros ? [= <-]; apply month_number_map|split; [discriminate|]].
    split; [discriminate|]. intros [s' [third' [[= <-] [Hnth' Hone]]]].
    rewrite Hnth in Hnth'. injection Hnth' as <-.
    destruct (split space (replace nbsp space (strip third))) as [|a [|b l]];
      [discriminate Hone|vm_compute in Hword; discriminate Hword|discriminate Hone].
  - rewrite Hraise. cbn [bind]. split; [discriminate|split; [intros ? [= <-]; reflexivity|]].
    split; [intros _|reflexivity].
    exists s, third. split; [reflexivity|split; [assumption|]].
    rewrite Htokens in *. cbn [List.length] in *. lia.
Qed.

End PersonalInfo.

Lemma region_table_check :
  forallb (fun entry =>
             forallb (fun city =>
                        Text.eqb (LocationExtractorStage.region_of
                                    LocationExtractorStage.REGION_MAPPING city)
                                 (fst entry))
                     (snd entry))
          LocationExtractorStage.REGION_MAPPING = true.
Proof. vm_compute. reflexivity. Qed.

Lemma region_of_listed (mapping : list (str * list str)) (city : str) :
  LocationExtractorStage.region_of mapping city = u "Other"
  \/ In (LocationExtractorStage.region_of mapping city) (map fst mapping).
Proof.
  induction mapping as [|[region cities] rest IH]; [now left|].
  cbn [LocationExtractorStage.region_of map fst].
  destruct (Text.mem city cities); [right; now left|].
  destruct IH as [IH|IH]; [now left|right; now right].
Qed.

(** X12.  The region of a city cell.  The staged function never raises and
    answers with the region of the stripped text before the first comma:
    one of the regions of the table or [Other].  Every city the table
    lists is given the region it is listed under.  The handler's function
    gives the same answer on a text and raises [AttributeError] on a cell
    that is no text, where the staged one answers [Other]. *)
Theorem city_region (v : value) :
  (exists region,
      LocationExtractorStage._categorize_city v = Ok region
      /\ (region = u "Other"
          \/ In region (map fst LocationExtractorStage.REGION_MAPPING)))
  /\ (forall s, v = VStr s ->
        LocationExtractorStage._categorize_city v
        = Ok (LocationExtractorStage.region_of LocationExtractorStage.REGION_MAPPING
                (strip (before comma s)))
        /\ ParseCityHandler.extract_city v = LocationExtractorStage._categorize_city v)
  /\ (is_str v = false ->
        LocationExtractorStage._categorize_city v = Ok (u "Other")
        /\ ParseCityHandler.extract_city v = Raise AttributeError)
  /\ (forall region cities city,
        In (region, cities) LocationExtractorStage.REGION_MAPPING ->
        In city cities ->
        LocationExtractorStage.region_of LocationExtractorStage.REGION_MAPPING city = region).
Proof.
  assert (Htext : forall s,
           LocationExtractorStage._categorize_city (VStr s)
           = Ok (LocationExtractorStage.region_of LocationExtractorStage.REGION_MAPPING
                   (strip (before comma s)))).
  { intros s. cbn [LocationExtractorStage._categorize_city].
    rewrite first_token. reflexivity. }
  split; [|split; [|split]].
  - destruct v as [s|n|f]; try (eexists; split; [reflexivity|now left]).
    eexists. split; [apply Htext|apply region_of_listed].
  - intros s ->. split; [apply Htext|].
    unfold ParseCityHandler.extract_city, ParseCityHandler.regions_map.
    cbn [str_method bind LocationExtractorStage._categorize_city]. reflexivity.
  - destruct v; [discriminate|..]; intros _; split; reflexivity.
  - intros region cities city Hentry Hcity.
    pose proof region_table_check as Hcheck.
    rewrite forallb_forall in Hcheck. specialize (Hcheck _ Hentry).
    cbn [fst snd] in Hcheck. rewrite forallb_forall in Hcheck.
    now apply Text.eqb_eq, Hcheck.
Qed.

(** ** What one-hot encoding leaves *)


Section EncodedTables.
Context {U : Unicode}.



Lemma encoded_table_well_formed (target : str) (t : DataFrame) :
  well_formed t -> well_formed (encoded_table target t).
Proof.
  unfold well_formed, encoded_table. cbn [index columns]. intros Hwf.
  rewrite Forall_forall in Hwf. apply Forall_app. split; apply Forall_forall; intros c Hc.
  - apply Hwf. unfold kept_columns in Hc. now apply filter_In in Hc as [Hc _].
  - apply in_flat_map in Hc as [source [Hsource Hc]].
    unfold dummies in Hc. apply in_map_iff in Hc as [l [<- _]].
    cbn [cells]. rewrite length_map. apply Hwf.
    unfold encoded_columns in Hsource. now apply filter_In in Hsource as [Hsource _].
Qed.



(** X13.  On a table with distinct column names the staged encoder returns
    a table with the same row labels, one cell per row in every column
    whenever the input had, no object column other than the target, and
    every column of the input that is not an object column, and the
    target, unchanged. *)
Theorem encoding_leaves_no_text_column (t : DataFrame) :
  NoDup (column_names t) ->
  exists t',
    CategoricalEncoderStage.encode t = Ok t'
    /\ index t' = index t
    /\ (well_formed t -> well_formed t')
    /\ (forall c, In c (columns t') -> cdtype c = DObject ->
                  cname c = CategoricalEncoderStage.target_col)
    /\ (forall c, In c (columns t) ->
                  cdtype c <> DObject \/ cname c = CategoricalEncoderStage.target_col ->
                  In c (columns t')).
Proof.
  intros Hnd. exists (encoded_table CategoricalEncoderStage.target_col t).
  split; [now apply staged_encode|]. split; [reflexivity|].
  split; [apply encoded_table_well_formed|]. split.
  - intros c Hc Hobj. unfold encoded_table in Hc. cbn [columns] in Hc.
    apply in_app_iff in Hc as [Hc|Hc].
    + unfold kept_columns in Hc. apply filter_In in Hc as [_ Hkept].
      unfold is_encoded in Hkept. rewrite Hobj in Hkept. cbn [dtype_eqb andb] in Hkept.
      apply negb_true_iff, negb_false_iff in Hkept. now apply Text.eqb_eq.
    + apply in_flat_map in Hc as [source [_ Hc]]. unfold dummies in Hc.
      apply in_map_iff in Hc as [l [<- _]]. discriminate.
  - intros c Hc Hkeep. unfold encoded_table. cbn [columns].
    apply in_app_iff. left. unfold kept_columns. apply filter_In. split; [assumption|].
    unfold is_encoded. destruct Hkeep as [Hd|Hn].
    + destruct (cdtype c); [congruence|reflexivity..].
    + apply Text.eqb_eq in Hn. rewrite Hn. cbn [negb]. now rewrite andb_false_r.
Qed.


End EncodedTables.

(** ** A table without the column a stage reads *)

Lemma get_column_absent (t : DataFrame) (name : str) :
  has_column t name = false -> get_column t name = Raise KeyError.
Proof.
  intros H. apply has_column_not_in in H. unfold get_column.
  now rewrite find_column_absent.
Qed.

Lemma misc_column_texts :
  MiscExtractorStage.resume_col = u "Обновление резюме"
  /\ MiscExtractorStage.car_col = u "Авто"
  /\ MiscExtractorStage.last_place_col = u "Последенее/нынешнее место работы".
Proof. repeat split. Qed.

Section MissingColumns.
Context {U : Unicode}.

(** X15.  A stage that reads a fixed source column raises [KeyError] when
    the table lacks it: the filter, personal-info, salary, experience,
    location, employment, schedule and education stages all do. *)
Theorem missing_source_column_raises (container : DataContainer) (t : DataFrame) :
  processed_data container = Some t ->
  (has_column t ITDeveloperFilterStage.job_title_column = false ->
   ITDeveloperFilterStage.execute container = Raise KeyError)
  /\ (has_column t PersonalInfoExtractorStage.col = false ->
      PersonalInfoExtractorStage.execute container = Raise KeyError)
  /\ (has_column t (u "ЗП") = false ->
      SalaryExtractorStage.execute container = Raise KeyError)
  /\ (has_column t ExperienceExtractorStage.exp_col = false ->
      ExperienceExtractorStage.execute container = Raise KeyError)
  /\ (has_column t (u "Город") = false ->
      LocationExtractorStage.execute container = Raise KeyError)
  /\ (has_column t EmploymentExtractorStage.emp_col = false ->
      EmploymentExtractorStage.execute container = Raise KeyError)
  /\ (has_column t ScheduleExtractorStage.schedule_col = false ->
      ScheduleExtractorStage.execute container = Raise KeyError)
  /\ (has_column t EducationExtractorStage.edu_col = false ->
      EducationExtractorStage.execute container = Raise KeyError).
Proof.
  intros Ht. repeat split; intros H; apply get_column_absent in H.
  - unfold ITDeveloperFilterStage.execute. now rewrite Ht, H.
  - unfold PersonalInfoExtractorStage.execute. rewrite Ht. cbn [copy bind]. now rewrite H.
  - unfold SalaryExtractorStage.execute. rewrite Ht. cbn [copy bind]. now rewrite H.
  - unfold ExperienceExtractorStage.execute. rewrite Ht. cbn [copy bind]. now rewrite H.
  - unfold LocationExtractorStage.execute. rewrite Ht. cbn [copy bind]. now rewrite H.
  - unfold EmploymentExtractorStage.execute, EmploymentExtractorStage.EMPLOYMENT_TYPES.
    rewrite Ht. cbn [copy bind foldM]. now rewrite H.
  - unfold ScheduleExtractorStage.execute, ScheduleExtractorStage.SCHEDULE_TYPES.
    rewrite Ht. cbn [copy bind foldM]. now rewrite H.
  - unfold EducationExtractorStage.execute, EducationExtractorStage.EDUCATION_LEVELS.
    rewrite Ht. cbn [copy bind foldM]. now rewrite H.
Qed.

(** X16.  The staged misc stage tolerates a table without the columns it
    looks for and returns the container unchanged, where the handlers for
    the resume date, the car and the last place of work raise
    [KeyError]. *)
Theorem misc_columns_optional_in_stage_only
    (container : DataContainer) (ctx : PipelineContext) (t : DataFrame) :
  processed_data container = Some t ->
  df ctx = Some t ->
  has_column t MiscExtractorStage.resume_col = false ->
  has_column t MiscExtractorStage.car_col = false ->
  has_column t MiscExtractorStage.last_place_col = false ->
  has_column t MiscExtractorStage.last_position_col = false ->
  MiscExtractorStage.execute container = Ok (set_processed_data container t)
  /\ ParseResume._process ctx = Raise KeyError
  /\ ParseAutoHandler._process ctx = Raise KeyError
  /\ ParseLastPlaceHandler._process ctx = Raise KeyError.
Proof.
  intros Ht Hdf Hresume Hcar Hplace Hposition. split; [|split; [|split]].
  - unfold MiscExtractorStage.execute. rewrite Ht. cbn [copy bind].
    destruct (has_column t MiscExtractorStage.resume_col); [discriminate|]. cbn [bind].
    destruct (has_column t MiscExtractorStage.car_col); [discriminate|]. cbn [bind].
    destruct (has_column t MiscExtractorStage.last_place_col); [discriminate|]. cbn [bind].
    destruct (has_column t MiscExtractorStage.last_position_col); [discriminate|].
    reflexivity.
  - apply get_column_absent in Hresume. rewrite (proj1 misc_column_texts) in Hresume.
    unfold ParseResume._process. rewrite Hdf. cbn [copy bind].
    rewrite Hresume. reflexivity.
  - apply get_column_absent in Hcar. rewrite (proj1 (proj2 misc_column_texts)) in Hcar.
    unfold ParseAutoHandler._process. rewrite Hdf. cbn [copy bind].
    rewrite Hcar. reflexivity.
  - rewrite (proj2 (proj2 misc_column_texts)) in Hplace.
    unfold ParseLastPlaceHandler._process. rewrite Hdf. cbn [bind].
    unfold drop. cbn [forallb]. rewrite Hplace. reflexivity.
Qed.

End MissingColumns.

(** ** Digit groups of a salary *)

Section SalaryTokens.
Context {U : Unicode}.

Lemma scan_tokens_groups (groups : list str) (cur : str) (rest : list str) (digits : str) :
  forallb isdigit groups = true ->
  isdigit cur = false ->
  SalaryExtractorStage.scan_tokens (groups ++ cur :: rest) digits
  = (digits ++ List.concat groups, join [space] (cur :: rest)).
Proof.
  revert digits. induction groups as [|g groups IH]; intros digits Hall Hcur.
  - cbn [app List.concat SalaryExtractorStage.scan_tokens]. rewrite Hcur.
    now rewrite app_nil_r.
  - cbn [forallb] in Hall. apply andb_true_iff in Hall as [Hg Hall].
    cbn [app List.concat SalaryExtractorStage.scan_tokens]. rewrite Hg.
    rewrite IH by assumption. now rewrite app_assoc.
Qed.

Lemma scan_tokens_all_groups (groups : list str) (digits : str) :
  forallb isdigit groups = true ->
  SalaryExtractorStage.scan_tokens groups digits = (digits ++ List.concat groups, []).
Proof.
  revert digits. induction groups as [|g groups IH]; intros digits Hall.
  - cbn. now rewrite app_nil_r.
  - cbn [forallb] in Hall. apply andb_true_iff in Hall as [Hg Hall].
    cbn [List.concat SalaryExtractorStage.scan_tokens]. rewrite Hg.
    rewrite IH by assumption. now rewrite app_assoc.
Qed.

(** X17.  Digit groups of a salary text are read as one number: when the
    space-separated tokens of the cleaned text are digit tokens followed
    by a first token that is none, the staged parser converts the
    concatenated digit tokens and multiplies by the rate of everything
    from that token on (1.0 when the table has no such currency); with
    digit tokens only, the amount is returned at rate 1.0. *)
Theorem salary_digit_groups (s : str) (groups : list str) (amount : float64) :
  forallb isdigit groups = true ->
  py_float (List.concat groups) = Ok amount ->
  (forall cur rest,
      split space (strip (replace nbsp space s)) = groups ++ cur :: rest ->
      isdigit cur = false ->
      SalaryExtractorStage._normalize_salary (VStr s)
      = Ok (fmul amount
              (dict_get SalaryExtractorStage.CURRENCY_RATES
                 (strip (join [space] (cur :: rest))) float_one)))
  /\ (split space (strip (replace nbsp space s)) = groups ->
      SalaryExtractorStage._normalize_salary (VStr s) = Ok (fmul amount float_one)).
Proof.
  intros Hall Hamount.
  pose proof (py_float_nonempty _ _ Hamount) as Hne.
  split.
  - intros cur rest Htokens Hcur.
    cbn [SalaryExtractorStage._normalize_salary]. cbv zeta.
    rewrite Htokens, scan_tokens_groups by assumption. cbn [app].
    rewrite Hne, Hamount. reflexivity.
  - intros Htokens.
    cbn [SalaryExtractorStage._normalize_salary]. cbv zeta.
    rewrite Htokens, scan_tokens_all_groups by assumption. cbn [app].
    rewrite Hne, Hamount. cbn [bind try_except].
    assert (Hrate : dict_get SalaryExtractorStage.CURRENCY_RATES (strip []) float_one
                    = float_one) by (vm_compute; reflexivity).
    rewrite Hrate. reflexivity.
Qed.

End SalaryTokens.

(** ** Which titles the filters keep *)

Lemma filter_keywords_equal :
  FilterITRolesHandler._STRONG_KEYWORDS = ITDeveloperFilterStage.PRIMARY_KEYWORDS
  /\ FilterITRolesHandler._TECH_KEYWORDS = ITDeveloperFilterStage.TECH_STACK_KEYWORDS
  /\ FilterITRolesHandler._WEAK_KEYWORDS = ITDeveloperFilterStage.AMBIGUOUS_KEYWORDS
  /\ FilterITRolesHandler._IT_CONTEXT = ITDeveloperFilterStage.IT_CONTEXT_INDICATORS.
Proof. repeat split. Qed.

Lemma project_manager_primary :
  In (u "project manager") ITDeveloperFilterStage.PRIMARY_KEYWORDS.
Proof.
  apply mem_in. vm_compute. reflexivity.
Qed.

Section FilterPredicate.
Context {U : Unicode}.

(** X18.  The title tests of the two filters.  Both give the same answer
    on every cell; a cell that is no text is no IT position; a text is one
    exactly when its lowercased form holds a primary or a technology
    keyword, or an ambiguous keyword together with a context indicator;
    and a title that holds [project manager] is one whatever else it
    holds, the keyword being a primary one as well as an ambiguous one. *)
Theorem it_position_test (v : value) :
  FilterITRolesHandler.is_it_role v = ITDeveloperFilterStage._is_it_position v
  /\ (is_str v = false -> ITDeveloperFilterStage._is_it_position v = false)
  /\ (forall s, v = VStr s ->
        (ITDeveloperFilterStage._is_it_position v = true <->
         has_indicator ITDeveloperFilterStage.PRIMARY_KEYWORDS (str_lower s)
         \/ has_indicator ITDeveloperFilterStage.TECH_STACK_KEYWORDS (str_lower s)
         \/ (has_indicator ITDeveloperFilterStage.AMBIGUOUS_KEYWORDS (str_lower s)
             /\ has_indicator ITDeveloperFilterStage.IT_CONTEXT_INDICATORS (str_lower s))))
  /\ (forall s, v = VStr s ->
        is_substring (u "project manager") (str_lower s) ->
        ITDeveloperFilterStage._is_it_position v = true).
Proof.
  assert (Hiff : forall s,
    ITDeveloperFilterStage._is_it_position (VStr s) = true <->
    has_indicator ITDeveloperFilterStage.PRIMARY_KEYWORDS (str_lower s)
    \/ has_indicator ITDeveloperFilterStage.TECH_STACK_KEYWORDS (str_lower s)
    \/ (has_indicator ITDeveloperFilterStage.AMBIGUOUS_KEYWORDS (str_lower s)
        /\ has_indicator ITDeveloperFilterStage.IT_CONTEXT_INDICATORS (str_lower s))).
  { intros s. cbn [ITDeveloperFilterStage._is_it_position]. cbv zeta.
    rewrite <- !any_in_indicator.
    destruct (any_in ITDeveloperFilterStage.PRIMARY_KEYWORDS (str_lower s));
      [intuition|].
    destruct (any_in ITDeveloperFilterStage.TECH_STACK_KEYWORDS (str_lower s));
      [intuition|].
    destruct (any_in ITDeveloperFilterStage.AMBIGUOUS_KEYWORDS (str_lower s));
      [|intuition discriminate].
    destruct (any_in ITDeveloperFilterStage.IT_CONTEXT_INDICATORS (str_lower s));
      intuition discriminate. }
  split; [|split; [|split]].
  - destruct v as [s|n|f]; [|reflexivity..].
    cbn [FilterITRolesHandler.is_it_role ITDeveloperFilterStage._is_it_position].
    destruct filter_keywords_equal as [E1 [E2 [E3 E4]]].
    rewrite E1, E2, E3, E4. reflexivity.
  - destruct v; [discriminate|reflexivity..].
  - intros s ->. apply Hiff.
  - intros s -> Hsub. apply Hiff. left.
    exists (u "project manager"). split; [apply project_manager_primary|exact Hsub].
Qed.

End FilterPredicate.

(** ** Keyword flags on cells that are no text *)

Lemma mapM_raises {A B : Type} (f : A -> result B) (e : exn) (l : list A) :
  (forall a, In a l -> f a = Raise e \/ exists b, f a = Ok b) ->
  (exists a, In a l /\ f a = Raise e) ->
  mapM f l = Raise e.
Proof.
  induction l as [|a l IH]; intros Hall [x [Hin Hx]]; [destruct Hin|].
  cbn [mapM]. destruct (Hall a (or_introl eq_refl)) as [Ha|[b Ha]]; rewrite Ha;
    [reflexivity|]. cbn [bind].
  rewrite IH; [reflexivity| |].
  - intros y Hy. apply Hall. now right.
  - destruct Hin as [<-|Hin]; [congruence|eauto].
Qed.

Section FlagHandlers.
Context {U : Unicode}.

Lemma check_keywords_cases (keywords : list str) (v : value) :
  (forall s, v = VStr s -> check_keywords keywords v = keyword_flag keywords v)
  /\ (is_str v = false -> check_keywords keywords v = Raise AttributeError).
Proof.
  split.
  - intros s ->. reflexivity.
  - destruct v; [discriminate|reflexivity..].
Qed.

Lemma check_column_raises (keywords : list str) (source : column) :
  (exists v, In v (cells source) /\ is_str v = false) ->
  apply (check_keywords keywords) source = Raise AttributeError.
Proof.
  intros [v [Hin Hv]]. unfold apply. apply mapM_raises.
  - intros a _. destruct a; [right; eexists; reflexivity|left; reflexivity..].
  - exists v. split; [assumption|now apply check_keywords_cases].
Qed.

(** X19.  The keyword-flag functions of the handlers lowercase the cell
    itself: on a text they give the flag the staged extractors give, on a
    cell that is no text they raise [AttributeError].  So the employment,
    schedule and education handlers raise [AttributeError] on a table
    whose source column holds such a cell.  The staged flag, working on
    [str(x)], is 0 or 1 on every cell. *)
Theorem handler_flags_need_text (keywords : list str) (v : value) :
  (forall s, v = VStr s -> check_keywords keywords v = keyword_flag keywords v)
  /\ (is_str v = false -> check_keywords keywords v = Raise AttributeError)
  /\ (exists flag, keyword_flag keywords v = Ok (VInt flag) /\ (flag = 0 \/ flag = 1))
  /\ (forall ctx t source,
        df ctx = Some t ->
        In v (cells source) ->
        is_str v = false ->
        (get_column t (u "Занятость") = Ok source ->
         ParseEmploymentHandler._process ctx = Raise AttributeError)
        /\ (get_column t (u "График") = Ok source ->
            ParseWorkScheduleHandler._process ctx = Raise AttributeError)
        /\ (get_column t (u "Образование и ВУЗ") = Ok source ->
            ParseEducationHandler._process ctx = Raise AttributeError)).
Proof.
  split; [apply check_keywords_cases|]. split; [apply check_keywords_cases|]. split.
  - unfold keyword_flag.
    destruct (existsb _ keywords); eexists; (split; [reflexivity|auto]).
  - intros ctx t source Hdf Hin Hv.
    assert (Hraise : forall kws, apply (check_keywords kws) source = Raise AttributeError).
    { intros kws. apply check_column_raises. eauto. }
    repeat split; intros Hget.
    + unfold ParseEmploymentHandler._process, ParseEmploymentHandler.employment_map,
        ParseEmploymentHandler.check_employment.
      rewrite Hdf. cbn [copy bind foldM]. rewrite Hget. cbn [bind].
      rewrite Hraise. reflexivity.
    + unfold ParseWorkScheduleHandler._process, ParseWorkScheduleHandler.schedule_map,
        ParseWorkScheduleHandler.check_schedule.
      rewrite Hdf. cbn [copy bind foldM]. rewrite Hget. cbn [bind].
      rewrite Hraise. reflexivity.
    + unfold ParseEducationHandler._process, ParseEducationHandler.mapping.
      rewrite Hdf. cbn [copy bind foldM]. rewrite Hget. cbn [bind].
      rewrite Hraise. reflexivity.
Qed.

End FlagHandlers.

(** ** Stages that return whatever the cells hold *)

Section StagesReturn.
Context {U : Unicode}.


End StagesReturn.

(** ** The properties at concrete tables *)

Lemma filter_keeps_it_rows_witness :
  exists t',
    @ITDeveloperFilterStage.execute BasicUnicode container_without_experience
    = Ok (set_processed_data container_without_experience t')
    /\ column_names t' = column_names titles_without_experience
    /\ rows t'
       = filter (fun r => @ITDeveloperFilterStage._is_it_position BasicUnicode
                            (dict_get r ITDeveloperFilterStage.job_title_column NaN))
                (rows titles_without_experience)
    /\ index t'
       = map fst (filter (fun x => @ITDeveloperFilterStage._is_it_position BasicUnicode (snd x))
                         (combine (index titles_without_experience) (cells sample_titles)))
    /\ well_formed t'.
Proof.
  apply (@filter_keeps_it_rows BasicUnicode container_without_experience
           titles_without_experience sample_titles).
  - reflexivity.
  - repeat constructor.
  - discriminate.
  - vm_compute. reflexivity.
Defined.

Lemma filter_idempotent_witness :
  @ITDeveloperFilterStage.execute BasicUnicode filtered_container = Ok filtered_container.
Proof.
  eapply (@filter_idempotent BasicUnicode container_without_experience filtered_container
            titles_without_experience).
  - reflexivity.
  - repeat constructor.
  - vm_compute. reflexivity.
  - reflexivity.
  - discriminate.
Defined.

Lemma staged_labels_per_row_witness :
  exists t t' labels,
    processed_data before_labeling = Some t
    /\ processed_data after_labeling = Some t'
    /\ target_vector after_labeling = Some labels
    /\ index t' = index t
    /\ List.length labels = List.length (index t)
    /\ Forall (fun v => In v [VStr Junior; VStr Middle; VStr Senior]) labels
    /\ get_column t' (u "developer_level") = Ok (new_column (u "developer_level") labels).
Proof.
  apply (@staged_labels_per_row BasicUnicode before_labeling after_labeling).
  vm_compute. reflexivity.
Defined.

Lemma handler_labels_per_row_witness :
  exists t t' labels,
    df context_without_experience = Some t
    /\ df context_after_labeling = Some t'
    /\ target context_after_labeling = Some labels
    /\ index t' = index t
    /\ List.length labels = List.length (index t)
    /\ Forall (fun v => In v [VStr Junior; VStr Middle; VStr Senior]) labels
    /\ get_column t' (u "grade") = Ok (new_column (u "grade") labels).
Proof.
  apply (@handler_labels_per_row BasicUnicode context_without_experience
           context_after_labeling).
  vm_compute. reflexivity.
Defined.

Lemma label_monotone_in_experience_witness :
  exists l l',
    @DeveloperLevelLabelerStage._determine_level BasicUnicode (conflict_row 12) = Ok l
    /\ @DeveloperLevelLabelerStage._determine_level BasicUnicode (conflict_row 48) = Ok l'
    /\ (level_rank l <= level_rank l')%nat.
Proof.
  apply (proj1 (@label_monotone_in_experience BasicUnicode)
           (conflict_row 12) (conflict_row 48) 12 48);
    [reflexivity|reflexivity|reflexivity|lia].
Defined.

Lemma title_keywords_bound_label_witness :
  exists l,
    @DeveloperLevelLabelerStage._determine_level BasicUnicode
      (plain_row "Junior developer" 100) = Ok l
    /\ l <> Senior.
Proof.
  exists Middle. split; [vm_compute; reflexivity|].
  apply (proj2 (@title_keywords_bound_label BasicUnicode
                  (plain_row "Junior developer" 100) Middle eq_refl)).
  - apply any_in_indicator. vm_compute. reflexivity.
  - apply any_in_no_indicator. vm_compute. reflexivity.
Defined.



Lemma age_parsers_agree_witness :
  @PersonalInfoExtractorStage._parse_age BasicUnicode
    (VStr (u "Мужчина , 39 лет , родился 27 ноября 1979")) = Ok 39.
Proof.
  apply (proj1 (proj2 (@age_parsers_agree_where_handler_returns BasicUnicode
                         (VStr (u "Мужчина , 39 лет , родился 27 ноября 1979"))))).
  vm_compute. reflexivity.
Defined.

Lemma birth_month_parsers_witness :
  PersonalInfoExtractorStage._parse_birth_month (VStr (u "Мужчина , 39 лет , родился"))
  = Raise IndexError.
Proof.
  apply (proj2 (proj2 (proj2 (proj2 (birth_month_parsers
                                       (VStr (u "Мужчина , 39 лет , родился"))))))).
  exists (u "Мужчина , 39 лет , родился"), (u " родился").
  split; [reflexivity|split; vm_compute; reflexivity].
Defined.

Lemma city_region_witness :
  LocationExtractorStage.region_of LocationExtractorStage.REGION_MAPPING (u "Казань")
  = u "Volga Federal District".
Proof.
  eapply (proj2 (proj2 (proj2 (city_region (VStr (u "Казань")))))).
  - do 3 right. left. reflexivity.
  - left. reflexivity.
Defined.

Lemma encoding_leaves_no_text_column_witness :
  exists t',
    @CategoricalEncoderStage.encode BasicUnicode labelled_table = Ok t'
    /\ index t' = index labelled_table
    /\ (well_formed labelled_table -> well_formed t')
    /\ (forall c, In c (columns t') -> cdtype c = DObject ->
                  cname c = CategoricalEncoderStage.target_col)
    /\ (forall c, In c (columns labelled_table) ->
                  cdtype c <> DObject \/ cname c = CategoricalEncoderStage.target_col ->
                  In c (columns t')).
Proof.
  apply (@encoding_leaves_no_text_column BasicUnicode labelled_table).
  apply distinct_nodup. vm_compute. reflexivity.
Defined.


Lemma missing_source_column_raises_witness :
  @ITDeveloperFilterStage.execute BasicUnicode container_without_target = Raise KeyError.
Proof.
  apply (proj1 (@missing_source_column_raises BasicUnicode container_without_target
                  table_without_target eq_refl)).
  vm_compute. reflexivity.
Defined.

Lemma misc_columns_optional_witness :
  @MiscExtractorStage.execute BasicUnicode container_without_target
  = Ok (set_processed_data container_without_target table_without_target)
  /\ @ParseResume._process BasicUnicode context_without_target = Raise KeyError
  /\ ParseAutoHandler._process context_without_target = Raise KeyError
  /\ ParseLastPlaceHandler._process context_without_target = Raise KeyError.
Proof.
  apply (@misc_columns_optional_in_stage_only BasicUnicode container_without_target
           context_without_target table_without_target);
    vm_compute; reflexivity.
Defined.

Lemma salary_digit_groups_witness :
  @SalaryExtractorStage._normalize_salary BasicUnicode (VStr (u "1 000 USD"))
  = Ok (fmul (Z2F 1000)
          (dict_get SalaryExtractorStage.CURRENCY_RATES
             (strip (join [space] [u "USD"])) float_one)).
Proof.
  apply (proj1 (@salary_digit_groups BasicUnicode (u "1 000 USD") [u "1"; u "000"]
                  (Z2F 1000) eq_refl eq_refl) (u "USD") []);
    vm_compute; reflexivity.
Defined.

Lemma it_position_test_witness :
  @ITDeveloperFilterStage._is_it_position BasicUnicode (VStr (u "Senior Project Manager"))
  = true.
Proof.
  apply (proj2 (proj2 (proj2 (@it_position_test BasicUnicode
                                (VStr (u "Senior Project Manager")))))
           (u "Senior Project Manager") eq_refl).
  exists (u "senior "), []. vm_compute. reflexivity.
Defined.

Lemma handler_flags_need_text_witness :
  @ParseEmploymentHandler._process BasicUnicode context_with_missing_cell
  = Raise AttributeError.
Proof.
  apply (proj1 (proj2 (proj2 (proj2 (@handler_flags_need_text BasicUnicode [] NaN)))
                  context_with_missing_cell employment_with_missing_cell employment_column
                  eq_refl (or_intror (or_introl eq_refl)) eq_refl)).
  vm_compute. reflexivity.
Defined.

